(** * postfix-tlspol: policy resolver, cache and socketmap front end

    A shallow embedding of [internal/server.go] (the socketmap daemon, module
    [Server]) and of the single-file resolver with its DANE and MTA-STS
    evaluators and its older handler (module [Legacy]), and the properties
    the specification states about them, followed in each part by further
    properties read off the code: the cache path of a query, the schema tag,
    the command-line query, and the scheduling, discovery and pattern list
    of the evaluators.

    Go values are embedded as follows: [string] is a byte string (one [ascii]
    per byte); [uint32], [uint8] and [int] are [Z] with the wrap-around
    written out where the code can reach it; a Go [error] is an [option]
    whose [None] is [nil]; a channel is the list of values in the order they
    are received, and the scheduler's choices are parameters. What the code
    takes from other packages (Unicode-aware string functions, validators,
    the DNS exchange, HTTP, the random source) is a [Variable] of the section
    that uses it. *)

From Stdlib Require Import ZArith List String Ascii Bool Lia Permutation.
From Stdlib Require Import DecimalString.
From stdpp Require Import gmap strings.
Import ListNotations.

Local Open Scope string_scope.
Local Open Scope Z_scope.

(** Go's [==] on strings. *)
Infix "==" := String.eqb (at level 70, no associativity).

(** ** Go's [strings] package, byte-exact part *)

Module Strings.

(** [strings.HasPrefix(s, prefix)] *)
Definition HasPrefix (s prefix : string) : bool := String.prefix prefix s.

(** [s[n:]] *)
Fixpoint slice_from (n : nat) (s : string) : string :=
  match n, s with
  | O, _ => s
  | S _, EmptyString => EmptyString
  | S k, String _ s' => slice_from k s'
  end.

(** [strings.Cut(s, sep)]: the text before and after the first [sep]. *)
Fixpoint Cut (s sep : string) : option (string * string) :=
  if String.prefix sep s then Some (EmptyString, slice_from (String.length sep) s)
  else match s with
       | EmptyString => None
       | String c s' =>
           match Cut s' sep with
           | Some (before, after) => Some (String c before, after)
           | None => None
           end
       end.

(** The loop of [genSplit] for a non-empty separator and [n > 0] pieces:
    cut at [sep] while more than one piece is still allowed, the rest of
    the text is the last piece. *)
Fixpoint genSplit (s sep : string) (n : nat) : list string :=
  match n with
  | O => []
  | S O => [s]
  | S n' =>
      match Cut s sep with
      | None => [s]
      | Some (before, after) => before :: genSplit after sep n'
      end
  end.

(** [strings.SplitN(s, sep, n)] for [n >= 0] and a non-empty [sep]. *)
Definition SplitN (s sep : string) (n : nat) : list string := genSplit s sep n.

(** [strings.Split(s, sep)] for a non-empty [sep]: no limit on the pieces
    ([genSplit] caps the count at [len(s) + 1]). *)
Definition Split (s sep : string) : list string :=
  genSplit s sep (S (String.length s)).

(** [strings.Join(elems, sep)] *)
Fixpoint Join (elems : list string) (sep : string) : string :=
  match elems with
  | [] => EmptyString
  | [e] => e
  | e :: rest => e ++ sep ++ Join rest sep
  end.

End Strings.

Import Strings.

Example Split_colon : Split "mx: a.example:25" ":" = ["mx"; " a.example"; "25"].
Proof. reflexivity. Qed.

Example Split_nosep : Split "enforce" ":" = ["enforce"].
Proof. reflexivity. Qed.

Example SplitN_two : SplitN "QUERY a b" " " 2 = ["QUERY"; "a b"].
Proof. reflexivity. Qed.

Example SplitN_emptyarg : SplitN "QUERY " " " 2 = ["QUERY"; ""].
Proof. reflexivity. Qed.

Example SplitN_noarg : SplitN "QUERY" " " 2 = ["QUERY"].
Proof. reflexivity. Qed.

(** ** Go's [strings] package, Unicode-aware part, on 7-bit text

    [strings.ToUpper], [strings.ToLower] and [strings.TrimSpace] work on
    runes. The daemon is stated over any three such functions; this module
    gives what they compute on text whose bytes are all below 0x80, for the
    examples. *)

Module Ascii7.

Definition code (c : ascii) : N := N_of_ascii c.

Definition is_upper (c : ascii) : bool := (65 <=? code c)%N && (code c <=? 90)%N.
Definition is_lower (c : ascii) : bool := (97 <=? code c)%N && (code c <=? 122)%N.
Definition is_letter (c : ascii) : bool := is_upper c || is_lower c.

Definition to_lower (c : ascii) : ascii :=
  if is_upper c then ascii_of_N (code c + 32) else c.
Definition to_upper (c : ascii) : ascii :=
  if is_lower c then ascii_of_N (code c - 32) else c.

(** The six bytes of [asciiSpace]: tab, line feed, vertical tab, form feed,
    carriage return and space. *)
Definition is_space (c : ascii) : bool :=
  ((9 <=? code c)%N && (code c <=? 13)%N) || (code c =? 32)%N.

Fixpoint map_bytes (f : ascii -> ascii) (s : string) : string :=
  match s with
  | EmptyString => EmptyString
  | String c s' => String (f c) (map_bytes f s')
  end.

Definition ToLower : string -> string := map_bytes to_lower.
Definition ToUpper : string -> string := map_bytes to_upper.

Fixpoint TrimLeft (s : string) : string :=
  match s with
  | EmptyString => EmptyString
  | String c s' => if is_space c then TrimLeft s' else s
  end.

Fixpoint TrimRight (s : string) : string :=
  match s with
  | EmptyString => EmptyString
  | String c s' =>
      let t := TrimRight s' in
      if is_space c && (t == "") then EmptyString else String c t
  end.

Definition TrimSpace (s : string) : string := TrimRight (TrimLeft s).

End Ascii7.

(** ** [strconv] *)

Module Strconv.

Definition is_digit (c : ascii) : bool :=
  (48 <=? Ascii7.code c)%N && (Ascii7.code c <=? 57)%N.

Fixpoint all_bytes (p : ascii -> bool) (s : string) : bool :=
  match s with
  | EmptyString => true
  | String c s' => p c && all_bytes p s'
  end.

(** The value of a digit string after [acc]. *)
Fixpoint number (acc : Z) (s : string) : Z :=
  match s with
  | EmptyString => acc
  | String c s' => number (10 * acc + (Z.of_N (Ascii7.code c) - 48)) s'
  end.

(** [strconv.ParseUint(s, 10, bitSize)]: the value, or nothing when [s] is
    empty, holds a byte that is not a decimal digit, or does not fit. *)
Definition ParseUint_10 (s : string) (bitSize : Z) : option Z :=
  if (s == "") || negb (all_bytes is_digit s) then None
  else
    let n := number 0 s in
    if n <? 2 ^ bitSize then Some n else None.

End Strconv.

Example ParseUint_examples :
  map (fun s => Strconv.ParseUint_10 s 32)
    ["86400"; "4294967295"; "4294967296"; ""; "12a"; "-1"; "007"]
  = [Some 86400; Some 4294967295; None; None; None; None; Some 7].
Proof. reflexivity. Qed.

(** Two byte strings that differ at most in the case of ASCII letters. *)
Definition same_letter (c1 c2 : ascii) : bool :=
  Ascii.eqb c1 c2
  || (Ascii7.is_letter c1 && Ascii7.is_letter c2
      && Ascii.eqb (Ascii7.to_lower c1) (Ascii7.to_lower c2)).

Fixpoint same_but_case (a b : string) : bool :=
  match a, b with
  | EmptyString, EmptyString => true
  | String c1 a', String c2 b' => same_letter c1 c2 && same_but_case a' b'
  | _, _ => false
  end.

Example TrimSpace_example :
  Ascii7.ToLower (Ascii7.TrimSpace "  Mail.Example.COM ") = "mail.example.com".
Proof. reflexivity. Qed.

Example same_but_case_example :
  same_but_case "Example.COM" "eXample.com" = true
  /\ same_but_case "example.com" "example.org" = false.
Proof. split; reflexivity. Qed.

(** ** [crypto/sha256] and [encoding/base32]

    The two standard-library functions [getCacheKey] calls, on bytes as
    numbers in [0, 256). *)

Module Sha256.

Definition w32 (x : Z) : Z := x mod 2 ^ 32.
Definition rotr (n x : Z) : Z := Z.lor (Z.shiftr x n) (w32 (Z.shiftl x (32 - n))).
Definition Ch (x y z : Z) : Z :=
  Z.lxor (Z.land x y) (Z.land (Z.lxor x 0xffffffff) z).
Definition Maj (x y z : Z) : Z :=
  Z.lxor (Z.lxor (Z.land x y) (Z.land x z)) (Z.land y z).
Definition bsig0 (x : Z) : Z := Z.lxor (Z.lxor (rotr 2 x) (rotr 13 x)) (rotr 22 x).
Definition bsig1 (x : Z) : Z := Z.lxor (Z.lxor (rotr 6 x) (rotr 11 x)) (rotr 25 x).
Definition ssig0 (x : Z) : Z := Z.lxor (Z.lxor (rotr 7 x) (rotr 18 x)) (Z.shiftr x 3).
Definition ssig1 (x : Z) : Z := Z.lxor (Z.lxor (rotr 17 x) (rotr 19 x)) (Z.shiftr x 10).

(** The round constants are the first 32 bits of the fractional parts of
    the cube roots of the first 64 primes, the initial digest those of the
    square roots of the first 8. *)
Definition is_prime (n : nat) : bool :=
  forallb (fun d => negb (n mod d =? 0)%nat) (seq 2 (n - 2)).

Definition primes : list Z := map Z.of_nat (List.filter is_prime (seq 2 310)).

Fixpoint cube_root (bits : nat) (n r : Z) : Z :=
  match bits with
  | O => r
  | S b =>
      let c := r + 2 ^ Z.of_nat b in
      cube_root b n (if c * c * c <=? n then c else r)
  end.

Definition K : list Z := map (fun p => w32 (cube_root 36 (p * 2 ^ 96) 0)) primes.

Definition digest : Type := Z * Z * Z * Z * Z * Z * Z * Z.

Definition init : digest :=
  match map (fun p => w32 (Z.sqrt (p * 2 ^ 64))) primes with
  | a :: b :: c :: d :: e :: f :: g :: h :: _ => (a, b, c, d, e, f, g, h)
  | _ => (0, 0, 0, 0, 0, 0, 0, 0)
  end.

(** The [n] low bytes of [x], most significant first. *)
Definition be_bytes (n : nat) (x : Z) : list Z :=
  map (fun i => Z.shiftr x (8 * Z.of_nat i) mod 256) (rev (seq 0 n)).

(** The padded message: the bytes, 0x80, zeros up to 56 mod 64, and the bit
    length as eight big-endian bytes. *)
Definition pad (msg : list Z) : list Z :=
  let len := Z.of_nat (List.length msg) in
  let zeros := Z.to_nat ((55 - len) mod 64) in
  (msg ++ [0x80] ++ repeat 0 zeros ++ be_bytes 8 (8 * len))%list.

Fixpoint be_words (bytes : list Z) : list Z :=
  match bytes with
  | a :: b :: c :: d :: rest =>
      (Z.shiftl a 24 + Z.shiftl b 16 + Z.shiftl c 8 + d) :: be_words rest
  | _ => []
  end.

(** The message schedule, newest word first: [extend n w] adds [n] words. *)
Fixpoint extend (n : nat) (w : list Z) : list Z :=
  match n with
  | O => w
  | S n' =>
      let x := w32 (ssig1 (nth 1 w 0) + nth 6 w 0 + ssig0 (nth 14 w 0) + nth 15 w 0) in
      extend n' (x :: w)
  end.

Definition round (s : digest) (kw : Z * Z) : digest :=
  let '(a, b, c, d, e, f, g, h) := s in
  let t1 := w32 (h + bsig1 e + Ch e f g + fst kw + snd kw) in
  let t2 := w32 (bsig0 a + Maj a b c) in
  (w32 (t1 + t2), a, b, c, w32 (d + t1), e, f, g).

Definition compress (s : digest) (block : list Z) : digest :=
  let w := rev (extend 48 (rev (be_words block))) in
  let '(a, b, c, d, e, f, g, h) := fold_left round (combine K w) s in
  let '(a0, b0, c0, d0, e0, f0, g0, h0) := s in
  (w32 (a0 + a), w32 (b0 + b), w32 (c0 + c), w32 (d0 + d),
   w32 (e0 + e), w32 (f0 + f), w32 (g0 + g), w32 (h0 + h)).

Fixpoint blocks (n : nat) (bytes : list Z) (s : digest) : digest :=
  match n with
  | O => s
  | S n' => blocks n' (skipn 64 bytes) (compress s (firstn 64 bytes))
  end.

Definition bytes_of_string (s : string) : list Z :=
  map (fun c => Z.of_N (N_of_ascii c)) (list_ascii_of_string s).

(** [sha256.Sum256([]byte(s))]: the 32 bytes of the digest. *)
Definition Sum256 (s : string) : list Z :=
  let p := pad (bytes_of_string s) in
  let '(a, b, c, d, e, f, g, h) := blocks (List.length p / 64) p init in
  (be_bytes 4 a ++ be_bytes 4 b ++ be_bytes 4 c ++ be_bytes 4 d ++
   be_bytes 4 e ++ be_bytes 4 f ++ be_bytes 4 g ++ be_bytes 4 h)%list.

End Sha256.

Module Base32.

(** An [Encoding]: the alphabet and the padding character, [None] for
    [NoPadding]. *)
Record Encoding := mkEncoding {
  encode : list ascii;
  padChar : option ascii
}.

Definition StdEncoding : Encoding :=
  {| encode := list_ascii_of_string "ABCDEFGHIJKLMNOPQRSTUVWXYZ234567";
     padChar := Some "="%char |}.

Definition NoPadding : option ascii := None.

Definition WithPadding (enc : Encoding) (padding : option ascii) : Encoding :=
  {| encode := encode enc; padChar := padding |}.

(** The eight 5-bit groups of a 40-bit quantum. *)
Definition quintets (b0 b1 b2 b3 b4 : Z) : list Z :=
  [ Z.shiftr b0 3;
    Z.land (Z.lor (Z.shiftl b0 2) (Z.shiftr b1 6)) 0x1F;
    Z.land (Z.shiftr b1 1) 0x1F;
    Z.land (Z.lor (Z.shiftl b1 4) (Z.shiftr b2 4)) 0x1F;
    Z.land (Z.lor (Z.shiftl b2 1) (Z.shiftr b3 7)) 0x1F;
    Z.land (Z.shiftr b3 2) 0x1F;
    Z.land (Z.lor (Z.shiftl b3 3) (Z.shiftr b4 5)) 0x1F;
    Z.land b4 0x1F ].

Definition letters (enc : Encoding) (qs : list Z) : list ascii :=
  map (fun q => nth (Z.to_nat q) (encode enc) "="%char) qs.

Definition padding (enc : Encoding) (n : nat) : list ascii :=
  match padChar enc with
  | Some c => repeat c n
  | None => []
  end.

(** [Encode]: full quanta give eight characters; a last quantum of one to
    four bytes gives 2, 4, 5 or 7 characters and then the padding, if any. *)
Fixpoint Encode (enc : Encoding) (src : list Z) : list ascii :=
  match src with
  | [] => []
  | [b0] =>
      (letters enc (firstn 2 (quintets b0 0 0 0 0)) ++ padding enc 6)%list
  | [b0; b1] =>
      (letters enc (firstn 4 (quintets b0 b1 0 0 0)) ++ padding enc 4)%list
  | [b0; b1; b2] =>
      (letters enc (firstn 5 (quintets b0 b1 b2 0 0)) ++ padding enc 3)%list
  | [b0; b1; b2; b3] =>
      (letters enc (firstn 7 (quintets b0 b1 b2 b3 0)) ++ padding enc 1)%list
  | b0 :: b1 :: b2 :: b3 :: b4 :: rest =>
      (letters enc (quintets b0 b1 b2 b3 b4) ++ Encode enc rest)%list
  end.

Definition EncodeToString (enc : Encoding) (src : list Z) : string :=
  string_of_list_ascii (Encode enc src).

End Base32.

Example sha256_constants :
  List.length Sha256.K = 64%nat
  /\ firstn 2 Sha256.K = [0x428a2f98; 0x71374491]
  /\ List.last Sha256.K 0 = 0xc67178f2
  /\ fst Sha256.init = (0x6a09e667, 0xbb67ae85, 0x3c6ef372, 0xa54ff53a,
                        0x510e527f, 0x9b05688c, 0x1f83d9ab).
Proof. vm_compute. repeat split; reflexivity. Qed.

Example sha256_empty :
  Base32.EncodeToString Base32.StdEncoding (Sha256.Sum256 "")
  = "4OYMIQUY7QOBJGX36TEJS35ZEQT24QPEMSNZGTFESWMRW6CSXBKQ====".
Proof. vm_compute. reflexivity. Qed.

Example sha256_abc :
  Sha256.Sum256 "abc" =
    [0xba; 0x78; 0x16; 0xbf; 0x8f; 0x01; 0xcf; 0xea; 0x41; 0x41; 0x40; 0xde;
     0x5d; 0xae; 0x22; 0x23; 0xb0; 0x03; 0x61; 0xa3; 0x96; 0x17; 0x7a; 0x9c;
     0xb4; 0x10; 0xff; 0x61; 0xf2; 0x00; 0x15; 0xad].
Proof. vm_compute. reflexivity. Qed.

Example sha256_two_blocks :
  Base32.EncodeToString (Base32.WithPadding Base32.StdEncoding Base32.NoPadding)
    (Sha256.Sum256
       "aaaaaaaaaaaaaaaaaaaaaaaaaaaaaaaaaaaaaaaaaaaaaaaaaaaaaaaaaaaaaaaa")
  = "77QFJ7T24DFW3RS4HL43MHKSBH2DTBI5WQ6QXJMZOM356FKGNDVQ".
Proof. vm_compute. reflexivity. Qed.

Example sha256_padding_boundary :
  map (fun s => Base32.EncodeToString Base32.StdEncoding (Sha256.Sum256 s))
    ["aaaaaaaaaaaaaaaaaaaaaaaaaaaaaaaaaaaaaaaaaaaaaaaaaaaaaaa";
     "abcdbcdecdefdefgefghfghighijhijkijkljklmklmnlmnomnopnopq"]
  = ["T5BZB6GTBQW5SLWJ6CK3MXRLTLU3BKJFUUSY4JA4T4PJCD3TIMMA====";
     "ESGWUYOSAY4LRZOAE2JQYPTAHGRTZZCZMT7SCZ7W5TW5IGO3A3AQ===="].
Proof. vm_compute. reflexivity. Qed.

Example base32_rfc4648 :
  map (fun s => Base32.EncodeToString Base32.StdEncoding (Sha256.bytes_of_string s))
      ["f"; "fo"; "foo"; "foob"; "fooba"; "foobar"]
  = ["MY======"; "MZXQ===="; "MZXW6==="; "MZXW6YQ="; "MZXW6YTB";
     "MZXW6YTBOI======"].
Proof. vm_compute. reflexivity. Qed.

(** *** Facts about the digest and its encoding *)

Definition is_byte (b : Z) : Prop := 0 <= b < 256.

(** The characters of the standard alphabet: upper-case letters and the
    digits 2 to 7. *)
Definition is_base32_char (c : ascii) : bool :=
  Ascii7.is_upper c || ((50 <=? Ascii7.code c)%N && (Ascii7.code c <=? 55)%N).

Lemma list_ind5 {A : Type} (P : list A -> Prop) :
  P [] -> (forall a, P [a]) -> (forall a b, P [a; b]) ->
  (forall a b c, P [a; b; c]) -> (forall a b c d, P [a; b; c; d]) ->
  (forall a b c d e rest, P rest -> P (a :: b :: c :: d :: e :: rest)) ->
  forall l, P l.
Proof.
  intros H0 H1 H2 H3 H4 H5. fix IH 1.
  intros [|a [|b [|c [|d [|e rest]]]]];
    [apply H0 | apply H1 | apply H2 | apply H3 | apply H4 | apply H5, IH].
Qed.

Lemma be_bytes_length (n : nat) (x : Z) : List.length (Sha256.be_bytes n x) = n.
Proof.
  unfold Sha256.be_bytes.
  rewrite List.length_map, List.length_rev, List.length_seq. reflexivity.
Qed.

Lemma be_bytes_range (n : nat) (x : Z) : List.Forall is_byte (Sha256.be_bytes n x).
Proof.
  unfold Sha256.be_bytes. apply List.Forall_forall. intros b Hb.
  apply List.in_map_iff in Hb as (i & <- & _).
  apply Z.mod_pos_bound. lia.
Qed.

Lemma Sum256_length (s : string) : List.length (Sha256.Sum256 s) = 32%nat.
Proof.
  unfold Sha256.Sum256.
  destruct (Sha256.blocks _ _ _) as [[[[[[[a b] c] d] e] f] g] h].
  rewrite !List.length_app, !be_bytes_length. reflexivity.
Qed.

Lemma Sum256_range (s : string) : List.Forall is_byte (Sha256.Sum256 s).
Proof.
  unfold Sha256.Sum256.
  destruct (Sha256.blocks _ _ _) as [[[[[[[a b] c] d] e] f] g] h].
  repeat (apply List.Forall_app; split); apply be_bytes_range.
Qed.

Lemma land_0x1F (x : Z) : 0 <= Z.land x 0x1F < 32.
Proof.
  change 0x1F with (Z.ones 5). rewrite Z.land_ones by lia.
  apply Z.mod_pos_bound. lia.
Qed.

Lemma quintets_range (b0 b1 b2 b3 b4 : Z) :
  is_byte b0 -> List.Forall (fun q => 0 <= q < 32) (Base32.quintets b0 b1 b2 b3 b4).
Proof.
  intros H0. unfold Base32.quintets.
  repeat (apply List.Forall_cons; [try apply land_0x1F|]); [|constructor].
  rewrite Z.shiftr_div_pow2 by lia. change (2 ^ 3) with 8.
  unfold is_byte in H0. split.
  - apply Z.div_pos; lia.
  - apply Z.div_lt_upper_bound; lia.
Qed.

Lemma letters_alphabet (padding : option ascii) (qs : list Z) :
  List.Forall (fun q => 0 <= q < 32) qs ->
  List.Forall (fun c => is_base32_char c = true)
    (Base32.letters (Base32.WithPadding Base32.StdEncoding padding) qs).
Proof.
  intros H. unfold Base32.letters. apply List.Forall_map.
  eapply List.Forall_impl; [|exact H]. intros q Hq. cbn beta.
  assert (List.Forall (fun c => is_base32_char c = true)
            (Base32.encode Base32.StdEncoding)) as Hall
    by (repeat constructor).
  rewrite List.Forall_forall in Hall. apply Hall.
  change (Base32.encode (Base32.WithPadding Base32.StdEncoding padding))
    with (Base32.encode Base32.StdEncoding).
  cbn beta in Hq. apply List.nth_In.
  assert (List.length (Base32.encode Base32.StdEncoding) = 32%nat) as ->
    by reflexivity.
  lia.
Qed.

Lemma Forall_firstn {A : Type} (P : A -> Prop) (n : nat) (l : list A) :
  List.Forall P l -> List.Forall P (firstn n l).
Proof.
  intros H. revert n. induction H as [|x l Hx Hl IH]; intros [|n]; cbn;
    constructor; auto.
Qed.

Lemma Encode_alphabet (src : list Z) :
  List.Forall is_byte src ->
  List.Forall (fun c => is_base32_char c = true)
    (Base32.Encode (Base32.WithPadding Base32.StdEncoding Base32.NoPadding) src).
Proof.
  induction src as [|a|a b|a b c|a b c d|a b c d e rest IH] using list_ind5;
    intros H; cbn [Base32.Encode].
  - constructor.
  - inversion H; subst. apply List.Forall_app. split; [|constructor].
    apply letters_alphabet, Forall_firstn, quintets_range. assumption.
  - inversion H; subst. apply List.Forall_app. split; [|constructor].
    apply letters_alphabet, Forall_firstn, quintets_range. assumption.
  - inversion H; subst. apply List.Forall_app. split; [|constructor].
    apply letters_alphabet, Forall_firstn, quintets_range. assumption.
  - inversion H; subst. apply List.Forall_app. split; [|constructor].
    apply letters_alphabet, Forall_firstn, quintets_range. assumption.
  - inversion H as [|? ? Ha H']; subst.
    apply List.Forall_app. split.
    + apply letters_alphabet, quintets_range. assumption.
    + apply IH. do 4 (inversion H' as [|? ? _ H'']; subst; clear H';
                      rename H'' into H'). assumption.
Qed.

(** The padded text is the unpadded one followed by ['='] up to a multiple
    of eight characters. *)
Lemma Encode_padding (src : list Z) :
  Base32.Encode Base32.StdEncoding src =
    (Base32.Encode (Base32.WithPadding Base32.StdEncoding Base32.NoPadding) src
     ++ repeat "="%char
          (match (List.length src mod 5)%nat with
           | 1 => 6 | 2 => 4 | 3 => 3 | 4 => 1 | _ => 0
           end)%nat)%list.
Proof.
  induction src as [|a|a b|a b c|a b c d|a b c d e rest IH] using list_ind5;
    try reflexivity.
  cbn [Base32.Encode]. rewrite IH.
  replace (List.length (a :: b :: c :: d :: e :: rest) mod 5)%nat
    with (List.length rest mod 5)%nat.
  - unfold Base32.letters. cbn [Base32.encode Base32.WithPadding].
    rewrite <- List.app_assoc. reflexivity.
  - cbn [List.length].
    replace (S (S (S (S (S (List.length rest))))))
      with (List.length rest + 1 * 5)%nat by lia.
    rewrite Nat.Div0.mod_add. reflexivity.
Qed.

Lemma Encode_length (src : list Z) :
  List.length
    (Base32.Encode (Base32.WithPadding Base32.StdEncoding Base32.NoPadding) src)
  = ((8 * List.length src + 4) / 5)%nat.
Proof.
  induction src as [|a|a b|a b c|a b c d|a b c d e rest IH] using list_ind5;
    try reflexivity.
  cbn [Base32.Encode]. rewrite List.length_app, IH.
  unfold Base32.letters, Base32.quintets. cbn [List.length map].
  replace (8 * S (S (S (S (S (List.length rest)))))  + 4)%nat
    with ((8 * List.length rest + 4) + 8 * 5)%nat by lia.
  rewrite Nat.div_add by lia. lia.
Qed.

Lemma string_of_list_ascii_length (l : list ascii) :
  String.length (string_of_list_ascii l) = List.length l.
Proof. induction l; cbn; congruence. Qed.

Lemma string_of_list_ascii_app (l1 l2 : list ascii) :
  string_of_list_ascii (l1 ++ l2) = string_of_list_ascii l1 ++ string_of_list_ascii l2.
Proof.
  induction l1 as [|c l1 IH]; [reflexivity|].
  cbn [string_of_list_ascii List.app String.append]. rewrite IH. reflexivity.
Qed.

(** *** The specification's base32, in the words of RFC 4648 *)

(** The bytes as one number, the first byte the most significant. *)
Definition spec_number (bytes : list Z) : Z :=
  fold_left (fun n b => 256 * n + b) bytes 0.

(** The bits of the bytes, with zero bits added on the right up to a
    multiple of five, read five at a time from the left. *)
Definition spec_quintets (bytes : list Z) : list Z :=
  let bits := (8 * List.length bytes)%nat in
  let count := ((bits + 4) / 5)%nat in
  let n := spec_number bytes * 2 ^ Z.of_nat (5 * count - bits) in
  map (fun i => (n / 2 ^ Z.of_nat (5 * (count - 1 - i))) mod 32) (seq 0 count).

(** The character of a 5-bit value: [A] to [Z] for 0 to 25, [2] to [7] for
    26 to 31. *)
Definition spec_char (q : Z) : ascii :=
  ascii_of_N (Z.to_N (if q <? 26 then 65 + q else 24 + q)).

Definition spec_base32_nopad (bytes : list Z) : string :=
  string_of_list_ascii (map spec_char (spec_quintets bytes)).

Lemma lor_disjoint (hi lo k : Z) :
  0 <= k -> 0 <= lo < 2 ^ k -> Z.lor (hi * 2 ^ k) lo = hi * 2 ^ k + lo.
Proof.
  intros Hk Hlo.
  assert (Z.land (hi * 2 ^ k) lo = 0) as Hland.
  2:{ rewrite <- Z.lxor_lor by exact Hland. symmetry.
      apply Z.add_nocarry_lxor, Hland. }
  apply Z.bits_inj'. intros n Hn. rewrite Z.land_spec, Z.bits_0.
  destruct (Z.lt_ge_cases n k) as [H|H].
  - rewrite Z.mul_pow2_bits_low by lia. reflexivity.
  - destruct (Z.eq_dec lo 0) as [->|Hne]; [rewrite Z.bits_0; apply andb_false_r|].
    rewrite (Z.bits_above_log2 lo n); [apply andb_false_r | lia |].
    apply Z.log2_lt_pow2; [lia|].
    apply Z.lt_le_trans with (2 ^ k); [lia|]. apply Z.pow_le_mono_r; lia.
Qed.

(** The eight 5-bit groups of Go's loop are the eight groups of five bits
    of the 40-bit number. *)
Lemma quintets_number (b0 b1 b2 b3 b4 : Z) :
  is_byte b0 -> is_byte b1 -> is_byte b2 -> is_byte b3 -> is_byte b4 ->
  let n := spec_number [b0; b1; b2; b3; b4] in
  Base32.quintets b0 b1 b2 b3 b4 =
    [ (n / 2 ^ 35) mod 32; (n / 2 ^ 30) mod 32; (n / 2 ^ 25) mod 32;
      (n / 2 ^ 20) mod 32; (n / 2 ^ 15) mod 32; (n / 2 ^ 10) mod 32;
      (n / 2 ^ 5) mod 32; (n / 2 ^ 0) mod 32 ].
Proof.
  unfold is_byte. cbv zeta. intros H0 H1 H2 H3 H4. unfold spec_number, Base32.quintets.
  cbn [fold_left].
  rewrite !Z.shiftl_mul_pow2, !Z.shiftr_div_pow2 by lia.
  change 0x1F with (Z.ones 5). rewrite !Z.land_ones by lia.
  rewrite (lor_disjoint b0 (b1 / 2 ^ 6) 2)
    by (first [lia | split; [apply Z.div_pos; lia | apply Z.div_lt_upper_bound; lia]]).
  rewrite (lor_disjoint b1 (b2 / 2 ^ 4) 4)
    by (first [lia | split; [apply Z.div_pos; lia | apply Z.div_lt_upper_bound; lia]]).
  rewrite (lor_disjoint b2 (b3 / 2 ^ 7) 1)
    by (first [lia | split; [apply Z.div_pos; lia | apply Z.div_lt_upper_bound; lia]]).
  rewrite (lor_disjoint b3 (b4 / 2 ^ 5) 3)
    by (first [lia | split; [apply Z.div_pos; lia | apply Z.div_lt_upper_bound; lia]]).
  change (2 ^ 0) with 1. change (2 ^ 1) with 2. change (2 ^ 2) with 4.
  change (2 ^ 3) with 8. change (2 ^ 4) with 16. change (2 ^ 5) with 32.
  change (2 ^ 6) with 64. change (2 ^ 7) with 128.
  change (2 ^ 10) with 1024. change (2 ^ 15) with 32768.
  change (2 ^ 20) with 1048576. change (2 ^ 25) with 33554432.
  change (2 ^ 30) with 1073741824. change (2 ^ 35) with 34359738368.
  repeat (f_equal; [Z.div_mod_to_equations; lia|]).
  f_equal. Z.div_mod_to_equations. lia.
Qed.

Lemma spec_number_acc (bytes : list Z) (acc : Z) :
  fold_left (fun n b => 256 * n + b) bytes acc
  = acc * 256 ^ Z.of_nat (List.length bytes) + spec_number bytes.
Proof.
  unfold spec_number. revert acc.
  induction bytes as [|b bytes IH]; intros acc.
  - cbn. lia.
  - cbn [fold_left List.length]. rewrite IH, (IH (256 * 0 + b)).
    rewrite Nat2Z.inj_succ, Z.pow_succ_r by lia. lia.
Qed.

Lemma spec_number_range (bytes : list Z) :
  List.Forall is_byte bytes ->
  0 <= spec_number bytes < 256 ^ Z.of_nat (List.length bytes).
Proof.
  induction 1 as [|b bytes Hb _ IH].
  - cbn. lia.
  - unfold spec_number. cbn [fold_left List.length].
    rewrite spec_number_acc, Nat2Z.inj_succ, Z.pow_succ_r by lia.
    unfold is_byte in Hb.
    assert (0 < 256 ^ Z.of_nat (List.length bytes)) by (apply Z.pow_pos_nonneg; lia).
    nia.
Qed.

Lemma map_seq_shift {A : Type} (f : nat -> A) (a c : nat) :
  map f (seq a c) = map (fun j => f (a + j)%nat) (seq 0 c).
Proof.
  rewrite <- (Nat.add_0_r a) at 1. generalize 0%nat as k.
  induction c as [|c IH]; intros k; [reflexivity|].
  cbn [seq map]. f_equal. rewrite <- IH. f_equal. f_equal. lia.
Qed.

Lemma div_high (g r e k : Z) :
  0 <= e -> 0 <= k -> 0 <= r < 2 ^ e ->
  (g * 2 ^ e + r) / 2 ^ (e + k) = g / 2 ^ k.
Proof.
  intros He Hk Hr. rewrite Z.pow_add_r by lia.
  assert (0 < 2 ^ e) by (apply Z.pow_pos_nonneg; lia).
  assert (0 < 2 ^ k) by (apply Z.pow_pos_nonneg; lia).
  rewrite <- Z.div_div by lia. rewrite Z.div_add_l by lia.
  rewrite (Z.div_small r) by lia. rewrite Z.add_0_r. reflexivity.
Qed.

Lemma div_low (g r e k : Z) :
  0 <= k -> k + 5 <= e ->
  ((g * 2 ^ e + r) / 2 ^ k) mod 32 = (r / 2 ^ k) mod 32.
Proof.
  intros Hk He.
  assert (0 < 2 ^ k) by (apply Z.pow_pos_nonneg; lia).
  replace e with ((e - k - 5) + 5 + k) by lia.
  rewrite !Z.pow_add_r by lia. change (2 ^ 5) with 32.
  replace (g * (2 ^ (e - k - 5) * 32 * 2 ^ k) + r)
    with (g * 2 ^ (e - k - 5) * 32 * 2 ^ k + r) by lia.
  rewrite Z.div_add_l by lia. rewrite Z.add_comm, Z.mod_add by lia.
  reflexivity.
Qed.

Lemma spec_quintets_step (b0 b1 b2 b3 b4 : Z) (rest : list Z) :
  is_byte b0 -> is_byte b1 -> is_byte b2 -> is_byte b3 -> is_byte b4 ->
  List.Forall is_byte rest ->
  spec_quintets (b0 :: b1 :: b2 :: b3 :: b4 :: rest)
  = (Base32.quintets b0 b1 b2 b3 b4 ++ spec_quintets rest)%list.
Proof.
  intros H0 H1 H2 H3 H4 Hrest.
  rewrite (quintets_number b0 b1 b2 b3 b4 H0 H1 H2 H3 H4). cbv zeta.
  unfold spec_quintets.
  set (L := List.length rest).
  set (c := ((8 * L + 4) / 5)%nat).
  set (g := spec_number [b0; b1; b2; b3; b4]).
  set (r := spec_number rest).
  assert (8 * L <= 5 * c <= 8 * L + 4)%nat as Hc.
  { unfold c. pose proof (Nat.div_mod_eq (8 * L + 4) 5) as E.
    pose proof (Nat.mod_upper_bound (8 * L + 4) 5 ltac:(lia)). lia. }
  assert (List.length (b0 :: b1 :: b2 :: b3 :: b4 :: rest) = (L + 5)%nat) as ->
    by (cbn [List.length]; fold L; lia).
  assert (((8 * (L + 5) + 4) / 5)%nat = (8 + c)%nat) as ->.
  { replace (8 * (L + 5) + 4)%nat with ((8 * L + 4) + 8 * 5)%nat by lia.
    rewrite Nat.div_add by lia. fold c. lia. }
  replace (5 * (8 + c) - 8 * (L + 5))%nat with (5 * c - 8 * L)%nat by lia.
  set (P := Z.of_nat (5 * c - 8 * L)).
  set (E := Z.of_nat (5 * c)).
  assert (spec_number (b0 :: b1 :: b2 :: b3 :: b4 :: rest) * 2 ^ P
          = g * 2 ^ E + r * 2 ^ P) as ->.
  { unfold spec_number at 1.
    change (fold_left (fun n b => 256 * n + b) (b0 :: b1 :: b2 :: b3 :: b4 :: rest) 0)
      with (fold_left (fun n b => 256 * n + b) rest g).
    rewrite spec_number_acc. fold r. fold L.
    replace E with (8 * Z.of_nat L + P) by (unfold E, P; lia).
    rewrite Z.pow_add_r by (unfold P; lia).
    change 256 with (2 ^ 8). rewrite <- Z.pow_mul_r by lia. lia. }
  assert (0 <= r * 2 ^ P < 2 ^ E) as Hr.
  { pose proof (spec_number_range rest Hrest) as Hr. fold r L in Hr.
    replace E with (8 * Z.of_nat L + P) by (unfold E, P; lia).
    rewrite Z.pow_add_r by (unfold P; lia).
    change 256 with (2 ^ 8) in Hr. rewrite <- Z.pow_mul_r in Hr by lia.
    assert (0 < 2 ^ P) by (apply Z.pow_pos_nonneg; unfold P; lia). nia. }
  rewrite List.seq_app, List.map_app. f_equal.
  - cbn [seq map].
    assert (forall i k, (i <= 7)%nat -> k = 5 * (7 - Z.of_nat i) ->
              ((g * 2 ^ E + r * 2 ^ P) / 2 ^ Z.of_nat (5 * (8 + c - 1 - i))) mod 32
              = (g / 2 ^ k) mod 32) as Hq.
    { intros i k Hi ->.
      replace (Z.of_nat (5 * (8 + c - 1 - i))) with (E + 5 * (7 - Z.of_nat i))
        by (unfold E; lia).
      rewrite div_high; [reflexivity | unfold E; lia | lia | exact Hr]. }
    rewrite (Hq 0%nat 35), (Hq 1%nat 30), (Hq 2%nat 25), (Hq 3%nat 20),
      (Hq 4%nat 15), (Hq 5%nat 10), (Hq 6%nat 5), (Hq 7%nat 0) by lia.
    reflexivity.
  - change (0 + 8)%nat with 8%nat. rewrite (map_seq_shift _ 8 c). apply List.map_ext_in.
    intros j Hj. apply List.in_seq in Hj.
    replace (5 * (8 + c - 1 - (8 + j)))%nat with (5 * (c - 1 - j))%nat by lia.
    apply div_low; unfold E; lia.
Qed.

Ltac quintet_arith :=
  cbv zeta; unfold spec_quintets, spec_number;
  cbn [List.length fold_left firstn];
  repeat match goal with
         | |- context [Nat.div ?a ?b] =>
             let v := eval vm_compute in (Nat.div a b) in
             change (Nat.div a b) with v
         end;
  cbn [seq map Nat.mul Nat.add Nat.sub Z.of_nat Pos.of_succ_nat Pos.succ];
  repeat match goal with
         | |- context [2 ^ ?k] =>
             let v := eval vm_compute in (2 ^ k) in
             change (2 ^ k) with v
         end;
  repeat (f_equal; try (Z.div_mod_to_equations; lia)).

Lemma spec_quintets_short (a b c d : Z) :
  is_byte a -> is_byte b -> is_byte c -> is_byte d ->
  spec_quintets [] = []
  /\ spec_quintets [a] = firstn 2 (Base32.quintets a 0 0 0 0)
  /\ spec_quintets [a; b] = firstn 4 (Base32.quintets a b 0 0 0)
  /\ spec_quintets [a; b; c] = firstn 5 (Base32.quintets a b c 0 0)
  /\ spec_quintets [a; b; c; d] = firstn 7 (Base32.quintets a b c d 0).
Proof.
  intros Ha Hb Hc Hd.
  assert (is_byte 0) as Hz by (unfold is_byte; lia).
  rewrite (quintets_number a 0 0 0 0), (quintets_number a b 0 0 0),
    (quintets_number a b c 0 0), (quintets_number a b c d 0) by assumption.
  unfold is_byte in *.
  split; [reflexivity|]. repeat split; quintet_arith.
Qed.

Lemma spec_char_letter (padding : option ascii) (q : Z) :
  0 <= q < 32 ->
  nth (Z.to_nat q)
    (Base32.encode (Base32.WithPadding Base32.StdEncoding padding)) "="%char
  = spec_char q.
Proof.
  intros Hq. rewrite <- (Z2Nat.id q) at 2 by lia.
  assert (Z.to_nat q < 32)%nat as Hn by lia.
  generalize dependent (Z.to_nat q). intros n Hn.
  do 32 (destruct n as [|n]; [reflexivity|]). lia.
Qed.

Lemma letters_spec (padding : option ascii) (qs : list Z) :
  List.Forall (fun q => 0 <= q < 32) qs ->
  Base32.letters (Base32.WithPadding Base32.StdEncoding padding) qs
  = map spec_char qs.
Proof.
  intros H. unfold Base32.letters. apply List.map_ext_in.
  intros q Hq. rewrite List.Forall_forall in H.
  apply spec_char_letter, H, Hq.
Qed.

(** Go's unpadded standard encoding is the specification's base32. *)
Lemma Encode_spec (src : list Z) :
  List.Forall is_byte src ->
  Base32.Encode (Base32.WithPadding Base32.StdEncoding Base32.NoPadding) src
  = map spec_char (spec_quintets src).
Proof.
  assert (is_byte 0) as Hz by (unfold is_byte; lia).
  induction src as [|a|a b|a b c|a b c d|a b c d e rest IH] using list_ind5;
    intros H; cbn [Base32.Encode].
  - reflexivity.
  - inversion H as [|? ? Ha _]; subst.
    destruct (spec_quintets_short a 0 0 0 Ha Hz Hz Hz) as (_ & -> & _).
    rewrite letters_spec by (apply Forall_firstn, quintets_range, Ha).
    apply List.app_nil_r.
  - inversion H as [|? ? Ha H1]; subst. inversion H1 as [|? ? Hb _]; subst.
    destruct (spec_quintets_short a b 0 0 Ha Hb Hz Hz) as (_ & _ & -> & _).
    rewrite letters_spec by (apply Forall_firstn, quintets_range, Ha).
    apply List.app_nil_r.
  - inversion H as [|? ? Ha H1]; subst. inversion H1 as [|? ? Hb H2]; subst.
    inversion H2 as [|? ? Hc _]; subst.
    destruct (spec_quintets_short a b c 0 Ha Hb Hc Hz) as (_ & _ & _ & -> & _).
    rewrite letters_spec by (apply Forall_firstn, quintets_range, Ha).
    apply List.app_nil_r.
  - inversion H as [|? ? Ha H1]; subst. inversion H1 as [|? ? Hb H2]; subst.
    inversion H2 as [|? ? Hc H3]; subst. inversion H3 as [|? ? Hd _]; subst.
    destruct (spec_quintets_short a b c d Ha Hb Hc Hd) as (_ & _ & _ & _ & ->).
    rewrite letters_spec by (apply Forall_firstn, quintets_range, Ha).
    apply List.app_nil_r.
  - inversion H as [|? ? Ha H1]; subst. inversion H1 as [|? ? Hb H2]; subst.
    inversion H2 as [|? ? Hc H3]; subst. inversion H3 as [|? ? Hd H4]; subst.
    inversion H4 as [|? ? He Hrest]; subst.
    rewrite (spec_quintets_step a b c d e rest Ha Hb Hc Hd He Hrest).
    rewrite List.map_app, <- (IH Hrest).
    rewrite letters_spec by (apply quintets_range, Ha). reflexivity.
Qed.

(** *** The 7-bit functions respect letter case *)

Lemma letter_not_space (c : ascii) :
  Ascii7.is_letter c = true -> Ascii7.is_space c = false.
Proof. destruct c as [[] [] [] [] [] [] [] []]; vm_compute; congruence. Qed.

Lemma same_letter_lower (c1 c2 : ascii) :
  same_letter c1 c2 = true -> Ascii7.to_lower c1 = Ascii7.to_lower c2.
Proof.
  unfold same_letter. intros H. apply orb_true_iff in H as [H|H].
  - apply Ascii.eqb_eq in H. congruence.
  - apply andb_true_iff in H as [_ H]. apply Ascii.eqb_eq in H. exact H.
Qed.

Lemma same_letter_space (c1 c2 : ascii) :
  same_letter c1 c2 = true -> Ascii7.is_space c1 = Ascii7.is_space c2.
Proof.
  unfold same_letter. intros H. apply orb_true_iff in H as [H|H].
  - apply Ascii.eqb_eq in H. congruence.
  - apply andb_true_iff in H as [H _]. apply andb_true_iff in H as [H1 H2].
    rewrite (letter_not_space _ H1), (letter_not_space _ H2). reflexivity.
Qed.

Lemma ToLower_same_but_case (a b : string) :
  same_but_case a b = true -> Ascii7.ToLower a = Ascii7.ToLower b.
Proof.
  revert b. induction a as [|c1 a IH]; intros [|c2 b] H; cbn in H;
    try discriminate; [reflexivity|].
  apply andb_true_iff in H as [Hc H]. cbn.
  rewrite (same_letter_lower _ _ Hc), (IH _ H). reflexivity.
Qed.

Lemma same_but_case_empty (a b : string) :
  same_but_case a b = true -> (a == "") = (b == "").
Proof. destruct a, b; cbn; congruence. Qed.

Lemma TrimLeft_same_but_case (a b : string) :
  same_but_case a b = true ->
  same_but_case (Ascii7.TrimLeft a) (Ascii7.TrimLeft b) = true.
Proof.
  revert b. induction a as [|c1 a IH]; intros [|c2 b] H; cbn in H;
    try discriminate; [reflexivity|].
  pose proof H as H'. apply andb_true_iff in H as [Hc H]. cbn [Ascii7.TrimLeft].
  rewrite (same_letter_space _ _ Hc).
  destruct (Ascii7.is_space c2); [apply IH, H | exact H'].
Qed.

Lemma TrimRight_same_but_case (a b : string) :
  same_but_case a b = true ->
  same_but_case (Ascii7.TrimRight a) (Ascii7.TrimRight b) = true.
Proof.
  revert b. induction a as [|c1 a IH]; intros [|c2 b] H; cbn in H;
    try discriminate; [reflexivity|].
  apply andb_true_iff in H as [Hc H]. cbn [Ascii7.TrimRight].
  specialize (IH _ H).
  rewrite (same_letter_space _ _ Hc), (same_but_case_empty _ _ IH).
  destruct (Ascii7.is_space c2 && (Ascii7.TrimRight b == "")); [reflexivity|].
  cbn. rewrite Hc, IH. reflexivity.
Qed.

Lemma TrimSpace_same_but_case (a b : string) :
  same_but_case a b = true ->
  same_but_case (Ascii7.TrimSpace a) (Ascii7.TrimSpace b) = true.
Proof.
  intros H. apply TrimRight_same_but_case, TrimLeft_same_but_case, H.
Qed.

(** ** The policy resolver of [internal/server.go] *)

Module Server.

Definition CACHE_KEY_PREFIX : string := "TLSPOL-".
Definition CACHE_NOTFOUND_TTL : Z := 600.
Definition CACHE_MIN_TTL : Z := 180.

(** What an evaluator sends on the [results] channel. *)
Record PolicyResult := mkPolicyResult {
  IsDane : bool;
  Policy : string;
  Rpt : string;
  Ttl : Z
}.

(** The verdict a policy string stands for, as [replySocketmap] switches on
    it: the empty string is "no policy", ["TEMP"] a temporary failure, and
    anything else a positive policy of the evaluator that produced it. *)
Inductive verdict := VNone | VTemp | VDane | VMtaSts.

Definition verdict_of (r : PolicyResult) : verdict :=
  if Policy r == "" then VNone
  else if Policy r == "TEMP" then VTemp
  else if IsDane r then VDane else VMtaSts.

(** The receive loop of [queryDomain], [for r := range results { ... }],
    over the results in the order the channel delivers them. [closed] is
    whether [close(results)] has run, [i] the [uint8] counter, [acc] the
    current [policy, report, ttl]. A receive on the open channel with no
    sender left blocks for ever: the loop then yields nothing. *)
Fixpoint range_results (closed : bool) (incoming : list PolicyResult) (i : Z)
    (acc : string * string * Z) : option (string * string * Z) :=
  if closed then Some acc
  else
    match incoming with
    | [] => None
    | r :: rest =>
        let i := (i + 1) mod 256 in
        let closed := 2 <=? i in
        if Policy r == "" then range_results closed rest i acc
        else
          let acc := (Policy r, Rpt r, Ttl r) in
          if IsDane r then Some acc
          else range_results closed rest i acc
    end.

(** Lines 457-461: the TTL given to the merged result. *)
Definition normalize_ttl (policy : string) (ttl : Z) : Z :=
  if policy == "" then CACHE_NOTFOUND_TTL
  else if (policy == "TEMP") || (ttl <? CACHE_MIN_TTL) then CACHE_MIN_TTL
  else ttl.

Section Resolver.

(** The two evaluators (they live in files of their own) and the scheduler's
    choice of which goroutine sends first. *)
Variable checkDane : string -> string * Z.
Variable checkMtaSts : string -> string * string * Z.
Variable daneFirst : string -> bool.

Definition daneResult (domain : string) : PolicyResult :=
  let '(policy, ttl) := checkDane domain in
  {| IsDane := true; Policy := policy; Rpt := ""; Ttl := ttl |}.

Definition mtaStsResult (domain : string) : PolicyResult :=
  let '(policy, rpt, ttl) := checkMtaSts domain in
  {| IsDane := false; Policy := policy; Rpt := rpt; Ttl := ttl |}.

Definition queryDomain (domain : string) : option (string * string * Z) :=
  let d := daneResult domain in
  let m := mtaStsResult domain in
  let results := if daneFirst domain then [d; m] else [m; d] in
  match range_results false results 0 ("", "", CACHE_NOTFOUND_TTL) with
  | None => None
  | Some (policy, report, ttl) => Some (policy, report, normalize_ttl policy ttl)
  end.

(** The result [queryDomain] settles on, as the loop's effect reads: the
    DANE evaluator's whenever its policy is not empty, otherwise the MTA-STS
    evaluator's. *)
Definition chosen (d m : PolicyResult) : PolicyResult :=
  if Policy d == "" then m else d.

(** The merge rule in the specification's words: D if D is Dane, else M if M
    is MtaSts, else Temp if either is Temp, else None. *)
Definition spec_precedence (d m : PolicyResult) : string :=
  match verdict_of d, verdict_of m with
  | VDane, _ => Policy d
  | _, VMtaSts => Policy m
  | VTemp, _ | _, VTemp => "TEMP"
  | _, _ => ""
  end.

Lemma range_results_two (d m : PolicyResult) (first_is_dane : bool) :
  IsDane d = true -> IsDane m = false ->
  range_results false (if first_is_dane then [d; m] else [m; d]) 0
      ("", "", CACHE_NOTFOUND_TTL) =
    Some (if Policy d == "" then
            if Policy m == "" then ("", "", CACHE_NOTFOUND_TTL)
            else (Policy m, Rpt m, Ttl m)
          else (Policy d, Rpt d, Ttl d)).
Proof.
  intros Hd Hm.
  destruct first_is_dane; cbn [range_results];
    change ((0 + 1) mod 256) with 1; change (2 <=? 1) with false;
    change ((1 + 1) mod 256) with 2; change (2 <=? 2) with true;
    cbn [range_results]; rewrite ?Hd, ?Hm;
    destruct (Policy d == ""), (Policy m == ""); reflexivity.
Qed.

Lemma queryDomain_eq (domain : string) :
  let d := daneResult domain in
  let m := mtaStsResult domain in
  queryDomain domain =
    Some (Policy (chosen d m),
          if Policy (chosen d m) == "" then "" else Rpt (chosen d m),
          normalize_ttl (Policy (chosen d m)) (Ttl (chosen d m))).
Proof.
  intros d m. unfold queryDomain. fold d m.
  rewrite (range_results_two d m (daneFirst domain)).
  - unfold chosen.
    destruct (Policy d == "") eqn:Ed.
    + destruct (Policy m == "") eqn:Em.
      * apply String.eqb_eq in Em. rewrite Em. reflexivity.
      * reflexivity.
    + rewrite Ed. reflexivity.
  - unfold d, daneResult. destruct (checkDane domain). reflexivity.
  - unfold m, mtaStsResult. destruct (checkMtaSts domain) as [[? ?] ?]. reflexivity.
Qed.

End Resolver.

(** C1, as amended: whatever the two evaluators return for a domain and
    whichever of them sends first, [queryDomain] returns, and its merged
    policy is the DANE evaluator's when that is not empty (a Dane policy or
    TEMP), and otherwise the MTA-STS evaluator's (a policy, TEMP or empty);
    so the verdict is D's when D is Dane or Temp and M's otherwise, and two
    runs that differ only in the arrival order agree. *)
Theorem queryDomain_precedence
    (checkDane : string -> string * Z)
    (checkMtaSts : string -> string * string * Z)
    (daneFirst daneFirst' : string -> bool) (domain : string) :
  let d := daneResult checkDane domain in
  let m := mtaStsResult checkMtaSts domain in
  let merged := chosen d m in
  queryDomain checkDane checkMtaSts daneFirst domain =
    Some (Policy merged,
          if Policy merged == "" then "" else Rpt merged,
          normalize_ttl (Policy merged) (Ttl merged))
  /\ merged = match verdict_of d with
              | VDane | VTemp => d
              | _ => m
              end
  /\ queryDomain checkDane checkMtaSts daneFirst domain =
       queryDomain checkDane checkMtaSts daneFirst' domain.
Proof.
  intros d m merged. repeat split.
  - apply queryDomain_eq.
  - unfold merged, chosen, verdict_of.
    assert (IsDane d = true) as ->
      by (unfold d, daneResult; destruct (checkDane domain); reflexivity).
    destruct (Policy d == ""); [reflexivity|].
    destruct (Policy d == "TEMP"); reflexivity.
  - rewrite !queryDomain_eq. reflexivity.
Qed.

(** The evaluator results of the counterexample: the DANE lookup failed
    temporarily while MTA-STS found an enforced policy. *)
Definition dane_temp (_ : string) : string * Z := ("TEMP", 0).
Definition sts_enforce (_ : string) : string * string * Z :=
  ("secure match=mx.example.com servername=hostname", "", 86400).

(** C1 as stated fails for D = Temp and M = MtaSts: the stated rule picks the
    MTA-STS policy, [queryDomain] answers TEMP in either arrival order. *)
Lemma queryDomain_temp_beats_mta_sts :
  spec_precedence (daneResult dane_temp "example.com")
                  (mtaStsResult sts_enforce "example.com")
    = "secure match=mx.example.com servername=hostname"
  /\ queryDomain dane_temp sts_enforce (fun _ => true) "example.com"
       = Some ("TEMP", "", 180)
  /\ queryDomain dane_temp sts_enforce (fun _ => false) "example.com"
       = Some ("TEMP", "", 180).
Proof. repeat split; reflexivity. Qed.


Example queryDomain_ttl_dane :
  queryDomain (fun _ => ("dane-only", 30)) (fun _ => ("", "", 0)) (fun _ => false)
    "dane.example" = Some ("dane-only", "", 180).
Proof. reflexivity. Qed.

Example queryDomain_ttl_sts :
  queryDomain (fun _ => ("", 0)) sts_enforce (fun _ => true) "sts.example"
    = Some ("secure match=mx.example.com servername=hostname", "", 86400).
Proof. reflexivity. Qed.

Example queryDomain_ttl_none :
  queryDomain (fun _ => ("", 3600)) (fun _ => ("", "", 7200)) (fun _ => true)
    "none.example" = Some ("", "", 600).
Proof. reflexivity. Qed.

(** *** Structures *)

Module CacheStruct.
Record t := mk { Domain : string; Result : string; Report : string; Ttl : Z }.
End CacheStruct.

Module DanePolicy.
Record t := mk { Policy : string; Ttl : Z; Time : string }.
End DanePolicy.

Module MtaStsPolicy.
Record t := mk { Policy : string; Ttl : Z; Report : string; Time : string }.
End MtaStsPolicy.

Module Result.
Record t := mk {
  Version : string;
  Domain : string;
  Dane : DanePolicy.t;
  MtaSts : MtaStsPolicy.t
}.
End Result.

(** [config.Server.TlsRpt] and [config.Redis.Disable]. *)
Record Config := mkConfig { Server_TlsRpt : bool; Redis_Disable : bool }.

(** Modelled from the spec: [netstring.Marshal] (package
    [internal/utils/netstring]) frames a payload as its length in ASCII
    decimal, a colon, the payload and a comma. *)
Definition Marshal (payload : string) : string :=
  NilZero.string_of_uint (Nat.to_uint (String.length payload))
    ++ ":" ++ payload ++ ",".

Definition NS_NOTFOUND : string := Marshal "NOTFOUND ".
Definition NS_TEMP : string := Marshal "TEMP ".
Definition NS_PERM : string := Marshal "PERM ".

Example NS_frames :
  (NS_NOTFOUND, NS_TEMP, NS_PERM) = ("9:NOTFOUND ,", "5:TEMP ,", "5:PERM ,").
Proof. reflexivity. Qed.

(** [getCacheKey] *)
Definition getCacheKey (domain : string) : string :=
  let hash := Sha256.Sum256 domain in
  CACHE_KEY_PREFIX ++
    Base32.EncodeToString
      (Base32.WithPadding Base32.StdEncoding Base32.NoPadding) hash.

Example getCacheKey_example :
  getCacheKey "example.com"
  = "TLSPOL-UN42N5XOV642KXRXRQIYANHCOUPGQL5LT4WTBKYT2IJFLBWODFDQ".
Proof. vm_compute. reflexivity. Qed.

(** *** The cache backend and the connection

    A value of the key/value store is the JSON text of a [CacheStruct], kept
    decoded, or any other text (the schema tag); with it the store keeps the
    seconds the key has left. The handler's effects are recorded in order:
    what it writes to the connection and every command it sends to the
    store. *)

Inductive cell :=
| JsonEntry (data : CacheStruct.t)
| Text (s : string).

Record State := mkState {
  db : gmap string (cell * Z);
  rand_calls : nat
}.

Inductive event :=
| Write (frame : string)
| WriteJson (r : Result.t)
| Close
| CacheGet (key : string)
| CacheTTL (key : string)
| CacheSet (key : string) (data : CacheStruct.t) (seconds : Z).

Definition M (A : Type) : Type := State -> A * State * list event.

Definition ret {A : Type} (a : A) : M A := fun s => (a, s, []).

Definition bind {A B : Type} (m : M A) (k : A -> M B) : M B :=
  fun s =>
    let '(a, s1, t1) := m s in
    let '(b, s2, t2) := k a s1 in
    (b, s2, (t1 ++ t2)%list).

Notation "x <- m ;; k" := (bind m (fun x => k))
  (at level 100, m at next level, right associativity).
Notation "m ;; k" := (bind m (fun _ => k))
  (at level 100, right associativity).

Definition emit (e : event) : M unit := fun s => (tt, s, [e]).

(** What one pass of the scanner loop of [handleConnection] ends with:
    [continue] (or the end of the body), [return], or a receive that never
    completes. *)
Inductive control := Continue | Return | Blocked.

Definition uint32 (x : Z) : Z := x mod 2 ^ 32.

Definition is_cache_event (e : event) : bool :=
  match e with
  | CacheGet _ | CacheTTL _ | CacheSet _ _ _ => true
  | _ => false
  end.

Definition is_json_reply (e : event) : bool :=
  match e with
  | WriteJson _ => true
  | _ => false
  end.

Definition empty_state : State := {| db := ∅; rand_calls := 0 |}.

Section Daemon.

(** The Unicode-aware functions of package [strings]. *)
Variable ToUpper ToLower TrimSpace : string -> string.
(** The validators of [govalidator]. *)
Variable IsIPv4 IsIPv6 IsDNSName : string -> bool.
(** The evaluators and the order in which their results arrive. *)
Variable checkDane : string -> string * Z.
Variable checkMtaSts : string -> string * string * Z.
Variable daneFirst : string -> bool.
(** The durations [replyJson] measures, already rendered. *)
Variable elapsed : string -> string * string.
(** [rand.Uint32N(60)], by the number of earlier calls. *)
Variable Uint32N_60 : nat -> Z.
(** The constant [PREFETCH_MARGIN] (declared with the prefetcher), the
    configuration and the build version. *)
Variable PREFETCH_MARGIN : Z.
Variable config : Config.
Variable Version : string.

(** The expiry [cacheJsonSet] computes, in [uint32] arithmetic. *)
Definition backend_expiry (ttl jitter : Z) : Z :=
  uint32 (uint32 (ttl + PREFETCH_MARGIN) - jitter).

Definition cacheJsonSet (cacheKey : string) (data : CacheStruct.t) : M unit :=
  fun s =>
    let seconds := backend_expiry (CacheStruct.Ttl data) (Uint32N_60 (rand_calls s)) in
    (tt,
     {| db := <[cacheKey := (JsonEntry data, seconds)]> (db s);
        rand_calls := S (rand_calls s) |},
     [CacheSet cacheKey data seconds]).

Definition zeroCacheStruct : CacheStruct.t := CacheStruct.mk "" "" "" 0.

(** [cacheJsonGet]: the entry, the seconds left and whether an error
    occurred (a missing key, or text that is not an entry). *)
Definition cacheJsonGet (cacheKey : string) : M (CacheStruct.t * Z * bool) :=
  fun s =>
    match db s !! cacheKey with
    | None => ((zeroCacheStruct, 0, true), s, [CacheGet cacheKey])
    | Some (c, seconds) =>
        let res :=
          match c with
          | JsonEntry data => (data, uint32 seconds, false)
          | Text _ => (zeroCacheStruct, uint32 seconds, true)
          end in
        (res, s, [CacheGet cacheKey; CacheTTL cacheKey])
    end.

Definition tryCachedPolicy (domain cacheKey : string) (withTlsRpt : bool) : M bool :=
  if negb (Redis_Disable config) then
    got <- cacheJsonGet cacheKey ;;
    let '(cache, ttl, err) := got in
    if negb err && (PREFETCH_MARGIN <? ttl) then
      (if CacheStruct.Result cache == "" then emit (Write NS_NOTFOUND)
       else if CacheStruct.Result cache == "TEMP" then emit (Write NS_TEMP)
       else
         let result :=
           if withTlsRpt
           then CacheStruct.Result cache ++ " " ++ CacheStruct.Report cache
           else CacheStruct.Result cache in
         emit (Write (Marshal ("OK " ++ result)))) ;;
      ret true
    else ret false
  else ret false.

(** The [Result] that [replyJson] builds once both evaluators are done. *)
Definition jsonResult (domain : string) : Result.t :=
  let '(dPol, dTtl) := checkDane domain in
  let '(msPol, msRpt, msTtl) := checkMtaSts domain in
  Result.mk Version domain
    (DanePolicy.mk dPol dTtl (fst (elapsed domain)))
    (MtaStsPolicy.mk msPol msTtl msRpt (snd (elapsed domain))).

Definition replyJson (domain : string) : M unit :=
  emit (WriteJson (jsonResult domain)).

Definition replySocketmap (domain policy report : string) (ttl : Z)
    (withTlsRpt : bool) : M unit :=
  if policy == "" then emit (Write NS_NOTFOUND)
  else if policy == "TEMP" then emit (Write NS_TEMP)
  else
    let res := if withTlsRpt then policy ++ " " ++ report else policy in
    emit (Write (Marshal ("OK " ++ res))).

(** The body of the scanner loop of [handleConnection] for one frame. *)
Definition handleFrame (query : string) : M control :=
  let parts := SplitN query " " 2 in
  let cmd := ToUpper (nth 0 parts "") in
  let known_tlsrpt :=
    if cmd == "QUERYWITHTLSRPT" then Some true
    else if (cmd == "QUERY") || (cmd == "JSON") then Some (Server_TlsRpt config)
    else None in
  match known_tlsrpt with
  | None => emit (Write NS_PERM) ;; ret Return
  | Some withTlsRpt =>
      if negb (List.length parts =? 2)%nat then
        emit (Write NS_NOTFOUND) ;; ret Continue
      else
        let domain := ToLower (TrimSpace (nth 1 parts "")) in
        if cmd == "JSON" then replyJson domain ;; ret Continue
        else if IsIPv4 domain || IsIPv6 domain then
          emit (Write NS_NOTFOUND) ;; ret Continue
        else if HasPrefix domain "." && IsDNSName (slice_from 1 domain) then
          emit (Write NS_NOTFOUND) ;; ret Continue
        else if negb (IsDNSName domain) then
          emit (Write NS_NOTFOUND) ;; ret Continue
        else
          let cacheKey := getCacheKey domain in
          hit <- tryCachedPolicy domain cacheKey withTlsRpt ;;
          if hit : bool then ret Continue
          else
            match queryDomain checkDane checkMtaSts daneFirst domain with
            | None => ret Blocked
            | Some (policy, report, ttl) =>
                replySocketmap domain policy report ttl withTlsRpt ;;
                if negb (Redis_Disable config) then
                  cacheJsonSet cacheKey (CacheStruct.mk domain policy report ttl) ;;
                  ret Continue
                else ret Continue
            end
  end.

(** [for ns.Scan() { ... }] over the frames the scanner yields. *)
Fixpoint scan (frames : list string) : M control :=
  match frames with
  | [] => ret Continue
  | query :: rest =>
      c <- handleFrame query ;;
      match c with
      | Continue => scan rest
      | _ => ret c
      end
  end.

(** [handleConnection]: the loop, then the deferred [Close]. *)
Definition handleConnection (frames : list string) : M unit :=
  c <- scan frames ;;
  match c with
  | Blocked => ret tt
  | _ => emit Close
  end.

(** *** The front end's replies *)

Lemma known_command (cmd : string) :
  (if cmd == "QUERYWITHTLSRPT" then Some true
   else if (cmd == "QUERY") || (cmd == "JSON") then Some (Server_TlsRpt config)
   else None) = None <->
  cmd <> "QUERYWITHTLSRPT" /\ cmd <> "QUERY" /\ cmd <> "JSON".
Proof.
  destruct (String.eqb_spec cmd "QUERYWITHTLSRPT"),
    (String.eqb_spec cmd "QUERY"), (String.eqb_spec cmd "JSON");
    cbn; intuition congruence.
Qed.

Lemma scan_continue (query : string) (rest : list string) (s s' : State)
    (t : list event) :
  handleFrame query s = (Continue, s', t) ->
  handleConnection (query :: rest) s =
    (let '(u, s'', t') := handleConnection rest s' in (u, s'', (t ++ t')%list)).
Proof.
  intros H. unfold handleConnection, bind. cbn [scan]. unfold bind.
  rewrite H. cbn beta iota. destruct (scan rest s') as [[c s''] t'].
  destruct c; cbn; rewrite ?List.app_nil_r, ?List.app_assoc; reflexivity.
Qed.

(** C7, as amended. For every request frame: an unknown command is answered
    with the netstring ["5:PERM ,"] and the connection is closed, later frames
    unread; a frame of a known command with no argument (no space after the
    command) is answered ["9:NOTFOUND ,"] and the next frame is served; a
    QUERY or QUERYwithTLSRPT frame whose domain is an IP literal, a dot
    before a valid name, or fails the DNS-name check is answered
    ["9:NOTFOUND ,"] with no command sent to the cache, and the next frame is
    served. (A JSON frame that has an argument is answered by [replyJson],
    whatever the argument.) *)
Theorem handleFrame_errors (query : string) (s : State) :
  let parts := SplitN query " " 2 in
  let cmd := ToUpper (nth 0 parts "") in
  let domain := ToLower (TrimSpace (nth 1 parts "")) in
  (cmd <> "QUERYWITHTLSRPT" -> cmd <> "QUERY" -> cmd <> "JSON" ->
     handleFrame query s = (Return, s, [Write "5:PERM ,"])
     /\ forall rest,
         handleConnection (query :: rest) s = (tt, s, [Write "5:PERM ,"; Close]))
  /\ ((cmd = "QUERYWITHTLSRPT" \/ cmd = "QUERY" \/ cmd = "JSON") ->
      List.length parts <> 2%nat ->
      handleFrame query s = (Continue, s, [Write "9:NOTFOUND ,"])
      /\ forall rest,
          handleConnection (query :: rest) s =
            (let '(u, s', t) := handleConnection rest s in
             (u, s', Write "9:NOTFOUND ," :: t)))
  /\ ((cmd = "QUERYWITHTLSRPT" \/ cmd = "QUERY") ->
      List.length parts = 2%nat ->
      IsIPv4 domain || IsIPv6 domain
        || (HasPrefix domain "." && IsDNSName (slice_from 1 domain))
        || negb (IsDNSName domain) = true ->
      handleFrame query s = (Continue, s, [Write "9:NOTFOUND ,"])
      /\ forall rest,
          handleConnection (query :: rest) s =
            (let '(u, s', t) := handleConnection rest s in
             (u, s', Write "9:NOTFOUND ," :: t))).
Proof.
  intros parts cmd domain.
  assert (forall s', handleFrame query s = (Continue, s', [Write "9:NOTFOUND ,"]) ->
          forall rest,
            handleConnection (query :: rest) s =
              (let '(u, s'', t) := handleConnection rest s' in
               (u, s'', Write "9:NOTFOUND ," :: t))) as Hnext.
  { intros s' H rest. rewrite (scan_continue _ rest _ _ _ H).
    destruct (handleConnection rest s') as [[u s''] t]. reflexivity. }
  split; [|split].
  - intros H1 H2 H3.
    assert (handleFrame query s = (Return, s, [Write "5:PERM ,"])) as HF.
    { unfold handleFrame. fold parts. fold cmd.
      rewrite (proj2 (known_command cmd) (conj H1 (conj H2 H3))). reflexivity. }
    split; [exact HF|]. intros rest.
    unfold handleConnection, bind. cbn [scan]. unfold bind.
    rewrite HF. reflexivity.
  - intros Hk Hlen.
    assert (handleFrame query s = (Continue, s, [Write "9:NOTFOUND ,"])) as HF.
    { unfold handleFrame. fold parts. fold cmd.
      apply Nat.eqb_neq in Hlen. rewrite Hlen.
      destruct Hk as [-> | [-> | ->]]; reflexivity. }
    split; [exact HF|]. apply Hnext, HF.
  - intros Hk Hlen Hbad.
    assert (handleFrame query s = (Continue, s, [Write "9:NOTFOUND ,"])) as HF.
    { unfold handleFrame. fold parts. fold cmd.
      apply Nat.eqb_eq in Hlen. rewrite Hlen. fold domain.
      assert (exists w,
        (if cmd == "QUERYWITHTLSRPT" then Some true
         else if (cmd == "QUERY") || (cmd == "JSON")
              then Some (Server_TlsRpt config) else None) = Some w
        /\ (cmd == "JSON") = false) as (w & -> & ->)
        by (destruct Hk as [-> | ->]; eexists; split; reflexivity).
      cbn [negb].
      destruct (IsIPv4 domain || IsIPv6 domain); [reflexivity|].
      destruct (HasPrefix domain "." && IsDNSName (slice_from 1 domain));
        [reflexivity|].
      cbn in Hbad. rewrite Hbad. reflexivity. }
    split; [exact HF|]. apply Hnext, HF.
Qed.

(** C10, as amended. A frame whose command is JSON never touches the cache:
    the state is unchanged and no command is sent to the store. When the
    frame has an argument, [replyJson] runs on the trimmed, lower-cased
    argument and writes the [Result] made of both evaluators' fresh answers,
    and no validator is consulted; when it has none, the reply is
    ["9:NOTFOUND ,"] and the evaluators do not run. *)
Theorem handleFrame_json (query : string) (s : State) :
  let parts := SplitN query " " 2 in
  ToUpper (nth 0 parts "") = "JSON" ->
  (List.length parts = 2%nat ->
     handleFrame query s =
       (Continue, s, [WriteJson (jsonResult (ToLower (TrimSpace (nth 1 parts ""))))]))
  /\ (List.length parts <> 2%nat ->
      handleFrame query s = (Continue, s, [Write "9:NOTFOUND ,"]))
  /\ (exists t,
        handleFrame query s = (Continue, s, t)
        /\ forallb (fun e => negb (is_cache_event e)) t = true).
Proof.
  intros parts Hcmd.
  assert (List.length parts = 2%nat ->
     handleFrame query s =
       (Continue, s, [WriteJson (jsonResult (ToLower (TrimSpace (nth 1 parts ""))))]))
    as H2.
  { intros Hlen. unfold handleFrame. fold parts. rewrite Hcmd.
    apply Nat.eqb_eq in Hlen. rewrite Hlen. reflexivity. }
  assert (List.length parts <> 2%nat ->
      handleFrame query s = (Continue, s, [Write "9:NOTFOUND ,"])) as H1.
  { intros Hlen. unfold handleFrame. fold parts. rewrite Hcmd.
    apply Nat.eqb_neq in Hlen. rewrite Hlen. reflexivity. }
  split; [exact H2|]. split; [exact H1|].
  destruct (Nat.eq_dec (List.length parts) 2%nat) as [E|E].
  - eexists. split; [apply H2, E|reflexivity].
  - eexists. split; [apply H1, E|reflexivity].
Qed.

(** *** The cache write *)

(** C9, as amended. With a jitter in [0, 60), [cacheJsonSet] stores the entry
    under its key with an expiry that is [jitter] below [ttl + PREFETCH_MARGIN]
    modulo 2^32; when that sum does not wrap (it is at least 59 and below
    2^32) the expiry is exactly [ttl + PREFETCH_MARGIN - jitter], within
    [ttl + PREFETCH_MARGIN - 60, ttl + PREFETCH_MARGIN]. *)
Theorem cacheJsonSet_expiry (cacheKey : string) (data : CacheStruct.t) (s : State) :
  let ttl := CacheStruct.Ttl data in
  let jitter := Uint32N_60 (rand_calls s) in
  0 <= jitter < 60 ->
  exists seconds s',
    cacheJsonSet cacheKey data s = (tt, s', [CacheSet cacheKey data seconds])
    /\ db s' !! cacheKey = Some (JsonEntry data, seconds)
    /\ seconds = backend_expiry ttl jitter
    /\ uint32 (uint32 (ttl + PREFETCH_MARGIN) - seconds) = jitter
    /\ (59 <= ttl + PREFETCH_MARGIN < 2 ^ 32 ->
        seconds = ttl + PREFETCH_MARGIN - jitter
        /\ ttl + PREFETCH_MARGIN - 60 <= seconds <= ttl + PREFETCH_MARGIN).
Proof.
  intros ttl jitter Hj. unfold cacheJsonSet. fold ttl jitter.
  eexists _, _. split; [reflexivity|]. cbn [db].
  split; [apply lookup_insert_eq|]. split; [reflexivity|].
  unfold backend_expiry, uint32. split.
  - pose proof (Z.mod_pos_bound (ttl + PREFETCH_MARGIN) (2 ^ 32) ltac:(lia)) as Hb.
    set (a := (ttl + PREFETCH_MARGIN) mod 2 ^ 32) in *.
    destruct (Z_lt_le_dec a jitter).
    + replace (a - jitter) with ((a - jitter + 2 ^ 32) + (-1) * 2 ^ 32) by lia.
      rewrite Z.mod_add by lia. rewrite (Z.mod_small (a - jitter + 2 ^ 32)) by lia.
      replace (a - (a - jitter + 2 ^ 32)) with (jitter + (-1) * 2 ^ 32) by lia.
      rewrite Z.mod_add by lia. apply Z.mod_small. lia.
    + rewrite (Z.mod_small (a - jitter)) by lia.
      replace (a - (a - jitter)) with jitter by lia. apply Z.mod_small. lia.
  - intros Hsum. rewrite (Z.mod_small (ttl + PREFETCH_MARGIN)) by lia.
    rewrite Z.mod_small by lia. lia.
Qed.

(** *** The cache path of a query *)

Definition is_reply (e : event) : bool :=
  match e with
  | Write _ | WriteJson _ => true
  | _ => false
  end.

Definition is_store_write (e : event) : bool :=
  match e with
  | CacheSet _ _ _ => true
  | _ => false
  end.

Definition replies (t : list event) : nat :=
  List.length (List.filter is_reply t).

(** The frame that [replySocketmap] writes for a verdict. *)
Definition reply_frame (policy report : string) (withTlsRpt : bool) : string :=
  if policy == "" then NS_NOTFOUND
  else if policy == "TEMP" then NS_TEMP
  else Marshal ("OK " ++ (if withTlsRpt then policy ++ " " ++ report else policy)).

Lemma replySocketmap_eq (domain policy report : string) (ttl : Z)
    (withTlsRpt : bool) (s : State) :
  replySocketmap domain policy report ttl withTlsRpt s
  = (tt, s, [Write (reply_frame policy report withTlsRpt)]).
Proof.
  unfold replySocketmap, reply_frame.
  destruct (policy == ""); [reflexivity|].
  destruct (policy == "TEMP"); reflexivity.
Qed.

Lemma tryCachedPolicy_eq (domain cacheKey : string) (withTlsRpt : bool)
    (s : State) :
  tryCachedPolicy domain cacheKey withTlsRpt s =
    if Redis_Disable config then (false, s, [])
    else
      match db s !! cacheKey with
      | None => (false, s, [CacheGet cacheKey])
      | Some (JsonEntry data, seconds) =>
          if PREFETCH_MARGIN <? uint32 seconds
          then (true, s,
                [CacheGet cacheKey; CacheTTL cacheKey;
                 Write (reply_frame (CacheStruct.Result data)
                          (CacheStruct.Report data) withTlsRpt)])
          else (false, s, [CacheGet cacheKey; CacheTTL cacheKey])
      | Some (Text _, _) => (false, s, [CacheGet cacheKey; CacheTTL cacheKey])
      end.
Proof.
  unfold tryCachedPolicy. destruct (Redis_Disable config); [reflexivity|].
  cbn [negb]. unfold bind, cacheJsonGet.
  destruct (db s !! cacheKey) as [[[data|txt] seconds]|]; cbn; try reflexivity.
  destruct (PREFETCH_MARGIN <? uint32 seconds); [|reflexivity].
  unfold reply_frame.
  destruct (CacheStruct.Result data == ""); [reflexivity|].
  destruct (CacheStruct.Result data == "TEMP"); reflexivity.
Qed.

(** What [handleFrame] does once the domain of a QUERY has passed the
    validators. *)
Definition lookup_or_evaluate (domain : string) (withTlsRpt : bool) : M control :=
  let cacheKey := getCacheKey domain in
  hit <- tryCachedPolicy domain cacheKey withTlsRpt ;;
  if hit : bool then ret Continue
  else
    match queryDomain checkDane checkMtaSts daneFirst domain with
    | None => ret Blocked
    | Some (policy, report, ttl) =>
        replySocketmap domain policy report ttl withTlsRpt ;;
        if negb (Redis_Disable config) then
          cacheJsonSet cacheKey (CacheStruct.mk domain policy report ttl) ;;
          ret Continue
        else ret Continue
    end.

Lemma lookup_or_evaluate_shape (domain : string) (withTlsRpt : bool) (s : State) :
  exists s' t,
    lookup_or_evaluate domain withTlsRpt s = (Continue, s', t)
    /\ replies t = 1%nat
    /\ forallb (fun e => match e with Close => false | _ => true end) t = true
    /\ (Redis_Disable config = true ->
        s' = s /\ forallb (fun e => negb (is_cache_event e)) t = true)
    /\ (forall key, key <> getCacheKey domain -> db s' !! key = db s !! key).
Proof.
  unfold lookup_or_evaluate, bind. rewrite tryCachedPolicy_eq.
  rewrite queryDomain_eq.
  set (policy := Policy _). set (report := if policy == "" then _ else _).
  set (ttl := normalize_ttl _ _).
  destruct (Redis_Disable config) eqn:Hd.
  - cbn [negb]. cbv beta iota. rewrite replySocketmap_eq. unfold ret.
    eexists _, _. split; [reflexivity|]. repeat split; reflexivity.
  - cbn [negb].
    destruct (db s !! getCacheKey domain) as [[[data|txt] seconds]|];
      [destruct (PREFETCH_MARGIN <? uint32 seconds)|..];
      cbv beta iota; rewrite ?replySocketmap_eq; unfold cacheJsonSet, ret;
      eexists _, _; (split; [reflexivity|]);
      (split; [reflexivity|]); (split; [reflexivity|]);
      (split; [intros; discriminate|]);
      intros key Hne; cbn [db]; rewrite ?lookup_insert_ne by congruence;
      reflexivity.
Qed.

(** Whether the command of a frame is one of the three the switch knows. *)
Definition known (query : string) : bool :=
  let cmd := ToUpper (nth 0 (SplitN query " " 2) "") in
  (cmd == "QUERYWITHTLSRPT") || (cmd == "QUERY") || (cmd == "JSON").

Lemma handleFrame_shape (query : string) (s : State) :
  exists c s' t,
    handleFrame query s = (c, s', t)
    /\ c = (if known query then Continue else Return)
    /\ replies t = 1%nat
    /\ forallb (fun e => match e with Close => false | _ => true end) t = true
    /\ (Redis_Disable config = true ->
        s' = s /\ forallb (fun e => negb (is_cache_event e)) t = true)
    /\ (forall key, (forall d, key <> getCacheKey d) -> db s' !! key = db s !! key).
Proof.
  unfold handleFrame, known.
  set (parts := SplitN query " " 2). set (cmd := ToUpper (nth 0 parts "")).
  set (domain := ToLower (TrimSpace (nth 1 parts ""))).
  assert (forall w, exists c s' t,
    (if negb (List.length parts =? 2)%nat then
       emit (Write NS_NOTFOUND) ;; ret Continue
     else if cmd == "JSON" then replyJson domain ;; ret Continue
     else if IsIPv4 domain || IsIPv6 domain then
       emit (Write NS_NOTFOUND) ;; ret Continue
     else if HasPrefix domain "." && IsDNSName (slice_from 1 domain) then
       emit (Write NS_NOTFOUND) ;; ret Continue
     else if negb (IsDNSName domain) then
       emit (Write NS_NOTFOUND) ;; ret Continue
     else lookup_or_evaluate domain w) s = (c, s', t)
    /\ c = Continue
    /\ replies t = 1%nat
    /\ forallb (fun e => match e with Close => false | _ => true end) t = true
    /\ (Redis_Disable config = true ->
        s' = s /\ forallb (fun e => negb (is_cache_event e)) t = true)
    /\ (forall key, (forall d, key <> getCacheKey d) -> db s' !! key = db s !! key))
    as Hk.
  { intros w.
    destruct (negb (List.length parts =? 2)%nat);
      [eexists _, _, _; repeat split; reflexivity|].
    destruct (cmd == "JSON");
      [eexists _, _, _; repeat split; reflexivity|].
    destruct (IsIPv4 domain || IsIPv6 domain);
      [eexists _, _, _; repeat split; reflexivity|].
    destruct (HasPrefix domain "." && IsDNSName (slice_from 1 domain));
      [eexists _, _, _; repeat split; reflexivity|].
    destruct (negb (IsDNSName domain));
      [eexists _, _, _; repeat split; reflexivity|].
    destruct (lookup_or_evaluate_shape domain w s)
      as (s' & t & H & Hr & Hn & Hd & Hf).
    exists Continue, s', t. split; [exact H|]. split; [reflexivity|].
    split; [exact Hr|]. split; [exact Hn|]. split; [exact Hd|].
    intros key Hkey. apply Hf, Hkey. }
  destruct (cmd == "QUERYWITHTLSRPT").
  - cbn [orb]. apply Hk.
  - destruct ((cmd == "QUERY") || (cmd == "JSON")) eqn:E.
    + replace (false || (cmd == "QUERY") || (cmd == "JSON")) with true
        by (symmetry; exact E).
      apply Hk.
    + replace (false || (cmd == "QUERY") || (cmd == "JSON")) with false
        by (symmetry; exact E).
      eexists _, _, _. repeat split; reflexivity.
Qed.

Lemma replies_app (t1 t2 : list event) :
  replies (t1 ++ t2) = (replies t1 + replies t2)%nat.
Proof. unfold replies. rewrite List.filter_app, List.length_app. reflexivity. Qed.

(** How many frames of a connection are answered: every frame up to and
    including the first whose command is unknown. *)
Fixpoint served (frames : list string) : nat :=
  match frames with
  | [] => 0
  | query :: rest => if known query then S (served rest) else 1
  end.

Lemma scan_shape (frames : list string) (s : State) :
  exists c s' t,
    scan frames s = (c, s', t)
    /\ c <> Blocked
    /\ replies t = served frames
    /\ forallb (fun e => match e with Close => false | _ => true end) t = true
    /\ (Redis_Disable config = true ->
        s' = s /\ forallb (fun e => negb (is_cache_event e)) t = true)
    /\ (forall key, (forall d, key <> getCacheKey d) -> db s' !! key = db s !! key).
Proof.
  revert s. induction frames as [|query rest IH]; intros s.
  - exists Continue, s, []. repeat split; try reflexivity. discriminate.
  - cbn [scan served]. unfold bind.
    destruct (handleFrame_shape query s)
      as (c & s1 & t1 & -> & Hc & Hr & Hn & Hd & Hf).
    destruct (known query); subst c.
    + destruct (IH s1) as (c2 & s2 & t2 & -> & Hc2 & Hr2 & Hn2 & Hd2 & Hf2).
      exists c2, s2, (t1 ++ t2)%list. split; [reflexivity|].
      split; [exact Hc2|]. split; [rewrite replies_app, Hr, Hr2; reflexivity|].
      split; [rewrite forallb_app, Hn, Hn2; reflexivity|]. split.
      * intros H. destruct (Hd H) as [-> Hx]. destruct (Hd2 H) as [-> Hy].
        split; [reflexivity|]. rewrite forallb_app, Hx, Hy. reflexivity.
      * intros key Hkey. rewrite (Hf2 key Hkey). apply Hf, Hkey.
    + exists Return, s1, t1. unfold ret. rewrite List.app_nil_r.
      repeat split; try assumption; try discriminate; apply Hd; assumption.
Qed.

(** X1. A connection is always closed, and before that it gets exactly one
    reply for every frame up to and including the first frame with an unknown
    command, whatever the frames, the cache and the evaluators are; no reply
    is sent for a later frame, and none is skipped. *)
Theorem handleConnection_replies (frames : list string) (s : State) :
  exists s' t,
    handleConnection frames s = (tt, s', (t ++ [Close])%list)
    /\ replies t = served frames
    /\ (served frames <= List.length frames)%nat
    /\ (forallb known frames = true -> served frames = List.length frames)
    /\ forallb (fun e => match e with Close => false | _ => true end) t = true.
Proof.
  destruct (scan_shape frames s) as (c & s' & t & H & Hc & Hr & Hn & _ & _).
  exists s', t. unfold handleConnection, bind. rewrite H.
  split; [destruct c; [reflexivity|reflexivity|congruence]|].
  split; [exact Hr|]. split; [|split; [|exact Hn]].
  - clear. induction frames as [|q rest IH]; cbn [served List.length]; [lia|].
    destruct (known q); lia.
  - clear. induction frames as [|q rest IH]; cbn [served List.length forallb];
      [reflexivity|].
    destruct (known q); [|discriminate]. cbn [andb]. intros H.
    rewrite (IH H). reflexivity.
Qed.

(** X2. With the cache disabled in the configuration, serving a connection
    sends no command to the store and leaves it as it was, whatever the
    frames are. *)
Theorem handleConnection_cache_disabled (frames : list string) (s : State) :
  Redis_Disable config = true ->
  exists t,
    handleConnection frames s = (tt, s, t)
    /\ forallb (fun e => negb (is_cache_event e)) t = true.
Proof.
  intros Hoff.
  destruct (scan_shape frames s) as (c & s' & t & H & Hc & _ & _ & Hd & _).
  destruct (Hd Hoff) as [-> Hq].
  unfold handleConnection, bind. rewrite H.
  destruct c; [| |congruence];
    (eexists; split; [reflexivity|]);
    rewrite forallb_app, Hq; reflexivity.
Qed.

(** X3. [tryCachedPolicy] never changes the store. It answers from the cache
    exactly when the cache is enabled, the key holds a decodable entry and
    the entry has more than [PREFETCH_MARGIN] seconds left; it then writes
    one frame, the one [replySocketmap] writes for the stored policy and
    report. Otherwise it writes nothing, and with the cache disabled it
    sends no command to the store either. *)
Theorem tryCachedPolicy_window (domain cacheKey : string) (withTlsRpt : bool)
    (s : State) :
  exists hit t,
    tryCachedPolicy domain cacheKey withTlsRpt s = (hit, s, t)
    /\ (hit = true <->
        Redis_Disable config = false
        /\ exists data seconds,
             db s !! cacheKey = Some (JsonEntry data, seconds)
             /\ PREFETCH_MARGIN < uint32 seconds)
    /\ (hit = true ->
        forall data seconds ttl,
          db s !! cacheKey = Some (JsonEntry data, seconds) ->
          exists frame,
            t = [CacheGet cacheKey; CacheTTL cacheKey; Write frame]
            /\ replySocketmap domain (CacheStruct.Result data)
                 (CacheStruct.Report data) ttl withTlsRpt s
               = (tt, s, [Write frame]))
    /\ (hit = false -> replies t = 0%nat)
    /\ forallb (fun e => negb (is_store_write e)) t = true
    /\ (Redis_Disable config = true -> t = []).
Proof.
  rewrite tryCachedPolicy_eq.
  destruct (Redis_Disable config).
  { exists false, []. repeat split; try reflexivity; try discriminate.
    intros [? _]. discriminate. }
  destruct (db s !! cacheKey) as [[[data|txt] seconds]|] eqn:E.
  - destruct (Z.ltb_spec PREFETCH_MARGIN (uint32 seconds)) as [Hlt|Hge].
    + eexists _, _. split; [reflexivity|]. repeat split; try discriminate.
      * exists data, seconds. split; [reflexivity|exact Hlt].
      * intros _ data' seconds' ttl [= <- <-]. eexists. split; [reflexivity|].
        apply replySocketmap_eq.
    + eexists _, _. split; [reflexivity|]. repeat split; try discriminate.
      intros (_ & data' & seconds' & [= <- <-] & Hlt). lia.
  - eexists _, _. split; [reflexivity|]. repeat split; try discriminate.
    intros (_ & data' & seconds' & [=] & _).
  - eexists _, _. split; [reflexivity|]. repeat split; try discriminate.
    intros (_ & data' & seconds' & [=] & _).
Qed.

Lemma handleFrame_lookup (query : string) (s : State) :
  let parts := SplitN query " " 2 in
  let cmd := ToUpper (nth 0 parts "") in
  let domain := ToLower (TrimSpace (nth 1 parts "")) in
  cmd = "QUERYWITHTLSRPT" \/ cmd = "QUERY" ->
  List.length parts = 2%nat ->
  IsIPv4 domain || IsIPv6 domain
    || (HasPrefix domain "." && IsDNSName (slice_from 1 domain))
    || negb (IsDNSName domain) = false ->
  handleFrame query s =
    lookup_or_evaluate domain
      (if cmd == "QUERYWITHTLSRPT" then true else Server_TlsRpt config) s.
Proof.
  intros parts cmd domain Hcmd Hlen Hvalid.
  unfold handleFrame. fold parts. fold cmd. fold domain.
  apply Nat.eqb_eq in Hlen. rewrite Hlen. cbn [negb].
  apply orb_false_iff in Hvalid. destruct Hvalid as [Hvalid ->].
  apply orb_false_iff in Hvalid. destruct Hvalid as [-> ->].
  destruct Hcmd as [E | E]; rewrite E; reflexivity.
Qed.

(** X5. A QUERY (or QUERYwithTLSRPT) for a valid domain whose key is not in
    the cache is evaluated: the reply for the merged policy is written and
    the entry is stored with the expiry [cacheJsonSet] computes. If that
    expiry is above [PREFETCH_MARGIN], the same frame is then answered from
    the cache with the same reply, the evaluators' result is not written
    again and the store stays as it is; if it is not, the stored entry is
    ignored and the domain is evaluated and stored again. *)
Theorem query_miss_then_hit (query : string) (s : State) :
  let parts := SplitN query " " 2 in
  let cmd := ToUpper (nth 0 parts "") in
  let domain := ToLower (TrimSpace (nth 1 parts "")) in
  let withTlsRpt := if cmd == "QUERYWITHTLSRPT" then true else Server_TlsRpt config in
  let key := getCacheKey domain in
  cmd = "QUERYWITHTLSRPT" \/ cmd = "QUERY" ->
  List.length parts = 2%nat ->
  IsIPv4 domain || IsIPv6 domain
    || (HasPrefix domain "." && IsDNSName (slice_from 1 domain))
    || negb (IsDNSName domain) = false ->
  Redis_Disable config = false ->
  db s !! key = None ->
  exists policy report ttl frame seconds s',
    queryDomain checkDane checkMtaSts daneFirst domain = Some (policy, report, ttl)
    /\ replySocketmap domain policy report ttl withTlsRpt s = (tt, s, [Write frame])
    /\ handleFrame query s =
         (Continue, s',
          [CacheGet key; Write frame;
           CacheSet key (CacheStruct.mk domain policy report ttl) seconds])
    /\ seconds = backend_expiry ttl (Uint32N_60 (rand_calls s))
    /\ db s' !! key = Some (JsonEntry (CacheStruct.mk domain policy report ttl), seconds)
    /\ (PREFETCH_MARGIN < seconds ->
        handleFrame query s' =
          (Continue, s', [CacheGet key; CacheTTL key; Write frame]))
    /\ (seconds <= PREFETCH_MARGIN ->
        exists seconds' s'',
          handleFrame query s' =
            (Continue, s'',
             [CacheGet key; CacheTTL key; Write frame;
              CacheSet key (CacheStruct.mk domain policy report ttl) seconds'])).
Proof.
  intros parts cmd domain withTlsRpt key Hcmd Hlen Hvalid Hon Hmiss.
  pose proof (handleFrame_lookup query) as HL. cbv zeta in HL.
  fold parts cmd domain withTlsRpt in HL.
  pose proof (queryDomain_eq checkDane checkMtaSts daneFirst domain) as HQ.
  cbv zeta in HQ.
  set (policy := Policy _) in HQ. set (report := if policy == "" then _ else _) in HQ.
  set (ttl := normalize_ttl _ _) in HQ.
  set (data := CacheStruct.mk domain policy report ttl).
  set (seconds := backend_expiry ttl (Uint32N_60 (rand_calls s))).
  assert (uint32 seconds = seconds) as Hsec
    by (unfold seconds, backend_expiry, uint32; apply Z.mod_mod; lia).
  exists policy, report, ttl, (reply_frame policy report withTlsRpt), seconds,
    {| db := <[key := (JsonEntry data, seconds)]> (db s);
       rand_calls := S (rand_calls s) |}.
  split; [exact HQ|]. split; [apply replySocketmap_eq|].
  split; [|split; [reflexivity|split; [|split]]].
  - rewrite (HL s Hcmd Hlen Hvalid).
    unfold lookup_or_evaluate, bind. rewrite tryCachedPolicy_eq, HQ, Hon.
    fold key. rewrite Hmiss. cbn [negb]. cbv beta iota.
    rewrite replySocketmap_eq. reflexivity.
  - cbn [db]. apply lookup_insert_eq.
  - intros Hfresh. rewrite (HL _ Hcmd Hlen Hvalid).
    unfold lookup_or_evaluate, bind. rewrite tryCachedPolicy_eq, Hon.
    fold key. cbn [db]. rewrite lookup_insert_eq, Hsec.
    apply Z.ltb_lt in Hfresh. rewrite Hfresh. reflexivity.
  - intros Hstale. rewrite (HL _ Hcmd Hlen Hvalid).
    unfold lookup_or_evaluate, bind. rewrite tryCachedPolicy_eq, HQ, Hon.
    fold key. cbn [db]. rewrite lookup_insert_eq, Hsec.
    apply Z.ltb_ge in Hstale. rewrite Hstale. cbn [negb]. cbv beta iota.
    rewrite replySocketmap_eq. eexists _, _. reflexivity.
Qed.

(** *** The schema tag *)

Definition DB_SCHEMA : string := "3".

Definition schema_key : string := CACHE_KEY_PREFIX ++ "schema".

(** The commands [purgeDatabase] and [updateDatabase] send to the store. *)
Inductive admin_event :=
| Keys (pattern : string)
| Del (key : string)
| SetText (key value : string) (seconds : Z)
| GetText (key : string).

(** The keys a [KEYS prefix*] command lists. *)
Definition keys_matching (prefix : string) (m : gmap string (cell * Z)) : list string :=
  List.filter (fun key => HasPrefix key prefix) (List.map fst (map_to_list m)).

Definition purgeDatabase (s : State) : option string * State * list admin_event :=
  if Redis_Disable config then (Some "Cache disabled", s, [])
  else
    let keys := keys_matching CACHE_KEY_PREFIX (db s) in
    let m := fold_left (fun m key => delete key m) keys (db s) in
    (None,
     {| db := <[schema_key := (Text DB_SCHEMA, 0)]> m; rand_calls := rand_calls s |},
     (Keys (CACHE_KEY_PREFIX ++ "*") :: List.map Del keys
        ++ [SetText schema_key DB_SCHEMA 0])%list).

(** [currentSchema != DB_SCHEMA]: the key is missing (the empty string is
    compared), holds another text, or holds the JSON text of an entry. *)
Definition schema_differs (s : State) : bool :=
  match db s !! schema_key with
  | Some (Text currentSchema, _) => negb (currentSchema == DB_SCHEMA)
  | Some (JsonEntry _, _) => true
  | None => negb ("" == DB_SCHEMA)
  end.

Definition updateDatabase (s : State) : option string * State * list admin_event :=
  if schema_differs s then
    let '(err, s', t) := purgeDatabase s in (err, s', GetText schema_key :: t)
  else (None, s, [GetText schema_key]).

Lemma lookup_fold_delete (keys : list string) (m : gmap string (cell * Z))
    (key : string) :
  fold_left (fun m key => delete key m) keys m !! key
  = if existsb (String.eqb key) keys then None else m !! key.
Proof.
  revert m. induction keys as [|k keys IH]; intros m; cbn [fold_left existsb].
  - reflexivity.
  - rewrite IH. destruct (existsb (String.eqb key) keys).
    + rewrite orb_true_r. reflexivity.
    + rewrite orb_false_r. destruct (String.eqb_spec key k) as [->|Hne].
      * apply lookup_delete_eq.
      * apply lookup_delete_ne. congruence.
Qed.

Lemma keys_matching_In (prefix key : string) (m : gmap string (cell * Z)) :
  In key (keys_matching prefix m)
  <-> HasPrefix key prefix = true /\ m !! key <> None.
Proof.
  unfold keys_matching. rewrite List.filter_In, List.in_map_iff. split.
  - intros [([k x] & <- & Hin) Hp]. split; [exact Hp|].
    apply list_elem_of_In, elem_of_map_to_list in Hin. cbn. congruence.
  - intros [Hp Hsome]. split; [|exact Hp].
    destruct (m !! key) as [x|] eqn:E; [|congruence].
    exists (key, x). split; [reflexivity|].
    apply list_elem_of_In, elem_of_map_to_list, E.
Qed.

Lemma purgeDatabase_lookup (s : State) (key : string) :
  Redis_Disable config = false ->
  exists t,
    purgeDatabase s =
      (None,
       {| db := <[schema_key := (Text DB_SCHEMA, 0)]>
                  (fold_left (fun m key => delete key m)
                     (keys_matching CACHE_KEY_PREFIX (db s)) (db s));
          rand_calls := rand_calls s |}, t)
    /\ (<[schema_key := (Text DB_SCHEMA, 0)]>
          (fold_left (fun m key => delete key m)
             (keys_matching CACHE_KEY_PREFIX (db s)) (db s))) !! key
       = if key == schema_key then Some (Text DB_SCHEMA, 0)
         else if HasPrefix key CACHE_KEY_PREFIX then None
         else db s !! key.
Proof.
  intros Hon. unfold purgeDatabase. rewrite Hon. eexists. split; [reflexivity|].
  destruct (String.eqb_spec key schema_key) as [->|Hne].
  - apply lookup_insert_eq.
  - rewrite lookup_insert_ne by congruence. rewrite lookup_fold_delete.
    destruct (existsb (String.eqb key) (keys_matching CACHE_KEY_PREFIX (db s)))
      eqn:E.
    + apply existsb_exists in E. destruct E as (k & Hin & Hk).
      apply String.eqb_eq in Hk. subst k.
      apply keys_matching_In in Hin. destruct Hin as [-> _]. reflexivity.
    + destruct (HasPrefix key CACHE_KEY_PREFIX) eqn:Hp; [|reflexivity].
      destruct (db s !! key) as [x|] eqn:Hx; [|reflexivity].
      exfalso. apply not_true_iff_false in E. apply E.
      apply existsb_exists. exists key. split; [|apply String.eqb_refl].
      apply keys_matching_In. split; [exact Hp|congruence].
Qed.

Lemma getCacheKey_shape (domain : string) :
  getCacheKey domain <> schema_key
  /\ HasPrefix (getCacheKey domain) CACHE_KEY_PREFIX = true.
Proof.
  unfold getCacheKey, schema_key, CACHE_KEY_PREFIX, HasPrefix.
  set (text := Base32.EncodeToString _ _).
  assert (String.length text = 52%nat) as Hlen.
  { unfold text, Base32.EncodeToString.
    rewrite string_of_list_ascii_length, Encode_length, Sum256_length.
    reflexivity. }
  split.
  - cbn. intros [= E]. change (String.length text) with (String.length ("" ++ text)) in Hlen.
    rewrite E in Hlen. discriminate.
  - cbn. destruct text; reflexivity.
Qed.

Lemma purgeDatabase_enabled (s : State) :
  Redis_Disable config = false ->
  exists s' keys,
    purgeDatabase s =
      (None, s',
       (Keys "TLSPOL-*" :: List.map Del keys
          ++ [SetText "TLSPOL-schema" "3" 0])%list)
    /\ (forall key, In key keys <->
          HasPrefix key "TLSPOL-" = true /\ db s !! key <> None)
    /\ db s' !! "TLSPOL-schema" = Some (Text "3", 0)
    /\ (forall key, HasPrefix key "TLSPOL-" = true -> key <> "TLSPOL-schema" ->
          db s' !! key = None)
    /\ (forall key, HasPrefix key "TLSPOL-" = false ->
          db s' !! key = db s !! key)
    /\ (forall domain,
          cacheJsonGet (getCacheKey domain) s'
          = ((zeroCacheStruct, 0, true), s', [CacheGet (getCacheKey domain)])).
Proof.
  intros Hon.
  assert (forall key, exists t,
    purgeDatabase s =
      (None,
       {| db := <[schema_key := (Text DB_SCHEMA, 0)]>
                  (fold_left (fun m key => delete key m)
                     (keys_matching CACHE_KEY_PREFIX (db s)) (db s));
          rand_calls := rand_calls s |}, t)
    /\ (<[schema_key := (Text DB_SCHEMA, 0)]>
          (fold_left (fun m key => delete key m)
             (keys_matching CACHE_KEY_PREFIX (db s)) (db s))) !! key
       = if key == schema_key then Some (Text DB_SCHEMA, 0)
         else if HasPrefix key CACHE_KEY_PREFIX then None
         else db s !! key) as HP
    by (intros key; apply purgeDatabase_lookup, Hon).
  eexists _, (keys_matching CACHE_KEY_PREFIX (db s)).
  split; [unfold purgeDatabase; rewrite Hon; reflexivity|].
  split; [intros key; apply keys_matching_In|].
  cbn [db]. split; [|split; [|split]].
  - destruct (HP "TLSPOL-schema") as (_ & _ & ->). reflexivity.
  - intros key Hp Hne. destruct (HP key) as (_ & _ & ->).
    destruct (String.eqb_spec key schema_key) as [E|_]; [contradiction|].
    change CACHE_KEY_PREFIX with "TLSPOL-". rewrite Hp. reflexivity.
  - intros key Hp. destruct (HP key) as (_ & _ & ->).
    destruct (String.eqb_spec key schema_key) as [E|_];
      [subst key; discriminate|].
    change CACHE_KEY_PREFIX with "TLSPOL-". rewrite Hp. reflexivity.
  - intros domain. unfold cacheJsonGet. cbn [db].
    destruct (HP (getCacheKey domain)) as (_ & _ & ->).
    destruct (getCacheKey_shape domain) as [Hne Hp].
    destruct (String.eqb_spec (getCacheKey domain) schema_key) as [E|_];
      [contradiction|].
    rewrite Hp. reflexivity.
Qed.

(** X6. [purgeDatabase] refuses with the error [Cache disabled], sending
    nothing, when the cache is disabled. Otherwise it lists the keys under
    the prefix, deletes each of them and sets the schema tag: afterwards the
    tag holds [DB_SCHEMA] without expiry, no other key under ["TLSPOL-"] is
    left, so the lookup of any domain's policy misses, and the keys outside
    the prefix are as before. *)
Theorem purgeDatabase_wipes (s : State) :
  (Redis_Disable config = true ->
     purgeDatabase s = (Some "Cache disabled", s, []))
  /\ (Redis_Disable config = false ->
      exists s' keys,
        purgeDatabase s =
          (None, s',
           (Keys "TLSPOL-*" :: List.map Del keys
              ++ [SetText "TLSPOL-schema" "3" 0])%list)
        /\ (forall key, In key keys <->
              HasPrefix key "TLSPOL-" = true /\ db s !! key <> None)
        /\ db s' !! "TLSPOL-schema" = Some (Text "3", 0)
        /\ (forall key, HasPrefix key "TLSPOL-" = true -> key <> "TLSPOL-schema" ->
              db s' !! key = None)
        /\ (forall key, HasPrefix key "TLSPOL-" = false ->
              db s' !! key = db s !! key)
        /\ (forall domain,
              cacheJsonGet (getCacheKey domain) s'
              = ((zeroCacheStruct, 0, true), s', [CacheGet (getCacheKey domain)]))).
Proof.
  split.
  - intros Hoff. unfold purgeDatabase. rewrite Hoff. reflexivity.
  - apply purgeDatabase_enabled.
Qed.

(** X7. With the cache enabled, [updateDatabase] leaves the store alone when
    the schema tag already holds [DB_SCHEMA], and otherwise (tag missing or
    different) purges: no key under ["TLSPOL-"] but the tag survives, and keys
    outside the prefix are kept. Either way the tag then holds [DB_SCHEMA],
    and running [updateDatabase] again only reads the tag. *)
Theorem updateDatabase_schema (s : State) :
  Redis_Disable config = false ->
  exists s' t,
    updateDatabase s = (None, s', t)
    /\ (exists seconds, db s' !! "TLSPOL-schema" = Some (Text "3", seconds))
    /\ ((exists seconds, db s !! "TLSPOL-schema" = Some (Text "3", seconds)) ->
        s' = s /\ t = [GetText "TLSPOL-schema"])
    /\ ((forall seconds, db s !! "TLSPOL-schema" <> Some (Text "3", seconds)) ->
        (forall key, HasPrefix key "TLSPOL-" = true -> key <> "TLSPOL-schema" ->
           db s' !! key = None)
        /\ In (Keys "TLSPOL-*") t)
    /\ (forall key, HasPrefix key "TLSPOL-" = false -> db s' !! key = db s !! key)
    /\ updateDatabase s' = (None, s', [GetText "TLSPOL-schema"]).
Proof.
  intros Hon.
  destruct (purgeDatabase_enabled s Hon)
    as (s1 & keys & Hpurge & _ & Htag & Hwiped & Hkept & _).
  unfold updateDatabase at 1. unfold schema_differs.
  change schema_key with "TLSPOL-schema". change DB_SCHEMA with "3".
  destruct (db s !! "TLSPOL-schema") as [[[data|txt] seconds]|] eqn:E.
  - cbn iota. rewrite Hpurge. eexists _, _. split; [reflexivity|].
    split; [eexists; exact Htag|]. split; [intros [? [=]]|].
    split; [intros _; split; [exact Hwiped|right; left; reflexivity]|].
    split; [exact Hkept|].
    unfold updateDatabase, schema_differs.
    change schema_key with "TLSPOL-schema". rewrite Htag. reflexivity.
  - destruct (String.eqb_spec txt "3") as [->|Hne]; cbn [negb].
    + exists s, [GetText "TLSPOL-schema"]. split; [reflexivity|].
      split; [eexists; exact E|]. split; [intros _; split; reflexivity|].
      split; [intros H; exfalso; apply (H seconds); reflexivity|].
      split; [reflexivity|].
      unfold updateDatabase, schema_differs.
      change schema_key with "TLSPOL-schema". rewrite E. reflexivity.
    + rewrite Hpurge. eexists _, _. split; [reflexivity|].
      split; [eexists; exact Htag|]. split; [intros [? [= ?]]; congruence|].
      split; [intros _; split; [exact Hwiped|right; left; reflexivity]|].
      split; [exact Hkept|].
      unfold updateDatabase, schema_differs.
      change schema_key with "TLSPOL-schema". rewrite Htag. reflexivity.
  - cbn [negb String.eqb]. rewrite Hpurge. eexists _, _. split; [reflexivity|].
    split; [eexists; exact Htag|]. split; [intros [? [=]]|].
    split; [intros _; split; [exact Hwiped|right; left; reflexivity]|].
    split; [exact Hkept|].
    unfold updateDatabase, schema_differs.
    change schema_key with "TLSPOL-schema". rewrite Htag. reflexivity.
Qed.

(** X8. Serving a connection only ever writes under keys of the form
    [getCacheKey d]: every other key of the store, and in particular the
    schema tag (which is no domain's key, although it shares the prefix),
    is left as it was; so an [updateDatabase] that found the tag in place
    before the connection finds it in place after it. *)
Theorem handleConnection_keeps_schema (frames : list string) (s : State) :
  exists s' t,
    handleConnection frames s = (tt, s', t)
    /\ (forall key, (forall d, key <> getCacheKey d) -> db s' !! key = db s !! key)
    /\ (forall key, HasPrefix key "TLSPOL-" = false -> db s' !! key = db s !! key)
    /\ db s' !! "TLSPOL-schema" = db s !! "TLSPOL-schema"
    /\ schema_differs s' = schema_differs s.
Proof.
  destruct (scan_shape frames s) as (c & s' & t & H & Hc & _ & _ & _ & Hf).
  assert (db s' !! "TLSPOL-schema" = db s !! "TLSPOL-schema") as Htag.
  { apply Hf. intros d E. destruct (getCacheKey_shape d) as [Hne _].
    apply Hne. symmetry. exact E. }
  exists s'. unfold handleConnection, bind. rewrite H.
  destruct c; [| |congruence]; (eexists; split; [reflexivity|]);
    (split; [exact Hf|]);
    (split; [intros key Hp; apply Hf; intros d E;
             destruct (getCacheKey_shape d) as [_ Hd];
             change CACHE_KEY_PREFIX with "TLSPOL-" in Hd; congruence|]);
    (split; [exact Htag|]);
    unfold schema_differs; change schema_key with "TLSPOL-schema";
    rewrite Htag; reflexivity.
Qed.

(** *** The command-line query *)

(** The frame [flagQueryFunc] sends to the daemon for the value of [-query],
    or none when it rejects the value. *)
Definition flagQueryFunc_request (domain : string) : option string :=
  if (String.length domain =? 0)%nat || negb (IsDNSName domain) then None
  else Some ("JSON " ++ domain).

(** X9. Whatever value [flagQueryFunc] accepts, the frame it sends is one
    the daemon answers with the JSON document of both evaluators' fresh
    results for the trimmed, lower-cased value: never PERM or NOTFOUND, and
    without a command to the cache. The empty value is never sent. *)
Theorem flagQueryFunc_answered (domain frame : string) (s : State) :
  ToUpper "JSON" = "JSON" ->
  flagQueryFunc_request domain = Some frame ->
  domain <> ""
  /\ IsDNSName domain = true
  /\ handleFrame frame s
     = (Continue, s, [WriteJson (jsonResult (ToLower (TrimSpace domain)))])
  /\ handleConnection [frame] s
     = (tt, s, [WriteJson (jsonResult (ToLower (TrimSpace domain))); Close]).
Proof.
  intros Hup Hreq. unfold flagQueryFunc_request in Hreq.
  destruct ((String.length domain =? 0)%nat || negb (IsDNSName domain)) eqn:E;
    [discriminate|].
  injection Hreq as <-. apply orb_false_iff in E. destruct E as [Hlen Hdns].
  assert (SplitN ("JSON " ++ domain) " " 2 = ["JSON"; domain]) as Hsplit
    by (cbn; destruct domain; reflexivity).
  assert (handleFrame ("JSON " ++ domain) s
          = (Continue, s, [WriteJson (jsonResult (ToLower (TrimSpace domain)))]))
    as HF.
  { unfold handleFrame. rewrite Hsplit. cbn [nth List.length].
    rewrite Hup. reflexivity. }
  split; [intros ->; discriminate|].
  split; [destruct (IsDNSName domain); [reflexivity|discriminate]|].
  split; [exact HF|].
  unfold handleConnection, bind. cbn [scan]. unfold bind. rewrite HF.
  reflexivity.
Qed.

(** *** The key a query is cached under *)

(** The key of a command sent to the store. *)
Definition event_key (e : event) : option string :=
  match e with
  | CacheGet key | CacheTTL key | CacheSet key _ _ => Some key
  | _ => None
  end.

(** [handleFrame] looks at a frame only through the command in upper case,
    the number of parts and the trimmed, lower-cased argument. *)
Lemma handleFrame_same_parts (q1 q2 : string) (s : State) :
  ToUpper (nth 0 (SplitN q1 " " 2) "") = ToUpper (nth 0 (SplitN q2 " " 2) "") ->
  List.length (SplitN q1 " " 2) = List.length (SplitN q2 " " 2) ->
  ToLower (TrimSpace (nth 1 (SplitN q1 " " 2) ""))
    = ToLower (TrimSpace (nth 1 (SplitN q2 " " 2) "")) ->
  handleFrame q1 s = handleFrame q2 s.
Proof.
  intros Hcmd Hlen Hdomain. unfold handleFrame.
  rewrite Hcmd, Hlen, Hdomain. reflexivity.
Qed.

Lemma handleFrame_keyed (query : string) (s : State) :
  let parts := SplitN query " " 2 in
  let cmd := ToUpper (nth 0 parts "") in
  let domain := ToLower (TrimSpace (nth 1 parts "")) in
  let key := getCacheKey domain in
  cmd = "QUERYWITHTLSRPT" \/ cmd = "QUERY" ->
  List.length parts = 2%nat ->
  IsIPv4 domain || IsIPv6 domain
    || (HasPrefix domain "." && IsDNSName (slice_from 1 domain))
    || negb (IsDNSName domain) = false ->
  Redis_Disable config = false ->
  exists c s' t,
    handleFrame query s = (c, s', CacheGet key :: t)
    /\ List.Forall (fun e => event_key e = None \/ event_key e = Some key) t
    /\ (forall other, other <> key -> db s' !! other = db s !! other).
Proof.
  intros parts cmd domain key Hcmd Hlen Hvalid Hon.
  pose proof (handleFrame_lookup query s) as HL. cbv zeta in HL.
  fold parts cmd domain in HL. rewrite (HL Hcmd Hlen Hvalid).
  unfold lookup_or_evaluate, bind. rewrite tryCachedPolicy_eq, queryDomain_eq, Hon.
  fold key. cbn [negb].
  destruct (db s !! key) as [[[data|txt] seconds]|];
    [destruct (PREFETCH_MARGIN <? uint32 seconds)|..];
    cbv beta iota; rewrite ?replySocketmap_eq; unfold cacheJsonSet, ret;
    eexists _, _, _; (split; [reflexivity|]);
    (split; [repeat constructor|]);
    intros other Hne; cbn [db]; rewrite ?lookup_insert_ne by congruence;
    reflexivity.
Qed.

End Daemon.

(** C9 as stated fails whatever the margin is: with margin 0 a TTL of 0 and
    a jitter of 1 wrap below zero, and with any other margin the largest TTL
    wraps past 2^32. *)
Lemma backend_expiry_wraps :
  ~ exists margin, 0 <= margin < 2 ^ 32 /\
      forall ttl jitter, 0 <= ttl < 2 ^ 32 -> 0 <= jitter < 60 ->
        ttl + margin - 60 <= backend_expiry margin ttl jitter <= ttl + margin.
Proof.
  intros (margin & Hm & H).
  destruct (Z.eq_dec margin 0) as [->|Hne].
  - specialize (H 0 1 ltac:(lia) ltac:(lia)). vm_compute in H.
    destruct H as [_ H]. apply H. reflexivity.
  - specialize (H (2 ^ 32 - 1) 0 ltac:(lia) ltac:(lia)).
    unfold backend_expiry, uint32 in H.
    replace (2 ^ 32 - 1 + margin) with ((margin - 1) + 1 * 2 ^ 32) in H at 2 by lia.
    rewrite Z.mod_add in H by lia.
    rewrite (Z.mod_small (margin - 1)) in H by lia.
    rewrite Z.sub_0_r in H. rewrite Z.mod_small in H by lia. lia.
Qed.

Example backend_expiry_max_age :
  backend_expiry 300 4294967295 0 = 299.
Proof. reflexivity. Qed.

(** *** A sample world

    Validators that accept dotted-quad IPv4 literals, colon-separated
    IPv6 literals and host names of letters, digits, [-] and [_]; a resolver
    that knows three domains; a fixed jitter. The closed examples below run
    the daemon in it. *)

Module Sample.

Definition is_digit : ascii -> bool := Strconv.is_digit.
Definition all_bytes : (ascii -> bool) -> string -> bool := Strconv.all_bytes.
Definition number : Z -> string -> Z := Strconv.number.
Definition is_hex (c : ascii) : bool :=
  is_digit c
  || ((97 <=? Ascii7.code c)%N && (Ascii7.code c <=? 102)%N)
  || ((65 <=? Ascii7.code c)%N && (Ascii7.code c <=? 70)%N).
Definition is_name_byte (c : ascii) : bool :=
  Ascii7.is_letter c || is_digit c || Ascii.eqb c "-" || Ascii.eqb c "_".

Definition octet (s : string) : bool :=
  (1 <=? String.length s)%nat && (String.length s <=? 3)%nat
  && all_bytes is_digit s
  && negb (String.prefix "0" s && (2 <=? String.length s)%nat)
  && (number 0 s <=? 255).

Definition IsIPv4 (s : string) : bool :=
  match Split s "." with
  | [a; b; c; d] => octet a && octet b && octet c && octet d
  | _ => false
  end.

Definition IsIPv6 (s : string) : bool :=
  (2 <=? List.length (Split s ":"))%nat
  && all_bytes (fun c => is_hex c || Ascii.eqb c ":" || Ascii.eqb c ".") s.

Definition label (s : string) : bool :=
  (1 <=? String.length s)%nat && (String.length s <=? 63)%nat
  && all_bytes is_name_byte s && negb (String.prefix "-" s).

Definition IsDNSName (s : string) : bool :=
  negb (s == "") && negb (IsIPv4 s) && negb (IsIPv6 s)
  && forallb label (List.removelast (Split s "."))
  && (label (List.last (Split s ".") "") || (List.last (Split s ".") "x" == "")).

Definition checkDane (domain : string) : string * Z :=
  if domain == "dane.example" then ("dane-only", 3600)
  else if domain == "temp.example" then ("TEMP", 0)
  else ("", 0).

Definition checkMtaSts (domain : string) : string * string * Z :=
  if domain == "sts.example"
  then ("secure match=mx1.sts.example servername=hostname",
        "v=TLSRPTv1; rua=mailto:tls@sts.example", 86400)
  else ("", "", 0).

Definition config : Config := {| Server_TlsRpt := false; Redis_Disable := false |}.

Definition handleFrame : string -> M control :=
  Server.handleFrame Ascii7.ToUpper Ascii7.ToLower Ascii7.TrimSpace
    IsIPv4 IsIPv6 IsDNSName checkDane checkMtaSts (fun _ => true)
    (fun _ => ("12ms", "48ms")) (fun _ => 17) 300 config "v1".

Definition handleConnection : list string -> M unit :=
  Server.handleConnection Ascii7.ToUpper Ascii7.ToLower Ascii7.TrimSpace
    IsIPv4 IsIPv6 IsDNSName checkDane checkMtaSts (fun _ => true)
    (fun _ => ("12ms", "48ms")) (fun _ => 17) 300 config "v1".

End Sample.

Example Sample_validators :
  map Sample.IsIPv4 ["192.0.2.1"; "256.0.0.1"; "example.com"; ""]
    = [true; false; false; false]
  /\ map Sample.IsIPv6 ["2001:db8::1"; "example.com"] = [true; false]
  /\ map Sample.IsDNSName
       ["example.com"; "mx1.sts.example."; ""; ".example.com"; "192.0.2.1";
        "exa mple.com"]
     = [true; true; false; false; false; false].
Proof. repeat split; reflexivity. Qed.

(** Scenario 1 of the specification's end-to-end list, on an empty cache:
    the reply, then the entry written with expiry 3600 + 300 - 17. *)
Example Sample_query_dane :
  exists s',
    Sample.handleFrame "QUERY dane.example" empty_state =
      (Continue, s',
       [CacheGet (getCacheKey "dane.example");
        Write "12:OK dane-only,";
        CacheSet (getCacheKey "dane.example")
          (CacheStruct.mk "dane.example" "dane-only" "" 3600) 3883]).
Proof. eexists. vm_compute. reflexivity. Qed.

Example Sample_connection :
  exists s',
    Sample.handleConnection ["query 192.0.2.1"; "FOO bar"; "QUERY dane.example"]
      empty_state =
      (tt, s', [Write "9:NOTFOUND ,"; Write "5:PERM ,"; Close]).
Proof. eexists. vm_compute. reflexivity. Qed.

(** C7 at concrete frames: an unknown command, a command without argument
    and an IP literal. *)
Lemma handleFrame_errors_witness :
  Sample.handleFrame "FOO bar" empty_state
    = (Return, empty_state, [Write "5:PERM ,"])
  /\ Sample.handleFrame "QUERY" empty_state
    = (Continue, empty_state, [Write "9:NOTFOUND ,"])
  /\ Sample.handleFrame "QUERYwithTLSRPT 192.0.2.1" empty_state
    = (Continue, empty_state, [Write "9:NOTFOUND ,"])
  /\ Sample.handleFrame "query .example.com" empty_state
    = (Continue, empty_state, [Write "9:NOTFOUND ,"])
  /\ Sample.handleFrame "QUERY " empty_state
    = (Continue, empty_state, [Write "9:NOTFOUND ,"]).
Proof.
  pose proof (fun q =>
    handleFrame_errors Ascii7.ToUpper Ascii7.ToLower Ascii7.TrimSpace
      Sample.IsIPv4 Sample.IsIPv6 Sample.IsDNSName Sample.checkDane
      Sample.checkMtaSts (fun _ => true) (fun _ => ("12ms", "48ms"))
      (fun _ => 17) 300 Sample.config "v1" q empty_state) as H.
  cbv zeta in H.
  split; [|split; [|split; [|split]]].
  - destruct (H "FOO bar") as (Hperm & _ & _).
    apply Hperm; discriminate.
  - destruct (H "QUERY") as (_ & Hmissing & _).
    apply Hmissing; [right; left; reflexivity | discriminate].
  - destruct (H "QUERYwithTLSRPT 192.0.2.1") as (_ & _ & Hinvalid).
    apply Hinvalid; [left; reflexivity | reflexivity | reflexivity].
  - destruct (H "query .example.com") as (_ & _ & Hinvalid).
    apply Hinvalid; [right; reflexivity | reflexivity | reflexivity].
  - destruct (H "QUERY ") as (_ & _ & Hinvalid).
    apply Hinvalid; [right; reflexivity | reflexivity | reflexivity].
Defined.

(** C10 at a concrete frame: a JSON request for an IP literal, with an entry
    for another domain in the cache. *)
Lemma handleFrame_json_witness :
  let s := {| db := {[ getCacheKey "dane.example" :=
                         (JsonEntry (CacheStruct.mk "dane.example" "dane-only" "" 3600),
                          3883) ]};
              rand_calls := 1 |} in
  Sample.handleFrame "json 192.0.2.1" s
  = (Continue, s,
     [WriteJson (Result.mk "v1" "192.0.2.1" (DanePolicy.mk "" 0 "12ms")
                   (MtaStsPolicy.mk "" 0 "" "48ms"))]).
Proof.
  intros s.
  apply (handleFrame_json Ascii7.ToUpper Ascii7.ToLower Ascii7.TrimSpace
           Sample.IsIPv4 Sample.IsIPv6 Sample.IsDNSName Sample.checkDane
           Sample.checkMtaSts (fun _ => true) (fun _ => ("12ms", "48ms"))
           (fun _ => 17) 300 Sample.config "v1" "json 192.0.2.1" s);
    reflexivity.
Defined.

(** C10 as stated fails on a JSON frame without argument: [replyJson] is
    not reached, the reply is ["9:NOTFOUND ,"] and no JSON document. *)
Lemma handleFrame_json_without_argument :
  Ascii7.ToUpper (nth 0 (SplitN "JSON" " " 2) "") = "JSON"
  /\ Sample.handleFrame "JSON" empty_state
     = (Continue, empty_state, [Write "9:NOTFOUND ,"])
  /\ forallb is_json_reply [Write "9:NOTFOUND ,"] = false.
Proof. repeat split; reflexivity. Qed.

(** C9 at a concrete entry: TTL 3600, margin 300, jitter 17. *)
Lemma cacheJsonSet_expiry_witness :
  exists seconds s',
    cacheJsonSet (fun _ => 17) 300 (getCacheKey "dane.example")
      (CacheStruct.mk "dane.example" "dane-only" "" 3600) empty_state
    = (tt, s', [CacheSet (getCacheKey "dane.example")
                  (CacheStruct.mk "dane.example" "dane-only" "" 3600) seconds])
    /\ seconds = 3883.
Proof.
  destruct (cacheJsonSet_expiry (fun _ => 17) 300 (getCacheKey "dane.example")
              (CacheStruct.mk "dane.example" "dane-only" "" 3600) empty_state)
    as (seconds & s' & H1 & _ & H2 & _).
  - cbv zeta. lia.
  - exists seconds, s'. split; [exact H1|]. rewrite H2. reflexivity.
Defined.

(** *** The cache path, the schema tag and the command-line query at concrete inputs *)

Definition config_without_cache : Config :=
  {| Server_TlsRpt := false; Redis_Disable := true |}.

(** The same query twice with the cache disabled: both are evaluated, the
    store is not consulted. *)
Lemma handleConnection_cache_disabled_witness :
  exists t,
    Server.handleConnection Ascii7.ToUpper Ascii7.ToLower Ascii7.TrimSpace
      Sample.IsIPv4 Sample.IsIPv6 Sample.IsDNSName Sample.checkDane
      Sample.checkMtaSts (fun _ => true) (fun _ => ("12ms", "48ms"))
      (fun _ => 17) 300 config_without_cache "v1"
      ["QUERY dane.example"; "QUERY dane.example"] empty_state
    = (tt, empty_state, t)
    /\ forallb (fun e => negb (is_cache_event e)) t = true.
Proof.
  apply (handleConnection_cache_disabled Ascii7.ToUpper Ascii7.ToLower
           Ascii7.TrimSpace Sample.IsIPv4 Sample.IsIPv6 Sample.IsDNSName
           Sample.checkDane Sample.checkMtaSts (fun _ => true)
           (fun _ => ("12ms", "48ms")) (fun _ => 17) 300 config_without_cache
           "v1").
  reflexivity.
Defined.

(** A first query for [dane.example] on an empty cache, then the same query
    again: the second is answered from the entry the first one stored. *)
Lemma query_miss_then_hit_witness :
  exists s',
    Sample.handleFrame "QUERY dane.example" empty_state
    = (Continue, s',
       [CacheGet (getCacheKey "dane.example");
        Write "12:OK dane-only,";
        CacheSet (getCacheKey "dane.example")
          (CacheStruct.mk "dane.example" "dane-only" "" 3600) 3883])
    /\ Sample.handleFrame "QUERY dane.example" s'
       = (Continue, s',
          [CacheGet (getCacheKey "dane.example");
           CacheTTL (getCacheKey "dane.example");
           Write "12:OK dane-only,"]).
Proof.
  destruct (query_miss_then_hit Ascii7.ToUpper Ascii7.ToLower Ascii7.TrimSpace
              Sample.IsIPv4 Sample.IsIPv6 Sample.IsDNSName Sample.checkDane
              Sample.checkMtaSts (fun _ => true) (fun _ => ("12ms", "48ms"))
              (fun _ => 17) 300 Sample.config "v1" "QUERY dane.example"
              empty_state)
    as (policy & report & ttl & frame & seconds & s' & HQ & HR & HF & Hs & _ & Hhit & _).
  - right. reflexivity.
  - reflexivity.
  - reflexivity.
  - reflexivity.
  - reflexivity.
  - injection HQ as <- <- <-. injection HR as <-. subst seconds.
    exists s'. split; [exact HF|]. apply Hhit. reflexivity.
Defined.

(** A store left by an older schema: the tag holds ["2"], one policy entry
    and one key of another application. *)
Definition old_store : State :=
  {| db := <["TLSPOL-schema" := (Text "2", 0)]>
             (<[getCacheKey "dane.example" :=
                  (JsonEntry (CacheStruct.mk "dane.example" "dane-only" "" 3600),
                   3883)]>
                {[ "session:42" := (Text "alice", 60) ]});
     rand_calls := 0 |}.

Lemma updateDatabase_schema_witness :
  exists s' t,
    updateDatabase Sample.config old_store = (None, s', t)
    /\ (exists seconds, db s' !! "TLSPOL-schema" = Some (Text "3", seconds))
    /\ db s' !! getCacheKey "dane.example" = None
    /\ db s' !! "session:42" = Some (Text "alice", 60)
    /\ updateDatabase Sample.config s' = (None, s', [GetText "TLSPOL-schema"]).
Proof.
  destruct (updateDatabase_schema Sample.config old_store)
    as (s' & t & H & Htag & _ & Hwipe & Hkeep & Hagain).
  - reflexivity.
  - exists s', t. split; [exact H|]. split; [exact Htag|].
    split; [|split; [|exact Hagain]].
    + apply Hwipe.
      * intros seconds E. vm_compute in E. discriminate.
      * vm_compute. reflexivity.
      * vm_compute. discriminate.
    + rewrite Hkeep by reflexivity. vm_compute. reflexivity.
Defined.

(** [purgeDatabase] on the old store: the entry is gone, the foreign key
    stays. *)
Lemma purgeDatabase_wipes_witness :
  exists s' keys,
    purgeDatabase Sample.config old_store
    = (None, s',
       (Keys "TLSPOL-*" :: List.map Del keys ++ [SetText "TLSPOL-schema" "3" 0])%list)
    /\ db s' !! "TLSPOL-schema" = Some (Text "3", 0)
    /\ db s' !! getCacheKey "dane.example" = None
    /\ db s' !! "session:42" = Some (Text "alice", 60).
Proof.
  destruct (purgeDatabase_wipes Sample.config old_store) as [_ H].
  destruct (H eq_refl) as (s' & keys & Hp & _ & Htag & Hw & Hk & _).
  exists s', keys. split; [exact Hp|]. split; [exact Htag|]. split.
  - apply Hw; [vm_compute; reflexivity | vm_compute; discriminate].
  - rewrite Hk by reflexivity. vm_compute. reflexivity.
Defined.

(** [-query Example.COM]: the frame, and the document the daemon answers. *)
Lemma flagQueryFunc_answered_witness :
  flagQueryFunc_request Sample.IsDNSName "Example.COM" = Some "JSON Example.COM"
  /\ Sample.handleFrame "JSON Example.COM" empty_state
     = (Continue, empty_state,
        [WriteJson (Result.mk "v1" "example.com" (DanePolicy.mk "" 0 "12ms")
                      (MtaStsPolicy.mk "" 0 "" "48ms"))]).
Proof.
  split; [reflexivity|].
  apply (flagQueryFunc_answered Ascii7.ToUpper Ascii7.ToLower Ascii7.TrimSpace
           Sample.IsIPv4 Sample.IsIPv6 Sample.IsDNSName Sample.checkDane
           Sample.checkMtaSts (fun _ => true) (fun _ => ("12ms", "48ms"))
           (fun _ => 17) 300 Sample.config "v1" "Example.COM"
           "JSON Example.COM" empty_state);
    reflexivity.
Defined.

(** *** The cache key *)

(** C8. For every domain [d] the key [getCacheKey] computes is ["TLSPOL-"]
    followed by the specification's [base32_nopad] of [sha256(d)]: the 256
    bits of the digest, zero bits added up to a multiple of five, read five
    at a time and written in the alphabet [A]-[Z], [2]-[7]; it is Go's
    padded standard encoding without its four [=], 52 characters long, each
    an upper-case letter or a digit from 2 to 7.
    [Sum256] is SHA-256 as FIPS 180-4 defines it, here checked against the
    digests of the standard's one-block and two-block messages and of the
    empty one, and the key of [example.com] is the one Go computes. The
    server keys what it lower-cased: a valid QUERY or
    QUERYwithTLSRPT frame first asks the store for the key of its trimmed,
    lower-cased argument, and every command it sends to the store carries
    that key; so two frames whose arguments differ only in the case of
    ASCII letters (and whose commands agree up to case) are handled alike,
    under the same key, for any [ToLower] and [TrimSpace] that, like Go's,
    treat such arguments alike. *)
Theorem getCacheKey_deterministic
    (ToUpper ToLower TrimSpace : string -> string)
    (IsIPv4 IsIPv6 IsDNSName : string -> bool)
    (checkDane : string -> string * Z)
    (checkMtaSts : string -> string * string * Z)
    (daneFirst : string -> bool) (elapsed : string -> string * string)
    (Uint32N_60 : nat -> Z) (PREFETCH_MARGIN : Z) (config : Config)
    (Version : string) :
  (forall a b, same_but_case a b = true -> ToLower a = ToLower b) ->
  (forall a b, same_but_case a b = true ->
     same_but_case (TrimSpace a) (TrimSpace b) = true) ->
  let handle :=
    handleFrame ToUpper ToLower TrimSpace IsIPv4 IsIPv6 IsDNSName checkDane
      checkMtaSts daneFirst elapsed Uint32N_60 PREFETCH_MARGIN config Version in
  let argument := fun query => nth 1 (SplitN query " " 2) "" in
  let command := fun query => ToUpper (nth 0 (SplitN query " " 2) "") in
  (forall d : string,
      getCacheKey d = "TLSPOL-" ++ spec_base32_nopad (Sha256.Sum256 d)
      /\ Base32.EncodeToString Base32.StdEncoding (Sha256.Sum256 d)
         = spec_base32_nopad (Sha256.Sum256 d) ++ "===="
      /\ String.length (spec_base32_nopad (Sha256.Sum256 d)) = 52%nat
      /\ List.Forall (fun c => is_base32_char c = true)
           (list_ascii_of_string (spec_base32_nopad (Sha256.Sum256 d)))
      /\ List.length (Sha256.Sum256 d) = 32%nat
      /\ List.Forall is_byte (Sha256.Sum256 d))
  /\ map (fun message => spec_number (Sha256.Sum256 message))
       [""; "abc"; "abcdbcdecdefdefgefghfghighijhijkijkljklmklmnlmnomnopnopq"]
     = [0xe3b0c44298fc1c149afbf4c8996fb92427ae41e4649b934ca495991b7852b855;
        0xba7816bf8f01cfea414140de5dae2223b00361a396177a9cb410ff61f20015ad;
        0x248d6a61d20638b8e5c026930c3e6039a33ce45964ff2167f6ecedd419db06c1]
  /\ getCacheKey "example.com"
     = "TLSPOL-UN42N5XOV642KXRXRQIYANHCOUPGQL5LT4WTBKYT2IJFLBWODFDQ"
  /\ (forall query s,
        let domain := ToLower (TrimSpace (argument query)) in
        command query = "QUERYWITHTLSRPT" \/ command query = "QUERY" ->
        List.length (SplitN query " " 2) = 2%nat ->
        IsIPv4 domain || IsIPv6 domain
          || (HasPrefix domain "." && IsDNSName (slice_from 1 domain))
          || negb (IsDNSName domain) = false ->
        Redis_Disable config = false ->
        exists c s' t,
          handle query s = (c, s', CacheGet (getCacheKey domain) :: t)
          /\ List.Forall
               (fun e => event_key e = None
                         \/ event_key e = Some (getCacheKey domain)) t
          /\ (forall other, other <> getCacheKey domain ->
                db s' !! other = db s !! other))
  /\ (forall q1 q2 s,
        command q1 = command q2 ->
        List.length (SplitN q1 " " 2) = List.length (SplitN q2 " " 2) ->
        same_but_case (argument q1) (argument q2) = true ->
        getCacheKey (ToLower (TrimSpace (argument q1)))
          = getCacheKey (ToLower (TrimSpace (argument q2)))
        /\ handle q1 s = handle q2 s).
Proof.
  intros Hlower Htrim handle argument command.
  split; [|split; [|split; [|split]]].
  - intros d.
    assert (spec_base32_nopad (Sha256.Sum256 d)
            = Base32.EncodeToString
                (Base32.WithPadding Base32.StdEncoding Base32.NoPadding)
                (Sha256.Sum256 d)) as ->
      by (unfold spec_base32_nopad, Base32.EncodeToString;
          rewrite Encode_spec by apply Sum256_range; reflexivity).
    split; [reflexivity|]. split; [|split; [|split; [|split]]].
    + unfold Base32.EncodeToString.
      rewrite Encode_padding, Sum256_length, string_of_list_ascii_app.
      reflexivity.
    + unfold Base32.EncodeToString.
      rewrite string_of_list_ascii_length, Encode_length, Sum256_length.
      reflexivity.
    + unfold Base32.EncodeToString.
      rewrite list_ascii_of_string_of_list_ascii.
      apply Encode_alphabet, Sum256_range.
    + apply Sum256_length.
    + apply Sum256_range.
  - vm_compute. reflexivity.
  - vm_compute. reflexivity.
  - intros query s domain Hcmd Hlen Hvalid Hon.
    apply (handleFrame_keyed ToUpper ToLower TrimSpace IsIPv4 IsIPv6 IsDNSName
             checkDane checkMtaSts daneFirst elapsed Uint32N_60 PREFETCH_MARGIN
             config Version query s Hcmd Hlen Hvalid Hon).
  - intros q1 q2 s Hcmd Hlen Hcase.
    assert (ToLower (TrimSpace (argument q1)) = ToLower (TrimSpace (argument q2)))
      as Hdomain by (apply Hlower, Htrim, Hcase).
    split; [rewrite Hdomain; reflexivity|].
    apply handleFrame_same_parts; assumption.
Qed.

(** C8 at two spellings of one request, with the 7-bit [ToLower] and
    [TrimSpace]: the same reply, and the same entry under the key of the
    lower-cased name. *)
Lemma getCacheKey_deterministic_witness :
  getCacheKey (Ascii7.ToLower (Ascii7.TrimSpace "Dane.Example"))
  = getCacheKey (Ascii7.ToLower (Ascii7.TrimSpace "dane.example"))
  /\ Sample.handleFrame "query Dane.Example" empty_state
     = Sample.handleFrame "QUERY dane.example" empty_state.
Proof.
  destruct (getCacheKey_deterministic Ascii7.ToUpper Ascii7.ToLower
              Ascii7.TrimSpace Sample.IsIPv4 Sample.IsIPv6 Sample.IsDNSName
              Sample.checkDane Sample.checkMtaSts (fun _ => true)
              (fun _ => ("12ms", "48ms")) (fun _ => 17) 300 Sample.config "v1"
              ToLower_same_but_case TrimSpace_same_but_case)
    as (_ & _ & _ & _ & Hcase).
  apply (Hcase "query Dane.Example" "QUERY dane.example" empty_state);
    reflexivity.
Defined.

End Server.

(** ** The single-file resolver: DANE and MTA-STS evaluators *)

Module Legacy.

(** *** DNS messages ([miekg/dns]) *)

Inductive RR :=
| MX (ttl : Z) (mx : string)
| TLSA (ttl : Z)
| TXT (ttl : Z) (txt : list string)
| OtherRR (ttl : Z).

Record Msg := mkMsg {
  Rcode : Z;
  AuthenticatedData : bool;
  Answer : list RR
}.

Definition RcodeSuccess : Z := 0.
Definition RcodeNameError : Z := 3.
Definition RcodeServerFailure : Z := 2.

Inductive qtype := TypeMX | TypeTLSA | TypeTXT.

(** A call that returns a value and an [error]. *)
Inductive result (A : Type) :=
| Ok (a : A)
| Failed (err : string).
Arguments Ok {A} a.
Arguments Failed {A} err.

Record ResultWithTtl := mkResultWithTtl {
  Result : bool;
  Ttl : Z;
  Err : option string
}.

(** [r.Rcode != dns.RcodeSuccess && r.Rcode != dns.RcodeNameError] *)
Definition dns_error (r : Msg) : bool :=
  negb (Rcode r =? RcodeSuccess) && negb (Rcode r =? RcodeNameError).

Definition findMin (arr : list Z) : Z :=
  match arr with
  | [] => 0
  | first :: _ => fold_left (fun min v => if v <? min then v else min) arr first
  end.

(** The receive loop of [checkDANE] over the TLSA results in the order the
    channel delivers them. *)
Fixpoint collect (tlsaResults : list ResultWithTtl) (allHaveTLSA : bool)
    (ttls : list Z) : string * Z :=
  match tlsaResults with
  | [] => if allHaveTLSA then ("dane", findMin ttls) else ("", findMin ttls)
  | res :: rest =>
      match Err res with
      | Some _ => ("TEMP", 0)
      | None =>
          collect rest (if negb (Result res) then false else allHaveTLSA)
            (ttls ++ [Ttl res])%list
      end
  end.

Section Dane.

(** [dns.Fqdn], the exchange with the resolver at [config.DNS.Address], and
    the order in which the TLSA goroutines deliver their results. *)
Variable Fqdn : string -> string.
Variable Exchange : string -> qtype -> result Msg.
Variable arrival : list ResultWithTtl -> list ResultWithTtl.

Definition getMXRecords (domain : string) : list string * Z * option string :=
  match Exchange (Fqdn domain) TypeMX with
  | Failed err => ([], 0, Some err)
  | Ok r =>
      if dns_error r then ([], 0, Some "DNS error")
      else
        let answers := if AuthenticatedData r then Answer r else [] in
        let mxRecords :=
          flat_map (fun a => match a with MX _ mx => [mx] | _ => [] end) answers in
        let ttls :=
          flat_map (fun a => match a with MX ttl _ => [ttl] | _ => [] end) answers in
        (mxRecords, findMin ttls, None)
  end.

(** The first TLSA record of the answer, as the loop of [checkTLSA] finds it. *)
Fixpoint firstTLSA (answer : list RR) : option Z :=
  match answer with
  | [] => None
  | TLSA ttl :: _ => Some ttl
  | _ :: rest => firstTLSA rest
  end.

Definition checkTLSA (mx : string) : ResultWithTtl :=
  let tlsaName := "_25._tcp." ++ mx in
  match Exchange (Fqdn tlsaName) TypeTLSA with
  | Failed err => {| Result := false; Ttl := 0; Err := Some err |}
  | Ok r =>
      if (List.length (Answer r) =? 0)%nat then
        {| Result := false; Ttl := 0; Err := None |}
      else if dns_error r then
        {| Result := false; Ttl := 0; Err := Some "DNS error" |}
      else
        match (if AuthenticatedData r then firstTLSA (Answer r) else None) with
        | Some ttl => {| Result := true; Ttl := ttl; Err := None |}
        | None => {| Result := false; Ttl := 0; Err := None |}
        end
  end.

Definition checkDANE (domain : string) : string * Z :=
  let '(mxRecords, ttl, err) := getMXRecords domain in
  match err with
  | Some _ => ("TEMP", 0)
  | None =>
      if (List.length mxRecords =? 0)%nat then ("", 0)
      else collect (arrival (map checkTLSA mxRecords)) true [ttl]
  end.



End Dane.

(** *** [findMin] and the receive loop *)

Lemma fold_min (l : list Z) (m : Z) :
  let r := fold_left (fun min v => if v <? min then v else min) l m in
  (r = m \/ In r l) /\ r <= m /\ forall x, In x l -> r <= x.
Proof.
  revert m. induction l as [|v l IH]; intros m; cbn.
  - split; [left; reflexivity|]. split; [lia|]. intros x [].
  - specialize (IH (if v <? m then v else m)). cbv zeta in IH.
    destruct IH as (Hin & Hle & Hall).
    destruct (Z.ltb_spec v m) as [Hv|Hv].
    + split; [destruct Hin as [->|Hin]; auto|]. split; [lia|].
      intros x [<-|Hx]; [exact Hle | apply Hall, Hx].
    + split; [destruct Hin as [->|Hin]; auto|]. split; [lia|].
      intros x [<-|Hx]; [lia | apply Hall, Hx].
Qed.

Lemma findMin_min (l : list Z) :
  l <> [] -> In (findMin l) l /\ forall x, In x l -> findMin l <= x.
Proof.
  destruct l as [|a l]; [congruence|]. intros _. unfold findMin.
  pose proof (fold_min (a :: l) a) as H. cbv zeta in H.
  destruct H as (Hin & _ & Hall). split; [|exact Hall].
  destruct Hin as [->|Hin]; [left; reflexivity | exact Hin].
Qed.

Lemma collect_error (results : list ResultWithTtl) (allHaveTLSA : bool)
    (ttls : list Z) :
  (exists res, In res results /\ Err res <> None) ->
  collect results allHaveTLSA ttls = ("TEMP", 0).
Proof.
  revert allHaveTLSA ttls.
  induction results as [|res rest IH]; intros a ttls (bad & Hin & Hbad).
  - destruct Hin.
  - cbn [collect]. destruct (Err res) eqn:E; [reflexivity|].
    apply IH. exists bad. split; [|exact Hbad].
    destruct Hin as [->|Hin]; [congruence | exact Hin].
Qed.

Lemma collect_no_error (results : list ResultWithTtl) (allHaveTLSA : bool)
    (ttls : list Z) :
  (forall res, In res results -> Err res = None) ->
  collect results allHaveTLSA ttls =
    (if allHaveTLSA && forallb Result results then "dane" else "",
     findMin (ttls ++ map Ttl results)).
Proof.
  revert allHaveTLSA ttls.
  induction results as [|res rest IH]; intros a ttls H.
  - cbn. rewrite List.app_nil_r, andb_true_r. destruct a; reflexivity.
  - cbn [collect]. rewrite (H res) by (left; reflexivity).
    rewrite IH by (intros; apply H; right; assumption).
    cbn [map forallb]. rewrite <- List.app_assoc. cbn [List.app].
    destruct (Result res), a; reflexivity.
Qed.



Lemma collect_cases (results : list ResultWithTtl) (allHaveTLSA : bool)
    (ttls : list Z) :
  (exists res, In res results /\ Err res <> None)
  \/ (forall res, In res results -> Err res = None).
Proof.
  induction results as [|res rest [IH|IH]].
  - right. intros res [].
  - left. destruct IH as (bad & Hin & Hbad). exists bad. split; [right|]; assumption.
  - destruct (Err res) eqn:E.
    + left. exists res. split; [left; reflexivity | congruence].
    + right. intros res' [<-|Hin]; [exact E | apply IH, Hin].
Qed.


Section DaneFacts.

Variable Fqdn : string -> string.
Variable Exchange : string -> qtype -> result Msg.
Variable arrival : list ResultWithTtl -> list ResultWithTtl.








(** C2, as amended. When the MX response carries AD = 0, no TLSA answers
    and no rcode make [checkDANE] return ["dane"], and the MX list is empty;
    with rcode NOERROR or NXDOMAIN the result is the empty policy (None) with
    TTL 0, with any other rcode it is TEMP. *)
Theorem checkDANE_unauthenticated_mx (domain : string) (r : Msg) :
  Exchange (Fqdn domain) TypeMX = Ok r ->
  AuthenticatedData r = false ->
  fst (checkDANE Fqdn Exchange arrival domain) <> "dane"
  /\ fst (fst (getMXRecords Fqdn Exchange domain)) = []
  /\ (Rcode r = RcodeSuccess \/ Rcode r = RcodeNameError ->
      getMXRecords Fqdn Exchange domain = ([], 0, None)
      /\ checkDANE Fqdn Exchange arrival domain = ("", 0))
  /\ (Rcode r <> RcodeSuccess -> Rcode r <> RcodeNameError ->
      checkDANE Fqdn Exchange arrival domain = ("TEMP", 0)).
Proof.
  intros Hr Had. unfold checkDANE, getMXRecords. rewrite Hr, Had.
  unfold dns_error.
  destruct (Z.eqb_spec (Rcode r) RcodeSuccess) as [E0|E0];
    destruct (Z.eqb_spec (Rcode r) RcodeNameError) as [E3|E3]; cbn;
    repeat split; try discriminate; try congruence; intuition congruence.
Qed.

End DaneFacts.

(** *** A sample DNS

    [dane.example] has two signed MX targets with TLSA records;
    [unsigned.example] answers MX without AD; [servfail.example] answers MX
    with SERVFAIL; [bogus.example] has a signed MX whose TLSA lookup answers
    SERVFAIL with an empty answer section; [down.example] has a signed MX
    whose TLSA lookup gets no response. *)

Module SampleDns.

Fixpoint ends_with_dot (s : string) : bool :=
  match s with
  | EmptyString => false
  | String c EmptyString => Ascii.eqb c "."
  | String _ s' => ends_with_dot s'
  end.

Definition Fqdn (s : string) : string := if ends_with_dot s then s else s ++ ".".

Definition Exchange (name : string) (q : qtype) : result Msg :=
  match q with
  | TypeMX =>
      if name == "dane.example." then
        Ok (mkMsg 0 true [MX 3600 "mx1.dane.example."; MX 1800 "mx2.dane.example."])
      else if name == "unsigned.example." then
        Ok (mkMsg 0 false [MX 300 "mx.unsigned.example."])
      else if name == "servfail.example." then Ok (mkMsg 2 false [])
      else if name == "bogus.example." then
        Ok (mkMsg 0 true [MX 300 "mx.bogus.example."])
      else if name == "down.example." then
        Ok (mkMsg 0 true [MX 300 "mx.down.example."])
      else Ok (mkMsg 3 true [])
  | TypeTLSA =>
      if name == "_25._tcp.mx1.dane.example." then Ok (mkMsg 0 true [TLSA 600])
      else if name == "_25._tcp.mx2.dane.example." then
        Ok (mkMsg 0 true [OtherRR 50; TLSA 7200])
      else if name == "_25._tcp.mx.unsigned.example." then Ok (mkMsg 0 true [TLSA 600])
      else if name == "_25._tcp.mx.bogus.example." then Ok (mkMsg 2 false [])
      else if name == "_25._tcp.mx.down.example." then Failed "i/o timeout"
      else Ok (mkMsg 3 true [])
  | TypeTXT =>
      if name == "_mta-sts.sts.example." then
        Ok (mkMsg 0 false [TXT 300 ["v=STSv1; id=20240101T000000"]])
      else Ok (mkMsg 3 false [])
  end.

Definition checkDANE : string -> string * Z :=
  Legacy.checkDANE Fqdn Exchange (@rev ResultWithTtl).

End SampleDns.

Example SampleDns_checkDANE :
  map SampleDns.checkDANE
    ["dane.example"; "unsigned.example"; "servfail.example"; "down.example";
     "none.example"]
  = [("dane", 600); ("", 0); ("TEMP", 0); ("TEMP", 0); ("", 0)].
Proof. reflexivity. Qed.








(** C2 on [unsigned.example]: MX records without AD, a signed TLSA record
    behind them, and still no DANE policy but the empty one. *)
Lemma checkDANE_unauthenticated_mx_witness :
  SampleDns.checkDANE "unsigned.example" = ("", 0).
Proof.
  apply (checkDANE_unauthenticated_mx SampleDns.Fqdn SampleDns.Exchange
           (@rev ResultWithTtl) "unsigned.example"
           (mkMsg 0 false [MX 300 "mx.unsigned.example."]));
    [reflexivity | reflexivity | left; reflexivity].
Defined.

(** C2 as stated fails when the AD = 0 response carries an error rcode:
    the verdict is TEMP, not None. *)
Lemma checkDANE_unauthenticated_servfail :
  SampleDns.Exchange (SampleDns.Fqdn "servfail.example") TypeMX
    = Ok (mkMsg RcodeServerFailure false [])
  /\ fst (fst (getMXRecords SampleDns.Fqdn SampleDns.Exchange "servfail.example")) = []
  /\ SampleDns.checkDANE "servfail.example" = ("TEMP", 0).
Proof. repeat split; reflexivity. Qed.

(** C5 fails on [bogus.example]: the TLSA response has rcode SERVFAIL and an
    empty answer section; [checkTLSA] reports no error and [checkDANE]
    returns the empty policy instead of TEMP. *)
Lemma checkTLSA_servfail_empty_answer :
  SampleDns.Exchange (SampleDns.Fqdn "_25._tcp.mx.bogus.example.") TypeTLSA
    = Ok (mkMsg RcodeServerFailure false [])
  /\ checkTLSA SampleDns.Fqdn SampleDns.Exchange "mx.bogus.example."
     = {| Result := false; Ttl := 0; Err := None |}
  /\ SampleDns.checkDANE "bogus.example" = ("", 0).
Proof. repeat split; reflexivity. Qed.

(** What C5 describes does hold when the answer section is not empty, and
    whatever the rcode an empty answer section is reported as "no TLSA". *)
Lemma checkTLSA_dns_error (Fqdn : string -> string)
    (Exchange : string -> qtype -> result Msg) (mx : string) (r : Msg) :
  Exchange (Fqdn ("_25._tcp." ++ mx)) TypeTLSA = Ok r ->
  (Answer r <> [] -> dns_error r = true ->
   checkTLSA Fqdn Exchange mx = {| Result := false; Ttl := 0; Err := Some "DNS error" |})
  /\ (Answer r = [] ->
      checkTLSA Fqdn Exchange mx = {| Result := false; Ttl := 0; Err := None |}).
Proof.
  intros Hr. unfold checkTLSA. rewrite Hr. split.
  - intros Hne Herr. destruct (Answer r); [congruence|]. cbn. rewrite Herr.
    reflexivity.
  - intros ->. reflexivity.
Qed.

(** *** Scheduling and TTLs of [checkDANE] *)

Definition rr_ttl (a : RR) : Z :=
  match a with
  | MX ttl _ | TLSA ttl | TXT ttl _ | OtherRR ttl => ttl
  end.

Lemma findMin_Permutation (l l' : list Z) :
  Permutation l l' -> findMin l = findMin l'.
Proof.
  intros HP. destruct l as [|a l].
  - apply Permutation_nil in HP. subst. reflexivity.
  - assert (l' <> []) as Hne'
      by (intros ->; apply Permutation_sym, Permutation_nil in HP; discriminate).
    destruct (findMin_min (a :: l)) as [Hin Hle]; [discriminate|].
    destruct (findMin_min l' Hne') as [Hin' Hle'].
    apply Z.le_antisymm.
    + apply Hle. apply (Permutation_in _ (Permutation_sym HP)), Hin'.
    + apply Hle'. apply (Permutation_in _ HP), Hin.
Qed.

Lemma forallb_Permutation {A : Type} (f : A -> bool) (l l' : list A) :
  Permutation l l' -> forallb f l = forallb f l'.
Proof.
  induction 1 as [|x l l' _ IH|x y l|l l' l'' _ IH1 _ IH2]; cbn.
  - reflexivity.
  - rewrite IH. reflexivity.
  - destruct (f x), (f y); reflexivity.
  - congruence.
Qed.

Lemma collect_Permutation (r1 r2 : list ResultWithTtl) (allHaveTLSA : bool)
    (ttls : list Z) :
  Permutation r1 r2 ->
  collect r1 allHaveTLSA ttls = collect r2 allHaveTLSA ttls.
Proof.
  intros HP. destruct (collect_cases r1 allHaveTLSA ttls) as [Hbad|Hok].
  - rewrite (collect_error r1) by exact Hbad.
    rewrite (collect_error r2); [reflexivity|].
    destruct Hbad as (bad & Hin & Hbad). exists bad.
    split; [apply (Permutation_in _ HP), Hin | exact Hbad].
  - rewrite (collect_no_error r1) by exact Hok.
    rewrite (collect_no_error r2)
      by (intros res Hin; apply Hok, (Permutation_in _ (Permutation_sym HP)), Hin).
    rewrite (forallb_Permutation Result r1 r2 HP).
    rewrite (findMin_Permutation (ttls ++ map Ttl r1) (ttls ++ map Ttl r2))
      by (apply Permutation_app_head, Permutation_map, HP).
    reflexivity.
Qed.

Lemma findMin_nonneg (l : list Z) :
  (forall t, In t l -> 0 <= t) -> 0 <= findMin l.
Proof.
  intros H. destruct l as [|a l]; [cbn; lia|].
  apply H. apply findMin_min. discriminate.
Qed.

Lemma firstTLSA_In (answer : list RR) (ttl : Z) :
  firstTLSA answer = Some ttl -> In (TLSA ttl) answer.
Proof.
  induction answer as [|a rest IH]; cbn; [discriminate|].
  destruct a; try (intros H; right; apply IH, H).
  intros [= ->]. left. reflexivity.
Qed.

(** X10. [findMin] returns 0 for the empty list and otherwise the least
    element of the list: a member that no member is below. It does not
    depend on the order of the elements. *)
Theorem findMin_least (arr : list Z) :
  (arr = [] -> findMin arr = 0)
  /\ (arr <> [] -> In (findMin arr) arr)
  /\ (forall v, In v arr -> findMin arr <= v)
  /\ (forall arr', Permutation arr arr' -> findMin arr' = findMin arr).
Proof.
  split; [intros ->; reflexivity|].
  split; [intros H; apply findMin_min, H|].
  split.
  - intros v Hv. apply findMin_min; [intros ->; destruct Hv | exact Hv].
  - intros arr' HP. symmetry. apply findMin_Permutation, HP.
Qed.

Section DaneSchedule.

Variable Fqdn : string -> string.
Variable Exchange : string -> qtype -> result Msg.

(** X11. The verdict and the TTL of [checkDANE] do not depend on the order
    in which the TLSA goroutines deliver their results: two runs over the
    same DNS answers in which every result arrives, in whatever order,
    return the same pair. *)
Theorem checkDANE_order_independent
    (arrival arrival' : list ResultWithTtl -> list ResultWithTtl)
    (domain : string) :
  (forall l, Permutation l (arrival l)) ->
  (forall l, Permutation l (arrival' l)) ->
  checkDANE Fqdn Exchange arrival domain = checkDANE Fqdn Exchange arrival' domain.
Proof.
  intros H1 H2. unfold checkDANE.
  destruct (getMXRecords Fqdn Exchange domain) as [[mxRecords ttl] [err|]];
    [reflexivity|].
  destruct (_ =? _)%nat; [reflexivity|].
  apply collect_Permutation.
  eapply Permutation_trans; [apply Permutation_sym, H1 | apply H2].
Qed.

Lemma checkTLSA_ttl (mx : string) :
  (forall name q r, Exchange name q = Ok r ->
     Forall (fun a => 0 <= rr_ttl a) (Answer r)) ->
  0 <= Ttl (checkTLSA Fqdn Exchange mx)
  /\ (Result (checkTLSA Fqdn Exchange mx) = false ->
      Ttl (checkTLSA Fqdn Exchange mx) = 0).
Proof.
  intros Hpos. unfold checkTLSA.
  destruct (Exchange _ _) as [r|err] eqn:E; [|cbn; split; [lia|reflexivity]].
  destruct (_ =? _)%nat; [cbn; split; [lia|reflexivity]|].
  destruct (dns_error r); [cbn; split; [lia|reflexivity]|].
  destruct (AuthenticatedData r); [|cbn; split; [lia|reflexivity]].
  destruct (firstTLSA (Answer r)) as [ttl|] eqn:Ef;
    [|cbn; split; [lia|reflexivity]].
  cbn. split; [|discriminate].
  apply firstTLSA_In in Ef. specialize (Hpos _ _ _ E).
  rewrite List.Forall_forall in Hpos. apply (Hpos _ Ef).
Qed.

(** X12. Over DNS answers whose TTLs are not negative (they are [uint32]),
    and whatever the order in which the TLSA results arrive: [checkDANE]
    returns one of ["dane"], the empty policy and ["TEMP"]; its TTL is never
    negative; and only ["dane"] comes with a TTL other than 0, since a
    target without usable TLSA records counts with TTL 0. *)
Theorem checkDANE_ttl_only_for_dane
    (arrival : list ResultWithTtl -> list ResultWithTtl) (domain : string) :
  (forall l, Permutation l (arrival l)) ->
  (forall name q r, Exchange name q = Ok r ->
     Forall (fun a => 0 <= rr_ttl a) (Answer r)) ->
  let out := checkDANE Fqdn Exchange arrival domain in
  (fst out = "dane" \/ fst out = "" \/ fst out = "TEMP")
  /\ 0 <= snd out
  /\ (fst out <> "dane" -> snd out = 0).
Proof.
  intros Hperm Hpos out. unfold out, checkDANE, getMXRecords.
  destruct (Exchange (Fqdn domain) TypeMX) as [r|err] eqn:E;
    [|cbn; repeat split; auto; lia].
  destruct (dns_error r); [cbn; repeat split; auto; lia|].
  set (answers := if AuthenticatedData r then Answer r else []).
  set (mxRecords := flat_map _ answers). set (mxTtls := flat_map _ answers).
  destruct (_ =? _)%nat; [cbn; repeat split; auto; lia|].
  assert (0 <= findMin mxTtls) as Hmx.
  { apply findMin_nonneg. intros t Hin. unfold mxTtls in Hin.
    apply List.in_flat_map in Hin as (a & Ha & Hin).
    specialize (Hpos _ _ _ E). rewrite List.Forall_forall in Hpos.
    assert (In a (Answer r)) as Ha'
      by (unfold answers in Ha; destruct (AuthenticatedData r);
          [exact Ha | destruct Ha]).
    specialize (Hpos _ Ha'). destruct a; cbn in Hin; [|destruct Hin..].
    destruct Hin as [<-|[]]. exact Hpos. }
  set (results := arrival (map (checkTLSA Fqdn Exchange) mxRecords)).
  assert (forall res, In res results ->
            0 <= Ttl res /\ (Result res = false -> Ttl res = 0)) as Hres.
  { intros res Hin. unfold results in Hin.
    apply (Permutation_in _ (Permutation_sym (Hperm _))) in Hin.
    apply List.in_map_iff in Hin as (mx & <- & _). apply checkTLSA_ttl, Hpos. }
  destruct (collect_cases results true [findMin mxTtls]) as [Hbad|Hok].
  - rewrite collect_error by exact Hbad. cbn. repeat split; auto; lia.
  - rewrite collect_no_error by exact Hok. cbn [andb fst snd].
    set (ttls := ([findMin mxTtls] ++ map Ttl results)%list).
    destruct (findMin_min ttls) as [Hin Hle]; [discriminate|].
    assert (0 <= findMin ttls) as Hnonneg.
    { destruct Hin as [<-|Hin]; [exact Hmx|].
      apply List.in_map_iff in Hin as (res & <- & Hin). apply Hres, Hin. }
    split; [destruct (forallb Result results); auto|].
    split; [exact Hnonneg|].
    destruct (forallb Result results) eqn:Eall; [congruence|]. intros _.
    assert (exists res, In res results /\ Result res = false) as (res & Hin' & Hf).
    { clear -Eall. induction results as [|a l IH]; [discriminate|].
      cbn in Eall. destruct (Result a) eqn:Ea.
      - destruct (IH Eall) as (res & H & Hf). exists res. split; [right|]; assumption.
      - exists a. split; [left; reflexivity | exact Ea]. }
    assert (findMin ttls <= 0).
    { apply Hle. right. apply List.in_map_iff. exists res.
      split; [apply Hres; assumption | exact Hin']. }
    lia.
Qed.

End DaneSchedule.

Lemma SampleDns_ttls (name : string) (q : qtype) (r : Msg) :
  SampleDns.Exchange name q = Ok r -> Forall (fun a => 0 <= rr_ttl a) (Answer r).
Proof.
  unfold SampleDns.Exchange. destruct q;
    repeat match goal with
           | |- context [if ?c then _ else _] => destruct c
           end;
    intros [= <-]; repeat constructor; cbn; lia.
Qed.

(** On [dane.example] the two TLSA results in either order give the same
    pair. *)
Lemma checkDANE_order_independent_witness :
  checkDANE SampleDns.Fqdn SampleDns.Exchange (@rev ResultWithTtl) "dane.example"
  = checkDANE SampleDns.Fqdn SampleDns.Exchange (fun l => l) "dane.example".
Proof.
  apply (checkDANE_order_independent SampleDns.Fqdn SampleDns.Exchange
           (@rev ResultWithTtl) (fun l => l) "dane.example").
  - intros l. apply Permutation_rev.
  - intros l. apply Permutation_refl.
Defined.

(** On [bogus.example], whose only target has no usable TLSA record, the
    empty policy comes with TTL 0 although the MX record has TTL 300. *)
Lemma checkDANE_ttl_only_for_dane_witness :
  fst (SampleDns.checkDANE "bogus.example") <> "dane"
  /\ snd (SampleDns.checkDANE "bogus.example") = 0.
Proof.
  split; [discriminate|].
  apply (checkDANE_ttl_only_for_dane SampleDns.Fqdn SampleDns.Exchange
           (@rev ResultWithTtl) "bogus.example").
  - intros l. apply Permutation_rev.
  - apply SampleDns_ttls.
  - discriminate.
Defined.

(** *** The MTA-STS evaluator *)

(** The line feed. *)
Definition LF : string := String "010"%char EmptyString.

Fixpoint contains (slice : list string) (item : string) : bool :=
  match slice with
  | [] => false
  | a :: rest => if a == item then true else contains rest item
  end.

(** The variables of [generateTlsPolicyMap]. *)
Record policy_vars := mkVars {
  mxServers : list string;
  mode : string;
  maxAge : Z
}.

Section MtaSts.

Variable TrimSpace : string -> string.
Variable Fqdn : string -> string.
Variable Exchange : string -> qtype -> result Msg.
(** [http.Get]: the status code and the lines a [bufio.Scanner] reads from
    the body. *)
Variable httpGet : string -> result (Z * list string).

(** [strings.TrimSpace(strings.Split(line, ":")[1])] *)
Definition field (line : string) : string :=
  TrimSpace (nth 1 (Split line ":") "").

(** The body of the loop over the lines. *)
Definition scan_line (v : policy_vars) (line : string) : policy_vars :=
  let v :=
    if HasPrefix line "mode:"
    then {| mxServers := mxServers v; mode := field line; maxAge := maxAge v |}
    else v in
  let v :=
    if HasPrefix line "max_age:" then
      match Strconv.ParseUint_10 (field line) 32 with
      | Some age => {| mxServers := mxServers v; mode := mode v; maxAge := age |}
      | None => v
      end
    else v in
  if HasPrefix line "mx:" then
    let mxServer := field line in
    let mxServer :=
      if HasPrefix mxServer "*." then slice_from 1 mxServer else mxServer in
    if negb (contains (mxServers v) mxServer)
    then {| mxServers := (mxServers v ++ [mxServer])%list;
            mode := mode v; maxAge := maxAge v |}
    else v
  else v.

Definition generateTlsPolicyMap (policy : string) : string * Z :=
  let lines := Split (TrimSpace policy) LF in
  let v := fold_left scan_line lines (mkVars [] "" 0) in
  if mode v == "enforce" then
    ("secure match=" ++ Join (mxServers v) ":" ++ " servername=hostname", maxAge v)
  else ("", maxAge v).

Definition checkMTASTSRecord (domain : string) : bool * option string :=
  match Exchange (Fqdn ("_mta-sts." ++ domain)) TypeTXT with
  | Failed _ => (false, Some "DNS error")
  | Ok r =>
      if dns_error r then (false, Some "DNS error")
      else if (List.length (Answer r) =? 0)%nat then (false, None)
      else
        (existsb
           (fun answer =>
              match answer with
              | TXT _ txt => existsb (fun txtRecord => HasPrefix txtRecord "v=STSv1") txt
              | _ => false
              end)
           (Answer r),
         None)
  end.

Definition checkMTASTS (domain : string) : string * Z :=
  let '(hasRecord, err) := checkMTASTSRecord domain in
  match err with
  | Some _ => ("TEMP", 0)
  | None =>
      if negb hasRecord then ("", 0)
      else
        let mtaSTSURL := "https://mta-sts." ++ domain ++ "/.well-known/mta-sts.txt" in
        match httpGet mtaSTSURL with
        | Failed _ => ("TEMP", 0)
        | Ok (status, lines) =>
            if negb (status =? 200) then ("TEMP", 0)
            else generateTlsPolicyMap (String.concat "" (map (fun l => l ++ LF) lines))
        end
  end.

(** What the loop leaves in its variables, read off the lines one variable
    at a time: the last [mode:] field, the last [max_age:] field that parses,
    and the [mx:] fields in order of first appearance, each without its
    leading ["*"] when it starts with ["*."]. *)
Definition mode_of (lines : list string) : string :=
  List.last (map field (List.filter (fun l => HasPrefix l "mode:") lines)) "".

Definition max_age_of (lines : list string) : Z :=
  List.last
    (flat_map
       (fun l =>
          if HasPrefix l "max_age:" then
            match Strconv.ParseUint_10 (field l) 32 with Some age => [age] | None => [] end
          else [])
       lines)
    0.

Definition wildcard_tail (pattern : string) : string :=
  if HasPrefix pattern "*." then slice_from 1 pattern else pattern.

Fixpoint first_occurrences (l : list string) : list string :=
  match l with
  | [] => []
  | x :: rest => x :: List.filter (fun y => negb (y == x)) (first_occurrences rest)
  end.

Definition mx_patterns (lines : list string) : list string :=
  first_occurrences
    (map (fun l => wildcard_tail (field l))
       (List.filter (fun l => HasPrefix l "mx:") lines)).

End MtaSts.

(** The directive in the specification's words: the patterns as listed, a
    leading ["*."] stripped to the bare tail, joined by colons. *)
Definition spec_bare_tail (pattern : string) : string :=
  if HasPrefix pattern "*." then slice_from 2 pattern else pattern.

Definition spec_directive (mxs : list string) : string :=
  "secure match=" ++ Join (map spec_bare_tail mxs) ":" ++ " servername=hostname".

(** *** The loop of [generateTlsPolicyMap], one variable at a time *)

Lemma last_default {A : Type} (l : list A) (d d' : A) :
  l <> [] -> List.last l d = List.last l d'.
Proof.
  induction l as [|a [|b l] IH]; intros H; [congruence | reflexivity |].
  change (List.last (b :: l) d = List.last (b :: l) d').
  apply IH. discriminate.
Qed.

Lemma last_cons {A : Type} (a : A) (l : list A) (d : A) :
  List.last (a :: l) d = List.last l a.
Proof.
  destruct l as [|b l]; [reflexivity|].
  change (List.last (b :: l) d = List.last (b :: l) a).
  apply last_default. discriminate.
Qed.

Lemma contains_app (acc : list string) (x y : string) :
  contains (acc ++ [x]) y = contains acc y || (x == y).
Proof.
  induction acc as [|a acc IH]; cbn.
  - destruct (x == y); reflexivity.
  - destruct (a == y); [reflexivity | exact IH].
Qed.

Lemma contains_eq (acc : list string) (x y : string) :
  contains acc x = true -> contains acc y = false -> (y == x) = false.
Proof.
  intros Hx Hy. destruct (String.eqb_spec y x) as [->|]; congruence.
Qed.

Lemma filter_absorb {A : Type} (p q : A -> bool) (l : list A) :
  (forall y, p y = true -> q y = true) ->
  List.filter p (List.filter q l) = List.filter p l.
Proof.
  intros H. induction l as [|a l IH]; [reflexivity|]. cbn.
  destruct (q a) eqn:Eq; cbn; destruct (p a) eqn:Ep; try congruence.
  rewrite (H a Ep) in Eq. discriminate.
Qed.

Lemma filter_both {A : Type} (p q : A -> bool) (l : list A) :
  List.filter p (List.filter q l) = List.filter (fun y => q y && p y) l.
Proof.
  induction l as [|a l IH]; [reflexivity|]. cbn.
  destruct (q a); cbn; [destruct (p a)|]; congruence.
Qed.

(** Appending the items not yet present, as the [mx:] branch does. *)
Definition add_new (acc xs : list string) : list string :=
  fold_left (fun acc x => if contains acc x then acc else (acc ++ [x])%list) xs acc.

Lemma add_new_first_occurrences (xs acc : list string) :
  add_new acc xs =
    (acc ++ List.filter (fun y => negb (contains acc y)) (first_occurrences xs))%list.
Proof.
  revert acc. induction xs as [|x xs IH]; intros acc.
  - cbn. rewrite List.app_nil_r. reflexivity.
  - unfold add_new. cbn [fold_left first_occurrences List.filter].
    fold (add_new (if contains acc x then acc else (acc ++ [x])%list) xs).
    destruct (contains acc x) eqn:Ex; cbn [negb].
    + rewrite IH. f_equal. symmetry. apply filter_absorb.
      intros y Hy. apply negb_true_iff in Hy. apply negb_true_iff.
      eapply contains_eq; eauto.
    + rewrite IH, <- List.app_assoc. cbn [List.app]. do 2 f_equal.
      rewrite filter_both. apply List.filter_ext. intros y.
      rewrite contains_app, negb_orb, andb_comm, (String.eqb_sym x y).
      reflexivity.
Qed.

Lemma add_new_nil (xs : list string) : add_new [] xs = first_occurrences xs.
Proof.
  rewrite add_new_first_occurrences. cbn [List.app].
  change (fun y : string => negb (contains [] y)) with (fun _ : string => true).
  generalize (first_occurrences xs). intros l.
  induction l as [|y l IH]; [reflexivity|].
  cbn [List.filter]. rewrite IH. reflexivity.
Qed.

Section MtaStsFacts.

Variable TrimSpace : string -> string.
Variable Fqdn : string -> string.
Variable Exchange : string -> qtype -> result Msg.
Variable httpGet : string -> result (Z * list string).

Lemma scan_line_vars (v : policy_vars) (line : string) :
  mode (scan_line TrimSpace v line)
    = (if HasPrefix line "mode:" then field TrimSpace line else mode v)
  /\ maxAge (scan_line TrimSpace v line)
    = (if HasPrefix line "max_age:" then
         match Strconv.ParseUint_10 (field TrimSpace line) 32 with
         | Some age => age
         | None => maxAge v
         end
       else maxAge v)
  /\ mxServers (scan_line TrimSpace v line)
    = (if HasPrefix line "mx:"
       then add_new (mxServers v) [wildcard_tail (field TrimSpace line)]
       else mxServers v).
Proof.
  unfold scan_line, add_new, wildcard_tail. cbn [fold_left].
  destruct (HasPrefix line "mode:"), (HasPrefix line "max_age:"),
    (HasPrefix line "mx:");
    try destruct (Strconv.ParseUint_10 (field TrimSpace line) 32);
    cbn [mode maxAge mxServers];
    try destruct (contains _ _); cbn; repeat split; reflexivity.
Qed.

Lemma fold_scan_line (lines : list string) (v : policy_vars) :
  let v' := fold_left (scan_line TrimSpace) lines v in
  mode v'
    = List.last (map (field TrimSpace) (List.filter (fun l => HasPrefix l "mode:") lines))
        (mode v)
  /\ maxAge v'
    = List.last
        (flat_map
           (fun l =>
              if HasPrefix l "max_age:" then
                match Strconv.ParseUint_10 (field TrimSpace l) 32 with
                | Some age => [age]
                | None => []
                end
              else [])
           lines)
        (maxAge v)
  /\ mxServers v'
    = add_new (mxServers v)
        (map (fun l => wildcard_tail (field TrimSpace l))
           (List.filter (fun l => HasPrefix l "mx:") lines)).
Proof.
  revert v. induction lines as [|line lines IH]; intros v.
  - repeat split; reflexivity.
  - cbn [fold_left]. specialize (IH (scan_line TrimSpace v line)).
    cbv zeta in IH |- *. destruct IH as (Hmode & Hage & Hmx).
    destruct (scan_line_vars v line) as (Smode & Sage & Smx).
    rewrite Hmode, Hage, Hmx, Smode, Sage, Smx. cbn [List.filter flat_map].
    repeat split.
    + destruct (HasPrefix line "mode:"); [|reflexivity].
      cbn [map]. rewrite last_cons. reflexivity.
    + destruct (HasPrefix line "max_age:"); [|reflexivity].
      destruct (Strconv.ParseUint_10 (field TrimSpace line) 32); [|reflexivity].
      cbn [List.app]. rewrite last_cons. reflexivity.
    + destruct (HasPrefix line "mx:"); reflexivity.
Qed.

(** C6, as amended. For every policy text: [generateTlsPolicyMap] returns,
    when the last [mode:] field is [enforce], the directive
    ["secure match=" + join(mxs, ":") + " servername=hostname"] where [mxs]
    are the distinct [mx:] fields in order of first appearance, a field that
    starts with ["*."] having lost its ["*"] only (it keeps the dot), and
    the empty policy for any other mode; the TTL is the last [max_age:] field
    that parses as an unsigned 32-bit decimal, 0 if none does. And
    [checkMTASTS] returns exactly that for the document it fetched, once the
    TXT record is there and the status is 200. *)
Theorem generateTlsPolicyMap_directive (policy : string) :
  let lines := Split (TrimSpace policy) LF in
  generateTlsPolicyMap TrimSpace policy =
    (if mode_of TrimSpace lines == "enforce"
     then "secure match=" ++ Join (mx_patterns TrimSpace lines) ":"
            ++ " servername=hostname"
     else "",
     max_age_of TrimSpace lines)
  /\ (forall tail, wildcard_tail ("*." ++ tail) = "." ++ tail)
  /\ (forall pattern, HasPrefix pattern "*." = false -> wildcard_tail pattern = pattern)
  /\ (forall domain body,
        checkMTASTSRecord Fqdn Exchange domain = (true, None) ->
        httpGet ("https://mta-sts." ++ domain ++ "/.well-known/mta-sts.txt")
          = Ok (200, body) ->
        String.concat "" (map (fun l => l ++ LF) body) = policy ->
        checkMTASTS TrimSpace Fqdn Exchange httpGet domain
          = generateTlsPolicyMap TrimSpace policy).
Proof.
  intros lines. split; [|split; [|split]].
  - unfold generateTlsPolicyMap. fold lines.
    pose proof (fold_scan_line lines (mkVars [] "" 0)) as H. cbv zeta in H.
    destruct H as (Hmode & Hage & Hmx). cbn [mode maxAge mxServers] in *.
    rewrite Hmode, Hage, Hmx, add_new_nil.
    unfold mode_of, mx_patterns, max_age_of.
    destruct (_ == "enforce"); reflexivity.
  - intros tail. destruct tail; reflexivity.
  - intros pattern H. unfold wildcard_tail. rewrite H. reflexivity.
  - intros domain body Hrec Hget Hbody. unfold checkMTASTS.
    rewrite Hrec. cbn [negb]. rewrite Hget. cbn. rewrite Hbody. reflexivity.
Qed.

End MtaStsFacts.

(** A sample policy host for [sts.example]. *)
Definition sample_httpGet (url : string) : result (Z * list string) :=
  if url == "https://mta-sts.sts.example/.well-known/mta-sts.txt" then
    Ok (200, ["version: STSv1"; "mode: enforce"; "mx: mx1.sts.example";
              "mx: *.sts.example"; "mx: mx1.sts.example"; "max_age: 86400"])
  else Failed "no such host".

Definition sample_policy : string :=
  String.concat ""
    (map (fun l => l ++ LF)
       ["version: STSv1"; "mode: enforce"; "mx: mx1.sts.example";
        "mx: *.sts.example"; "mx: mx1.sts.example"; "max_age: 86400"]).

(** C6 on the policy of [sts.example]. *)
Lemma generateTlsPolicyMap_directive_witness :
  checkMTASTS Ascii7.TrimSpace SampleDns.Fqdn SampleDns.Exchange sample_httpGet
    "sts.example"
  = generateTlsPolicyMap Ascii7.TrimSpace sample_policy
  /\ generateTlsPolicyMap Ascii7.TrimSpace sample_policy
     = ("secure match=mx1.sts.example:.sts.example servername=hostname", 86400).
Proof.
  split; [|reflexivity].
  destruct (generateTlsPolicyMap_directive Ascii7.TrimSpace SampleDns.Fqdn
              SampleDns.Exchange sample_httpGet sample_policy)
    as (_ & _ & _ & Hfetch).
  apply (Hfetch "sts.example"
           ["version: STSv1"; "mode: enforce"; "mx: mx1.sts.example";
            "mx: *.sts.example"; "mx: mx1.sts.example"; "max_age: 86400"]);
    reflexivity.
Defined.

(** C6 as stated fails on a wildcard pattern and on a repeated one: the
    stated directive for the three [mx:] fields of the sample policy strips
    ["*."] and keeps the repetition; the code keeps the dot and drops the
    repetition. *)
Lemma generateTlsPolicyMap_keeps_dot :
  spec_directive ["mx1.sts.example"; "*.sts.example"; "mx1.sts.example"]
    = "secure match=mx1.sts.example:sts.example:mx1.sts.example servername=hostname"
  /\ generateTlsPolicyMap Ascii7.TrimSpace sample_policy
     = ("secure match=mx1.sts.example:.sts.example servername=hostname", 86400)
  /\ spec_directive ["*.sts.example"]
     = "secure match=sts.example servername=hostname"
  /\ generateTlsPolicyMap Ascii7.TrimSpace
       ("mode: enforce" ++ LF ++ "mx: *.sts.example" ++ LF ++ "max_age: 600" ++ LF)
     = ("secure match=.sts.example servername=hostname", 600).
Proof. repeat split; reflexivity. Qed.

(** *** Discovery, fetch and the pattern list of the MTA-STS evaluator *)

Lemma contains_In (slice : list string) (item : string) :
  contains slice item = true <-> In item slice.
Proof.
  induction slice as [|a rest IH]; cbn.
  - split; [discriminate | intros []].
  - destruct (String.eqb_spec a item) as [->|Hne].
    + split; [left; reflexivity | reflexivity].
    + rewrite IH. split; [right; assumption | intros [E|H]; [congruence | exact H]].
Qed.

Lemma first_occurrences_In (xs : list string) (x : string) :
  In x (first_occurrences xs) <-> In x xs.
Proof.
  induction xs as [|a rest IH]; cbn [first_occurrences]; [reflexivity|].
  cbn [In]. rewrite List.filter_In, IH.
  destruct (String.eqb_spec x a) as [->|Hne]; cbn.
  - split; intros _; left; reflexivity.
  - split.
    + intros [E|[H _]]; [left; exact E | right; exact H].
    + intros [E|H]; [congruence | right; split; [exact H | reflexivity]].
Qed.

Lemma first_occurrences_NoDup (xs : list string) : List.NoDup (first_occurrences xs).
Proof.
  induction xs as [|a rest IH]; cbn [first_occurrences]; constructor.
  - rewrite List.filter_In. intros [_ H]. rewrite String.eqb_refl in H.
    discriminate.
  - apply List.NoDup_filter, IH.
Qed.

Lemma number_nonneg (s : string) (acc : Z) :
  Strconv.all_bytes Strconv.is_digit s = true -> 0 <= acc ->
  0 <= Strconv.number acc s.
Proof.
  revert acc. induction s as [|c s IH]; intros acc Hd Hacc; cbn in *; [exact Hacc|].
  apply andb_true_iff in Hd as [Hc Hs]. apply IH; [exact Hs|].
  unfold Strconv.is_digit in Hc. apply andb_true_iff in Hc as [Hlo _].
  apply N.leb_le in Hlo. lia.
Qed.

Lemma ParseUint_10_range (s : string) (n : Z) :
  Strconv.ParseUint_10 s 32 = Some n -> 0 <= n < 2 ^ 32.
Proof.
  unfold Strconv.ParseUint_10.
  destruct (s == ""); [discriminate|]. cbn [orb].
  destruct (Strconv.all_bytes Strconv.is_digit s) eqn:Hd; [|discriminate].
  cbn [negb]. destruct (Z.ltb_spec (Strconv.number 0 s) (2 ^ 32)); [|discriminate].
  intros [= <-]. split; [apply number_nonneg; [exact Hd | lia] | assumption].
Qed.

(** Two DNS answers that differ at most in the AD flag. *)
Definition same_but_ad (a b : result Msg) : Prop :=
  match a, b with
  | Ok r, Ok r' => Rcode r = Rcode r' /\ Answer r = Answer r'
  | Failed _, Failed _ => True
  | _, _ => False
  end.

Section MtaStsMore.

Variable TrimSpace : string -> string.
Variable Fqdn : string -> string.
Variable Exchange : string -> qtype -> result Msg.
Variable httpGet : string -> result (Z * list string).

(** X13. [checkMTASTSRecord] reports a DNS error when the TXT exchange
    fails or the rcode is neither NOERROR nor NXDOMAIN, also when the answer
    section is empty (the rcode is looked at first, unlike in [checkTLSA]).
    Otherwise it reports no error, and a record exactly when some string of
    some TXT record of the answer starts with ["v=STSv1"]. *)
Theorem checkMTASTSRecord_txt (domain : string) :
  let name := Fqdn ("_mta-sts." ++ domain) in
  (forall err, Exchange name TypeTXT = Failed err ->
     checkMTASTSRecord Fqdn Exchange domain = (false, Some "DNS error"))
  /\ (forall r, Exchange name TypeTXT = Ok r -> dns_error r = true ->
        checkMTASTSRecord Fqdn Exchange domain = (false, Some "DNS error"))
  /\ (forall r, Exchange name TypeTXT = Ok r -> dns_error r = false ->
        snd (checkMTASTSRecord Fqdn Exchange domain) = None
        /\ (fst (checkMTASTSRecord Fqdn Exchange domain) = true <->
            exists ttl txt txtRecord,
              In (TXT ttl txt) (Answer r) /\ In txtRecord txt
              /\ HasPrefix txtRecord "v=STSv1" = true)).
Proof.
  intros name. unfold checkMTASTSRecord. fold name. split; [|split].
  - intros err ->. reflexivity.
  - intros r -> ->. reflexivity.
  - intros r -> ->. destruct (Answer r) as [|a rest] eqn:Ea.
    + cbn. split; [reflexivity|]. split; [discriminate|].
      intros (ttl & txt & rec & [] & _).
    + cbn [List.length Nat.eqb fst snd]. split; [reflexivity|].
      rewrite List.existsb_exists. split.
      * intros (answer & Hin & H). destruct answer as [| |ttl txt|]; try discriminate.
        apply List.existsb_exists in H as (rec & Hrec & Hp).
        exists ttl, txt, rec. auto.
      * intros (ttl & txt & rec & Hin & Hrec & Hp). exists (TXT ttl txt).
        split; [exact Hin|]. apply List.existsb_exists. exists rec. auto.
Qed.

(** X14. The MTA-STS evaluator never looks at the AD flag: over two
    resolvers whose TXT answers differ at most in that flag,
    [checkMTASTSRecord] and [checkMTASTS] return the same. *)
Theorem checkMTASTS_ignores_ad (Exchange' : string -> qtype -> result Msg)
    (domain : string) :
  (forall name, same_but_ad (Exchange name TypeTXT) (Exchange' name TypeTXT)) ->
  checkMTASTSRecord Fqdn Exchange domain = checkMTASTSRecord Fqdn Exchange' domain
  /\ checkMTASTS TrimSpace Fqdn Exchange httpGet domain
     = checkMTASTS TrimSpace Fqdn Exchange' httpGet domain.
Proof.
  intros Hsame.
  assert (checkMTASTSRecord Fqdn Exchange domain
          = checkMTASTSRecord Fqdn Exchange' domain) as Hrec.
  { unfold checkMTASTSRecord. specialize (Hsame (Fqdn ("_mta-sts." ++ domain))).
    unfold same_but_ad in Hsame.
    destruct (Exchange _ TypeTXT) as [r|e], (Exchange' _ TypeTXT) as [r'|e'];
      try contradiction; [|reflexivity].
    destruct Hsame as [Hrcode Hanswer]. unfold dns_error.
    rewrite Hrcode, Hanswer. reflexivity. }
  split; [exact Hrec|]. unfold checkMTASTS. rewrite Hrec. reflexivity.
Qed.

Lemma scan_line_maxAge (v : policy_vars) (line : string) :
  0 <= maxAge v < 2 ^ 32 -> 0 <= maxAge (scan_line TrimSpace v line) < 2 ^ 32.
Proof.
  intros H. destruct (scan_line_vars TrimSpace v line) as (_ & -> & _).
  destruct (HasPrefix line "max_age:"); [|exact H].
  destruct (Strconv.ParseUint_10 _ 32) as [age|] eqn:E; [|exact H].
  apply (ParseUint_10_range _ _ E).
Qed.

Lemma fold_scan_line_maxAge (lines : list string) (v : policy_vars) :
  0 <= maxAge v < 2 ^ 32 ->
  0 <= maxAge (fold_left (scan_line TrimSpace) lines v) < 2 ^ 32.
Proof.
  revert v. induction lines as [|line lines IH]; intros v H; [exact H|].
  cbn [fold_left]. apply IH, scan_line_maxAge, H.
Qed.

Lemma wildcard_tail_no_star (pattern : string) :
  HasPrefix (wildcard_tail pattern) "*." = false.
Proof.
  unfold wildcard_tail. destruct (HasPrefix pattern "*.") eqn:E; [|exact E].
  unfold HasPrefix in *. destruct pattern as [|c [|c' rest]];
    cbn [String.prefix slice_from] in E |- *; try discriminate;
    repeat match type of E with
           | context [ascii_dec ?a ?b] => destruct (ascii_dec a b); subst
           end;
    try discriminate; reflexivity.
Qed.

Lemma generateTlsPolicyMap_range (policy : string) :
  fst (generateTlsPolicyMap TrimSpace policy) <> "dane"
  /\ 0 <= snd (generateTlsPolicyMap TrimSpace policy) < 2 ^ 32.
Proof.
  unfold generateTlsPolicyMap.
  pose proof (fold_scan_line_maxAge (Split (TrimSpace policy) LF) (mkVars [] "" 0))
    as Hage.
  cbn [maxAge] in Hage. specialize (Hage ltac:(lia)).
  destruct (mode _ == "enforce"); cbn [fst snd]; split;
    try exact Hage; discriminate.
Qed.

(** X15. For every policy text, the patterns [generateTlsPolicyMap] joins
    into the directive form a list without repetition that holds exactly
    the [mx:] fields of the lines (a field starting with ["*."] without its
    star) and no pattern that starts with ["*."]; the policy it returns is
    empty or the directive over that list; and the TTL it returns is a
    [uint32], a [max_age:] field that does not fit being ignored. [contains]
    is list membership. *)
Theorem generateTlsPolicyMap_mx_set (policy : string) :
  let lines := Split (TrimSpace policy) LF in
  exists mxs,
    List.NoDup mxs
    /\ (forall x, In x mxs <->
          exists line, In line lines /\ HasPrefix line "mx:" = true
                       /\ x = wildcard_tail (field TrimSpace line))
    /\ (forall x, In x mxs -> HasPrefix x "*." = false)
    /\ (fst (generateTlsPolicyMap TrimSpace policy) = ""
        \/ fst (generateTlsPolicyMap TrimSpace policy)
           = "secure match=" ++ Join mxs ":" ++ " servername=hostname")
    /\ 0 <= snd (generateTlsPolicyMap TrimSpace policy) < 2 ^ 32
    /\ (forall slice item, contains slice item = true <-> In item slice).
Proof.
  intros lines. exists (mx_patterns TrimSpace lines).
  assert (forall x, In x (mx_patterns TrimSpace lines) <->
            exists line, In line lines /\ HasPrefix line "mx:" = true
                         /\ x = wildcard_tail (field TrimSpace line)) as Hin.
  { intros x. unfold mx_patterns. rewrite first_occurrences_In, List.in_map_iff.
    split.
    - intros (line & <- & H). apply List.filter_In in H as [H Hp]. eauto.
    - intros (line & H & Hp & ->). exists line. split; [reflexivity|].
      apply List.filter_In. auto. }
  split; [apply first_occurrences_NoDup|]. split; [exact Hin|].
  split; [intros x Hx; apply Hin in Hx as (line & _ & _ & ->);
          apply wildcard_tail_no_star|].
  unfold generateTlsPolicyMap. fold lines.
  pose proof (fold_scan_line TrimSpace lines (mkVars [] "" 0)) as H.
  cbv zeta in H. destruct H as (_ & _ & Hmx). cbn [mxServers] in Hmx.
  rewrite add_new_nil in Hmx. fold (mx_patterns TrimSpace lines) in Hmx.
  pose proof (fold_scan_line_maxAge lines (mkVars [] "" 0)) as Hage.
  cbn [maxAge] in Hage. specialize (Hage ltac:(lia)).
  split; [|split; [|exact contains_In]].
  - destruct (mode _ == "enforce"); [right|left; reflexivity].
    cbn [fst]. rewrite Hmx. reflexivity.
  - destruct (mode _ == "enforce"); exact Hage.
Qed.

(** X16. [checkMTASTS] fetches the policy only for a domain whose TXT lookup
    found a record: when the lookup failed the result is TEMP with TTL 0,
    when it found no record it is the empty policy with TTL 0, in both cases
    whatever the policy host would answer. With a record, a failed fetch or
    a status other than 200 gives TEMP with TTL 0. In every case the policy
    is never ["dane"] and the TTL is a [uint32]. *)
Theorem checkMTASTS_fetch (domain : string) :
  let out := checkMTASTS TrimSpace Fqdn Exchange httpGet domain in
  let url := "https://mta-sts." ++ domain ++ "/.well-known/mta-sts.txt" in
  (forall err, snd (checkMTASTSRecord Fqdn Exchange domain) = Some err ->
     forall httpGet',
       checkMTASTS TrimSpace Fqdn Exchange httpGet' domain = ("TEMP", 0))
  /\ (checkMTASTSRecord Fqdn Exchange domain = (false, None) ->
      forall httpGet',
        checkMTASTS TrimSpace Fqdn Exchange httpGet' domain = ("", 0))
  /\ (checkMTASTSRecord Fqdn Exchange domain = (true, None) ->
      (forall err, httpGet url = Failed err -> out = ("TEMP", 0))
      /\ (forall status body, httpGet url = Ok (status, body) -> status <> 200 ->
            out = ("TEMP", 0)))
  /\ fst out <> "dane"
  /\ 0 <= snd out < 2 ^ 32.
Proof.
  intros out url. unfold out, checkMTASTS. fold url.
  destruct (checkMTASTSRecord Fqdn Exchange domain) as [hasRecord [e|]].
  { cbn. repeat split; try discriminate; try lia; intros; discriminate. }
  destruct hasRecord; cbn [negb fst snd].
  2: { repeat split; try discriminate; try lia; intros; discriminate. }
  split; [intros; discriminate|]. split; [intros; discriminate|].
  destruct (httpGet url) as [[status body]|e].
  2: { repeat split; try discriminate; try lia. }
  destruct (Z.eqb_spec status 200) as [->|Hne]; cbn [negb].
  - destruct (generateTlsPolicyMap_range
                (String.concat "" (map (fun l => l ++ LF) body)))
      as [Hpol Hage].
    split; [split; [intros; discriminate | intros ? ? [= <- <-]; congruence]|].
    split; [exact Hpol | exact Hage].
  - repeat split; try discriminate; try lia.
Qed.

End MtaStsMore.

(** A resolver that answers as the sample one but sets AD on every TXT
    answer. *)
Definition Exchange_signed_txt (name : string) (q : qtype) : result Msg :=
  match q, SampleDns.Exchange name q with
  | TypeTXT, Ok r => Ok (mkMsg (Rcode r) true (Answer r))
  | _, a => a
  end.

Lemma checkMTASTS_ignores_ad_witness :
  checkMTASTS Ascii7.TrimSpace SampleDns.Fqdn SampleDns.Exchange sample_httpGet
    "sts.example"
  = checkMTASTS Ascii7.TrimSpace SampleDns.Fqdn Exchange_signed_txt sample_httpGet
      "sts.example".
Proof.
  apply (checkMTASTS_ignores_ad Ascii7.TrimSpace SampleDns.Fqdn SampleDns.Exchange
           sample_httpGet Exchange_signed_txt "sts.example").
  intros name. unfold same_but_ad, Exchange_signed_txt.
  destruct (SampleDns.Exchange name TypeTXT); [split; reflexivity | exact I].
Defined.

(** The TXT record of [sts.example] is found, and for a domain without one
    the policy host is not asked, whatever it would serve. *)
Lemma checkMTASTSRecord_txt_witness :
  fst (checkMTASTSRecord SampleDns.Fqdn SampleDns.Exchange "sts.example") = true.
Proof.
  destruct (checkMTASTSRecord_txt SampleDns.Fqdn SampleDns.Exchange "sts.example")
    as (_ & _ & H).
  destruct (H (mkMsg 0 false [TXT 300 ["v=STSv1; id=20240101T000000"]])
              eq_refl eq_refl) as [_ Hiff].
  apply Hiff. exists 300, ["v=STSv1; id=20240101T000000"], "v=STSv1; id=20240101T000000".
  repeat split; left; reflexivity.
Defined.

Lemma checkMTASTS_fetch_witness :
  checkMTASTS Ascii7.TrimSpace SampleDns.Fqdn SampleDns.Exchange
    (fun _ => Ok (200, ["mode: enforce"; "mx: mx.none.example"; "max_age: 86400"]))
    "none.example"
  = ("", 0).
Proof.
  destruct (checkMTASTS_fetch Ascii7.TrimSpace SampleDns.Fqdn SampleDns.Exchange
              sample_httpGet "none.example") as (_ & H & _).
  apply H. reflexivity.
Defined.

(** *** The single-file handler: merging and caching (lines 150-211) *)

Definition CACHE_KEY_PREFIX : string := "TLSPOL-".
Definition CACHE_MIN : Z := 300.

(** The conversion [int32(ttl)] of a [uint32]. *)
Definition int32 (x : Z) : Z :=
  let y := x mod 2 ^ 32 in
  if y <? 2 ^ 31 then y else y - 2 ^ 32.

Definition cacheKey (domain : string) : string :=
  let hashedDomain := Sha256.Sum256 domain in
  CACHE_KEY_PREFIX ++
    Base32.EncodeToString
      (Base32.WithPadding Base32.StdEncoding Base32.NoPadding) hashedDomain.

(** The two goroutines, each under the mutex, on [result, resultTtl]. *)
Definition dane_goroutine (dane : string * Z) (st : string * Z) : string * Z :=
  let '(danePol, daneTtl) := dane in
  if negb (danePol == "") then (danePol, int32 daneTtl) else st.

Definition sts_goroutine (sts : string * Z) (st : string * Z) : string * Z :=
  let '(stsPol, stsTtl) := sts in
  if negb (stsPol == "") && (fst st == "") then (stsPol, int32 stsTtl) else st.

(** After [wg.Wait()]: the frame written, and the result and the seconds
    passed to [client.Set]. *)
Definition resolve (dane sts : string * Z) (daneFirst : bool) : string * string * Z :=
  let st0 := ("", CACHE_MIN) in
  let '(result, resultTtl) :=
    if daneFirst then sts_goroutine sts (dane_goroutine dane st0)
    else dane_goroutine dane (sts_goroutine sts st0) in
  if result == "" then ("9:NOTFOUND ,", result, CACHE_MIN)
  else if result == "TEMP" then ("5:TEMP ,", result, 10)
  else
    (NilZero.string_of_uint (Nat.to_uint (String.length result + 3))
       ++ ":OK " ++ result ++ ",",
     result, resultTtl).

Example resolve_examples :
  resolve ("dane", 3600) ("secure match=mx.example.com servername=hostname", 86400) false
    = ("7:OK dane,", "dane", 3600)
  /\ resolve ("TEMP", 0) ("secure match=mx.example.com servername=hostname", 86400) true
    = ("5:TEMP ,", "TEMP", 10)
  /\ resolve ("", 0) ("", 0) true = ("9:NOTFOUND ,", "", 300)
  /\ resolve ("dane", 30) ("", 0) true = ("7:OK dane,", "dane", 30).
Proof. repeat split; reflexivity. Qed.

Lemma cacheKey_getCacheKey (domain : string) :
  cacheKey domain = Server.getCacheKey domain.
Proof. reflexivity. Qed.

(** The older handler merges as [queryDomain] does: the DANE result when it
    is not empty, otherwise the MTA-STS result, in either order. *)
Lemma resolve_precedence (dane sts : string * Z) (daneFirst : bool) :
  snd (fst (resolve dane sts daneFirst))
  = (if fst dane == "" then fst sts else fst dane).
Proof.
  destruct dane as [danePol daneTtl], sts as [stsPol stsTtl].
  unfold resolve, dane_goroutine, sts_goroutine. cbn [fst snd].
  destruct daneFirst;
    destruct (String.eqb_spec danePol "") as [->|Hd];
    destruct (String.eqb_spec stsPol "") as [->|Hs]; cbn;
    repeat match goal with
           | |- context [?x == ?y] => destruct (String.eqb_spec x y); cbn
           end; congruence.
Qed.

(** *** The single-file handler: reading the request (lines 119-148) *)

(** What the handler does with what it read: reply ["5:PERM ,"], reply
    ["9:NOTFOUND ,"], or go on to the cache and the evaluators. Whichever it
    is, the connection is closed afterwards. *)
Inductive request :=
| Malformed
| NotDomain
| Lookup (domain : string).

Section Request.

Variable TrimSpace ToLower : string -> string.
Variable IsIPv4 IsIPv6 : string -> bool.

Definition parse_request (received : string) : request :=
  let query := TrimSpace received in
  let parts := Split query "," in
  let query :=
    fold_left
      (fun query part =>
         let part := TrimSpace part in
         let subParts := SplitN part ":" 2 in
         if (1 <? List.length subParts)%nat then TrimSpace (nth 1 subParts "")
         else query)
      parts query in
  let parts := SplitN query " " 2 in
  if negb (List.length parts =? 2)%nat || negb (ToLower (nth 0 parts "") == "query")
  then Malformed
  else
    let domain := ToLower (TrimSpace (nth 1 parts "")) in
    if IsIPv4 domain || IsIPv6 domain then NotDomain
    else if HasPrefix domain "." then NotDomain
    else Lookup domain.

End Request.

Example parse_request_examples :
  map (parse_request Ascii7.TrimSpace Ascii7.ToLower Server.Sample.IsIPv4
         Server.Sample.IsIPv6)
    ["17:query example.com,"; "15:QUERY 192.0.2.1,"; "18:query .example.com,";
     "7:FOO bar,"; "5:query,"; "18:query exa!mple.com,"]
  = [Lookup "example.com"; NotDomain; NotDomain; Malformed; Malformed;
     Lookup "exa!mple.com"].
Proof. reflexivity. Qed.

(** *** The request the older handler reads, on 7-bit text *)

(** A byte that is no white space, colon or comma. *)
Definition plain (c : ascii) : bool :=
  negb (Ascii7.is_space c) && negb (Ascii.eqb c ":") && negb (Ascii.eqb c ",").

Definition other_than (sep c : ascii) : bool := negb (Ascii.eqb c sep).

Lemma append_assoc (a b c : string) : (a ++ b ++ c = (a ++ b) ++ c)%string.
Proof.
  induction a as [|x a IH]; [reflexivity|].
  change (String x (a ++ b ++ c) = String x ((a ++ b) ++ c))%string.
  rewrite IH. reflexivity.
Qed.

Lemma all_bytes_app (p : ascii -> bool) (a b : string) :
  Strconv.all_bytes p (a ++ b) = Strconv.all_bytes p a && Strconv.all_bytes p b.
Proof.
  induction a as [|c a IH]; [reflexivity|].
  change (String c a ++ b)%string with (String c (a ++ b)).
  cbn [Strconv.all_bytes]. rewrite IH, andb_assoc. reflexivity.
Qed.

Lemma all_bytes_impl (p q : ascii -> bool) (s : string) :
  (forall c, p c = true -> q c = true) ->
  Strconv.all_bytes p s = true -> Strconv.all_bytes q s = true.
Proof.
  intros H. induction s as [|c s IH]; cbn; [reflexivity|].
  intros E. apply andb_true_iff in E as [Ec Es].
  rewrite (H c Ec), (IH Es). reflexivity.
Qed.

Lemma prefix_one (sep c : ascii) (s : string) :
  String.prefix (String sep "") (String c s) = Ascii.eqb c sep.
Proof.
  cbn [String.prefix]. destruct (ascii_dec sep c) as [<-|Hne].
  - rewrite Ascii.eqb_refl. destruct s; reflexivity.
  - symmetry. apply Ascii.eqb_neq. congruence.
Qed.

Lemma Cut_found (sep : ascii) (a rest : string) :
  Strconv.all_bytes (other_than sep) a = true ->
  Cut (a ++ String sep rest) (String sep "") = Some (a, rest).
Proof.
  induction a as [|c a IH]; intros H.
  - change ("" ++ String sep rest) with (String sep rest).
    cbn [Cut]. rewrite prefix_one, Ascii.eqb_refl. reflexivity.
  - cbn in H. apply andb_true_iff in H as [Hc Ha].
    change (String c a ++ String sep rest) with (String c (a ++ String sep rest)).
    cbn [Cut]. rewrite prefix_one. unfold other_than in Hc.
    apply negb_true_iff in Hc. rewrite Hc, (IH Ha). reflexivity.
Qed.

Lemma SplitN_found (sep : ascii) (a rest : string) :
  Strconv.all_bytes (other_than sep) a = true ->
  SplitN (a ++ String sep rest) (String sep "") 2 = [a; rest].
Proof.
  intros H. unfold SplitN. cbn [genSplit]. rewrite (Cut_found _ _ _ H).
  reflexivity.
Qed.

Lemma Split_trailing (sep : ascii) (a : string) :
  Strconv.all_bytes (other_than sep) a = true ->
  Split (a ++ String sep "") (String sep "") = [a; ""].
Proof.
  intros H. unfold Split.
  assert (exists n, String.length (a ++ String sep "") = S n) as [n ->]
    by (destruct a; [exists 0%nat | eexists]; reflexivity).
  cbn [genSplit]. rewrite (Cut_found _ _ _ H). destruct n; reflexivity.
Qed.

Lemma TrimLeft_id (c : ascii) (s : string) :
  Ascii7.is_space c = false -> Ascii7.TrimLeft (String c s) = String c s.
Proof. intros H. cbn. rewrite H. reflexivity. Qed.

Lemma TrimRight_id (a b : string) :
  b <> "" -> Strconv.all_bytes (fun c => negb (Ascii7.is_space c)) b = true ->
  Ascii7.TrimRight (a ++ b) = (a ++ b)%string.
Proof.
  intros Hne Hb.
  assert (Ascii7.TrimRight b = b) as Hbase.
  { clear Hne. induction b as [|c b IH]; [reflexivity|].
    cbn in Hb. apply andb_true_iff in Hb as [Hc Hb]. apply negb_true_iff in Hc.
    cbn. rewrite (IH Hb), Hc. reflexivity. }
  induction a as [|x a IH]; [exact Hbase|].
  change (String x a ++ b) with (String x (a ++ b)). cbn [Ascii7.TrimRight].
  rewrite IH. destruct (a ++ b) eqn:E.
  - destruct a; [cbn in E; contradiction | discriminate].
  - rewrite andb_false_r. reflexivity.
Qed.

Lemma letter_plain (c : ascii) : Ascii7.is_letter c = true -> plain c = true.
Proof. destruct c as [[] [] [] [] [] [] [] []]; vm_compute; congruence. Qed.

Lemma lower_letter (c : ascii) :
  Ascii7.is_lower (Ascii7.to_lower c) = true -> Ascii7.is_letter c = true.
Proof.
  unfold Ascii7.to_lower, Ascii7.is_letter.
  destruct (Ascii7.is_upper c); [reflexivity|]. intros ->. reflexivity.
Qed.

Lemma ToLower_letters (s : string) :
  Strconv.all_bytes Ascii7.is_lower (Ascii7.ToLower s) = true ->
  Strconv.all_bytes Ascii7.is_letter s = true.
Proof.
  induction s as [|c s IH]; cbn; [reflexivity|].
  intros H. apply andb_true_iff in H as [Hc Hs].
  rewrite (lower_letter c Hc), (IH Hs). reflexivity.
Qed.

Lemma plain_parts (c : ascii) :
  plain c = true ->
  Ascii7.is_space c = false /\ other_than ":" c = true /\ other_than "," c = true
  /\ other_than " " c = true.
Proof. destruct c as [[] [] [] [] [] [] [] []]; vm_compute; intuition congruence. Qed.

(** X18. What the older handler makes of a request in socketmap form, a
    length, a colon, the command, a space, the name and a comma, on 7-bit
    text: whenever the command is [query] in any case and the name is not
    empty and holds no white space, colon or comma, the request is not
    malformed, and the name, lower-cased, is looked up unless it is an IP
    literal or starts with a dot. The length before the colon is not
    compared with the payload: any text without white space, colon and
    comma is accepted there, also the empty one. *)
Theorem parse_request_socketmap (IsIPv4 IsIPv6 : string -> bool)
    (len cmd name : string) :
  Strconv.all_bytes plain len = true ->
  Ascii7.ToLower cmd = "query" ->
  name <> "" ->
  Strconv.all_bytes plain name = true ->
  parse_request Ascii7.TrimSpace Ascii7.ToLower IsIPv4 IsIPv6
    (len ++ ":" ++ cmd ++ " " ++ name ++ ",")
  = (let domain := Ascii7.ToLower name in
     if IsIPv4 domain || IsIPv6 domain then NotDomain
     else if HasPrefix domain "." then NotDomain
     else Lookup domain).
Proof.
  intros Hlen Hcmd Hne Hname.
  assert (Strconv.all_bytes plain cmd = true) as Hc.
  { apply (all_bytes_impl Ascii7.is_letter); [apply letter_plain|].
    apply ToLower_letters. rewrite Hcmd. reflexivity. }
  assert (forall s p, (forall c, plain c = true -> p c = true) ->
            Strconv.all_bytes plain s = true -> Strconv.all_bytes p s = true) as Hp
    by (intros s p H; apply all_bytes_impl, H).
  assert (forall s, Strconv.all_bytes plain s = true ->
            Strconv.all_bytes (fun c => negb (Ascii7.is_space c)) s = true) as Hns
    by (intros s; apply Hp; intros c H; apply plain_parts in H as (-> & _);
        reflexivity).
  assert (forall sep, sep = ":"%char \/ sep = ","%char \/ sep = " "%char ->
            forall s, Strconv.all_bytes plain s = true ->
            Strconv.all_bytes (other_than sep) s = true) as Hsep.
  { intros sep Hs s. apply Hp. intros c H.
    apply plain_parts in H as (_ & H1 & H2 & H3).
    destruct Hs as [-> | [-> | ->]]; assumption. }
  assert (cmd <> "") as Hcne by (intros ->; discriminate).
  set (payload := (cmd ++ " " ++ name)%string).
  set (frame := (len ++ ":" ++ payload)%string).
  assert ((len ++ ":" ++ cmd ++ " " ++ name ++ ",")%string
          = (frame ++ ",")%string) as ->.
  { unfold frame, payload. rewrite <- !append_assoc. reflexivity. }
  assert (forall s, Ascii7.TrimSpace (cmd ++ s ++ name) = (cmd ++ s ++ name)%string)
    as Htrim_payload.
  { intros s. unfold Ascii7.TrimSpace.
    destruct cmd as [|c0 cmd']; [contradiction|].
    cbn in Hc. apply andb_true_iff in Hc as [Hc0 _].
    apply plain_parts in Hc0 as (Hc0 & _).
    change (String c0 cmd' ++ s ++ name)%string
      with (String c0 (cmd' ++ s ++ name)).
    rewrite (TrimLeft_id _ _ Hc0).
    change (String c0 (cmd' ++ s ++ name))
      with (String c0 cmd' ++ s ++ name)%string.
    rewrite append_assoc. apply TrimRight_id; [exact Hne | apply Hns, Hname]. }
  assert (forall tail, tail <> "" ->
            Strconv.all_bytes (fun c => negb (Ascii7.is_space c)) tail = true ->
            forall s, Ascii7.TrimSpace (len ++ ":" ++ s ++ tail)
                      = (len ++ ":" ++ s ++ tail)%string) as Htrim_frame.
  { intros tail Htne Htail s. unfold Ascii7.TrimSpace.
    assert (exists c rest, (len ++ ":" ++ s ++ tail)%string = String c rest
                           /\ Ascii7.is_space c = false) as (c & rest & E & Hsp).
    { destruct len as [|c0 len'].
      - eexists _, _. split; reflexivity.
      - cbn in Hlen. apply andb_true_iff in Hlen as [Hc0 _].
        apply plain_parts in Hc0 as (Hc0 & _).
        eexists _, _. split; [reflexivity | exact Hc0]. }
    rewrite E, (TrimLeft_id _ _ Hsp), <- E.
    rewrite !append_assoc. apply TrimRight_id; assumption. }
  assert (Strconv.all_bytes (other_than ",") frame = true) as Hframe.
  { unfold frame, payload. rewrite !all_bytes_app.
    rewrite (Hsep ","%char (or_intror (or_introl eq_refl)) len Hlen).
    rewrite (Hsep ","%char (or_intror (or_introl eq_refl)) cmd Hc).
    rewrite (Hsep ","%char (or_intror (or_introl eq_refl)) name Hname).
    reflexivity. }
  unfold parse_request.
  assert (Ascii7.TrimSpace (frame ++ ",") = (frame ++ ",")%string) as ->.
  { unfold frame. rewrite <- (append_assoc len).
    exact (Htrim_frame "," ltac:(discriminate) eq_refl payload). }
  rewrite (Split_trailing ","%char frame Hframe).
  match goal with |- context [fold_left ?f _ _] => set (step := f) end.
  change (fold_left step [frame; ""] (frame ++ ",")%string)
    with (step (step (frame ++ ",")%string frame) "").
  assert (forall q, step q frame = payload) as ->.
  { intros q. unfold step.
    assert (Ascii7.TrimSpace frame = frame) as ->.
    { unfold frame, payload. rewrite (append_assoc cmd " " name).
      apply Htrim_frame; [exact Hne | apply Hns, Hname]. }
    unfold frame.
    change (len ++ ":" ++ payload)%string with (len ++ String ":" payload)%string.
    rewrite (SplitN_found ":"%char len payload
               (Hsep ":"%char (or_introl eq_refl) len Hlen)).
    cbn [List.length Nat.ltb Nat.leb nth].
    unfold payload. apply Htrim_payload. }
  assert (step payload "" = payload) as -> by reflexivity.
  clear step. unfold payload.
  change (cmd ++ " " ++ name)%string with (cmd ++ String " " name)%string.
  rewrite (SplitN_found " "%char cmd name
             (Hsep " "%char (or_intror (or_intror eq_refl)) cmd Hc)).
  cbn [List.length Nat.eqb negb nth orb]. rewrite Hcmd.
  change ("query" == "query") with true. cbn [negb].
  assert (Ascii7.TrimSpace name = name) as ->.
  { unfold Ascii7.TrimSpace. destruct name as [|c0 name'] eqn:En; [contradiction|].
    cbn in Hname. apply andb_true_iff in Hname as [Hc0 Hrest].
    pose proof (plain_parts _ Hc0) as (Hsp & _).
    rewrite (TrimLeft_id _ _ Hsp).
    apply (TrimRight_id "" (String c0 name')); [discriminate|].
    cbn. rewrite Hsp. cbn. apply Hns, Hrest. }
  reflexivity.
Qed.

(** The request of a Postfix socketmap client for [down.example], and one
    whose length is wrong. *)
Lemma parse_request_socketmap_witness :
  parse_request Ascii7.TrimSpace Ascii7.ToLower Server.Sample.IsIPv4
    Server.Sample.IsIPv6 "18:Query Down.Example," = Lookup "down.example"
  /\ parse_request Ascii7.TrimSpace Ascii7.ToLower Server.Sample.IsIPv4
       Server.Sample.IsIPv6 "999:query 192.0.2.1," = NotDomain.
Proof.
  split.
  - apply (parse_request_socketmap Server.Sample.IsIPv4 Server.Sample.IsIPv6
             "18" "Query" "Down.Example"); [reflexivity.. | discriminate | reflexivity].
  - apply (parse_request_socketmap Server.Sample.IsIPv4 Server.Sample.IsIPv6
             "999" "query" "192.0.2.1"); [reflexivity.. | discriminate | reflexivity].
Defined.

(** *** The single-file handler as a whole (lines 108-212) *)

(** What the handler does, in order: a command to Redis, a frame written to
    the connection, the deferred [Close]. *)
Inductive effect :=
| RedisGet (key : string)
| Reply (frame : string)
| RedisSet (key value : string) (seconds : Z)
| Close.

(** [fmt.Sprintf("%d:OK %s,", len(result)+3, result)] *)
Definition ok_frame (result : string) : string :=
  NilZero.string_of_uint (Nat.to_uint (String.length result + 3))
    ++ ":OK " ++ result ++ ",".

Section Handler.

Variable TrimSpace ToLower : string -> string.
Variable IsIPv4 IsIPv6 : string -> bool.
(** The two evaluators, and whether the DANE goroutine is first to take the
    mutex. *)
Variable checkDANE checkMTASTS : string -> string * Z.
Variable daneFirst : string -> bool.

(** [handleConnection] on what [conn.Read] returned ([None] for an error)
    and on the strings Redis holds. *)
Definition handleConnection (received : option string)
    (store : gmap string string) : list effect * gmap string string :=
  match received with
  | None => ([Close], store)
  | Some bytes =>
      match parse_request TrimSpace ToLower IsIPv4 IsIPv6 bytes with
      | Malformed => ([Reply "5:PERM ,"; Close], store)
      | NotDomain => ([Reply "9:NOTFOUND ,"; Close], store)
      | Lookup domain =>
          let cacheKey := cacheKey domain in
          match store !! cacheKey with
          | Some cachedResult =>
              if cachedResult == "" then
                ([RedisGet cacheKey; Reply "9:NOTFOUND ,"; Close], store)
              else
                ([RedisGet cacheKey; Reply (ok_frame cachedResult); Close], store)
          | None =>
              let '(frame, result, resultTtl) :=
                resolve (checkDANE domain) (checkMTASTS domain) (daneFirst domain) in
              ([RedisGet cacheKey; Reply frame; RedisSet cacheKey result resultTtl;
                Close],
               <[cacheKey := result]> store)
          end
      end
  end.

End Handler.

Lemma resolve_frame (dane sts : string * Z) (daneFirst : bool) :
  let result := if fst dane == "" then fst sts else fst dane in
  exists seconds,
    resolve dane sts daneFirst
    = (if result == "" then "9:NOTFOUND ,"
       else if result == "TEMP" then "5:TEMP ,"
       else ok_frame result,
       result, seconds)
    /\ (result = "TEMP" -> seconds = 10).
Proof.
  destruct dane as [danePol daneTtl], sts as [stsPol stsTtl].
  unfold resolve, dane_goroutine, sts_goroutine, ok_frame. cbn [fst snd].
  destruct daneFirst;
    destruct (String.eqb_spec danePol "") as [->|Hd];
    destruct (String.eqb_spec stsPol "") as [->|Hs]; cbn;
    repeat match goal with
           | |- context [?x == ?y] => destruct (String.eqb_spec x y); cbn
           end;
    try congruence;
    eexists; (split; [reflexivity|]); intros; congruence.
Qed.

(** X17. In the older handler, a request for a domain whose key Redis does
    not hold is evaluated, answered and stored: the result is the DANE
    evaluator's policy when that is not empty and the MTA-STS evaluator's
    otherwise, whichever goroutine comes first. A request for the same
    domain that finds the stored string is answered from it without running
    an evaluator or writing to Redis. For a policy or an empty result the
    second reply equals the first; a temporary failure, stored as the string
    [TEMP] for 10 seconds, was answered ["5:TEMP ,"] and is now answered
    ["7:OK TEMP,"], as if [TEMP] were a policy. *)
Theorem handleConnection_stored_result
    (TrimSpace ToLower : string -> string) (IsIPv4 IsIPv6 : string -> bool)
    (checkDANE checkMTASTS checkDANE' checkMTASTS' : string -> string * Z)
    (daneFirst daneFirst' : string -> bool)
    (received domain : string) (store : gmap string string) :
  parse_request TrimSpace ToLower IsIPv4 IsIPv6 received = Lookup domain ->
  store !! cacheKey domain = None ->
  let key := cacheKey domain in
  let result :=
    if fst (checkDANE domain) == "" then fst (checkMTASTS domain)
    else fst (checkDANE domain) in
  let first := handleConnection TrimSpace ToLower IsIPv4 IsIPv6 checkDANE
                 checkMTASTS daneFirst (Some received) store in
  let second := handleConnection TrimSpace ToLower IsIPv4 IsIPv6 checkDANE'
                  checkMTASTS' daneFirst' (Some received) (snd first) in
  exists frame seconds frame',
    first = ([RedisGet key; Reply frame; RedisSet key result seconds; Close],
             <[key := result]> store)
    /\ second = ([RedisGet key; Reply frame'; Close], <[key := result]> store)
    /\ (result <> "TEMP" -> frame' = frame)
    /\ (result = "TEMP" ->
        frame = "5:TEMP ," /\ seconds = 10 /\ frame' = "7:OK TEMP,").
Proof.
  intros Hparse Hmiss key result first second.
  destruct (resolve_frame (checkDANE domain) (checkMTASTS domain)
              (daneFirst domain)) as (seconds & Hres & Htemp).
  fold result in Hres, Htemp.
  assert (first =
    ([RedisGet key;
      Reply (if result == "" then "9:NOTFOUND ,"
             else if result == "TEMP" then "5:TEMP ," else ok_frame result);
      RedisSet key result seconds; Close], <[key := result]> store)) as Hfirst.
  { unfold first, handleConnection. rewrite Hparse, Hmiss, Hres. reflexivity. }
  assert (second =
    ([RedisGet key;
      Reply (if result == "" then "9:NOTFOUND ," else ok_frame result);
      Close], <[key := result]> store)) as Hsecond.
  { unfold second. rewrite Hfirst. cbn [snd]. unfold handleConnection.
    rewrite Hparse. unfold key. rewrite lookup_insert_eq.
    destruct (result == ""); reflexivity. }
  eexists _, seconds, _. split; [exact Hfirst|]. split; [exact Hsecond|].
  split.
  - intros Hne. destruct (result == ""); [reflexivity|].
    destruct (String.eqb_spec result "TEMP"); [contradiction | reflexivity].
  - intros E. rewrite E. cbn. split; [reflexivity|]. split; [apply Htemp, E|].
    reflexivity.
Qed.

(** Two requests for [down.example], whose TLSA lookup gets no response. *)
Lemma handleConnection_stored_result_witness :
  let handle :=
    handleConnection Ascii7.TrimSpace Ascii7.ToLower Server.Sample.IsIPv4
      Server.Sample.IsIPv6 SampleDns.checkDANE
      (checkMTASTS Ascii7.TrimSpace SampleDns.Fqdn SampleDns.Exchange sample_httpGet)
      (fun _ => true) (Some "18:query down.example,") in
  exists store',
    handle ∅
    = ([RedisGet (cacheKey "down.example"); Reply "5:TEMP ,";
        RedisSet (cacheKey "down.example") "TEMP" 10; Close], store')
    /\ handle store'
       = ([RedisGet (cacheKey "down.example"); Reply "7:OK TEMP,"; Close], store').
Proof.
  intros handle.
  destruct (handleConnection_stored_result Ascii7.TrimSpace Ascii7.ToLower
              Server.Sample.IsIPv4 Server.Sample.IsIPv6 SampleDns.checkDANE
              (checkMTASTS Ascii7.TrimSpace SampleDns.Fqdn SampleDns.Exchange
                 sample_httpGet)
              SampleDns.checkDANE
              (checkMTASTS Ascii7.TrimSpace SampleDns.Fqdn SampleDns.Exchange
                 sample_httpGet)
              (fun _ => true) (fun _ => true)
              "18:query down.example," "down.example" ∅)
    as (frame & seconds & frame' & Hfirst & Hsecond & _ & Htemp).
  - reflexivity.
  - apply lookup_empty.
  - destruct Htemp as (-> & -> & ->); [reflexivity|].
    exists (<[cacheKey "down.example" := "TEMP"]> ∅).
    unfold handle. split.
    + rewrite Hfirst. reflexivity.
    + rewrite Hfirst in Hsecond. cbn [snd] in Hsecond. exact Hsecond.
Defined.

End Legacy.

(** ** The daemon and the single-file handler side by side *)



(** C7 as stated fails on JSON frames, where an IP literal and an empty
    argument are both answered with a JSON document, not with
    ["9:NOTFOUND ,"]; and in the older handler, which answers a frame without
    argument with ["5:PERM ,"] and lets a name that is no DNS name through to
    the lookup. *)
Lemma frames_answered_otherwise :
  Server.Sample.IsIPv4 "192.0.2.1" = true
  /\ Server.Sample.handleFrame "JSON 192.0.2.1" Server.empty_state
     = (Server.Continue, Server.empty_state,
        [Server.WriteJson
           (Server.Result.mk "v1" "192.0.2.1"
              (Server.DanePolicy.mk "" 0 "12ms")
              (Server.MtaStsPolicy.mk "" 0 "" "48ms"))])
  /\ Server.Sample.handleFrame "JSON " Server.empty_state
     = (Server.Continue, Server.empty_state,
        [Server.WriteJson
           (Server.Result.mk "v1" ""
              (Server.DanePolicy.mk "" 0 "12ms")
              (Server.MtaStsPolicy.mk "" 0 "" "48ms"))])
  /\ Legacy.parse_request Ascii7.TrimSpace Ascii7.ToLower Server.Sample.IsIPv4
       Server.Sample.IsIPv6 "5:query," = Legacy.Malformed
  /\ Server.Sample.IsDNSName "exa!mple.com" = false
  /\ Legacy.parse_request Ascii7.TrimSpace Ascii7.ToLower Server.Sample.IsIPv4
       Server.Sample.IsIPv6 "18:query exa!mple.com," = Legacy.Lookup "exa!mple.com".
Proof. repeat split; reflexivity. Qed.
